(** * Smart grain cooking monitoring simulator: the simulation engine,
      the decision log and the tick loop of [src/simulator.js]

    The development embeds the non-rendering part of the React component
    [GrainCookingSimulator]: the grain profile table, [calculateWaterRequired],
    [simulateCooking], [addDecision], the interval callback of the running
    effect, [handleReset] and [handleGrainChange].

    Numbers.  The code is modelled twice.  In the first model a JavaScript
    number is a [num]: an exact rational, one of the two infinities, or NaN;
    arithmetic on finite values is exact and the sign of zero is not
    modelled (a zero divisor behaves as +0); division by zero, and everything
    that follows from it, is as JavaScript does it.  The properties stated on
    this model are those that rounding does not touch: their bounds are
    closed, or they are about the structure of the code.  In the second
    model, the module [Binary64], a number is a double and every operation
    rounds as IEEE 754 does; it gives the sample of the engine and the
    product of [calculateWaterRequired] bit for bit, and the properties of
    the phase, which rest on comparisons alone, are stated and proved on it.

    State.  The engine is given both as a function of the profile, the time
    and the latches, and statement by statement over the store of the
    component (refs and queued state updates); the two are proved to
    agree. *)

From stdpp Require Import gmap strings list.
From Stdlib Require Import QArith Qround Qabs Qminmax Lqa Lia.
From Stdlib Require Import Floats.

Set Warnings "-inexact-float".

Open Scope Q_scope.

(** ** Rational helpers *)

Definition Qltb (x y : Q) : bool := negb (Qle_bool y x).

(** ** JavaScript numbers *)

Module JsNum.

Inductive num : Type :=
| Fin (q : Q)
| PInf
| NInf
| NaN.

Definition neg (a : num) : num :=
  match a with
  | Fin q => Fin (- q)
  | PInf => NInf
  | NInf => PInf
  | NaN => NaN
  end.

Definition add (a b : num) : num :=
  match a, b with
  | NaN, _ | _, NaN => NaN
  | Fin x, Fin y => Fin (x + y)
  | PInf, NInf | NInf, PInf => NaN
  | PInf, _ | _, PInf => PInf
  | NInf, _ | _, NInf => NInf
  end.

Definition sub (a b : num) : num := add a (neg b).

(** An infinity scaled by a finite factor. *)
Definition scale_inf (positive : bool) (q : Q) : num :=
  match q ?= 0 with
  | Eq => NaN
  | Gt => if positive then PInf else NInf
  | Lt => if positive then NInf else PInf
  end.

Definition mul (a b : num) : num :=
  match a, b with
  | NaN, _ | _, NaN => NaN
  | Fin x, Fin y => Fin (x * y)
  | PInf, Fin y | Fin y, PInf => scale_inf true y
  | NInf, Fin y | Fin y, NInf => scale_inf false y
  | PInf, PInf | NInf, NInf => PInf
  | PInf, NInf | NInf, PInf => NInf
  end.

Definition div (a b : num) : num :=
  match a, b with
  | NaN, _ | _, NaN => NaN
  | Fin x, Fin y =>
      if Qeq_bool y 0 then
        match x ?= 0 with
        | Eq => NaN
        | Gt => PInf
        | Lt => NInf
        end
      else Fin (x / y)
  | Fin _, (PInf | NInf) => Fin 0
  | PInf, Fin y => if Qltb y 0 then NInf else PInf
  | NInf, Fin y => if Qltb y 0 then PInf else NInf
  | (PInf | NInf), (PInf | NInf) => NaN
  end.

(** [a < b]; every comparison with NaN is false. *)
Definition ltb (a b : num) : bool :=
  match a, b with
  | NaN, _ | _, NaN => false
  | Fin x, Fin y => Qltb x y
  | NInf, (Fin _ | PInf) => true
  | Fin _, PInf => true
  | _, _ => false
  end.

(** [a <= b]. *)
Definition leb (a b : num) : bool :=
  match a, b with
  | NaN, _ | _, NaN => false
  | Fin x, Fin y => Qle_bool x y
  | NInf, _ => true
  | _, PInf => true
  | _, _ => false
  end.

Definition gtb (a b : num) : bool := ltb b a.
Definition geb (a b : num) : bool := leb b a.

(** [a === b] on numbers. *)
Definition eqb (a b : num) : bool :=
  match a, b with
  | Fin x, Fin y => Qeq_bool x y
  | PInf, PInf | NInf, NInf => true
  | _, _ => false
  end.

(** [Math.max(a, b)] and [Math.min(a, b)]: NaN when an argument is. *)
Definition max (a b : num) : num :=
  match a, b with
  | NaN, _ | _, NaN => NaN
  | _, _ => if ltb a b then b else a
  end.

Definition min (a b : num) : num :=
  match a, b with
  | NaN, _ | _, NaN => NaN
  | _, _ => if ltb b a then b else a
  end.

(** [Math.floor(a) % m === 0] for a positive integer literal [m]: the
    remainder of a non-finite value is NaN, which is not [0]. *)
Definition floor_rem_is_zero (a : num) (m : Z) : bool :=
  match a with
  | Fin q => (Z.rem (Qfloor q) m =? 0)%Z
  | _ => false
  end.

(** The same number, up to the representation of the rational. *)
Definition same (a b : num) : Prop :=
  match a, b with
  | Fin x, Fin y => x == y
  | PInf, PInf | NInf, NInf | NaN, NaN => True
  | _, _ => False
  end.

(** A finite number within the closed interval [lo, hi]. *)
Definition within (lo hi : Q) (a : num) : Prop :=
  match a with
  | Fin q => lo <= q <= hi
  | _ => False
  end.

End JsNum.

Import JsNum.
Coercion Fin : Q >-> num.

Declare Scope num_scope.
Delimit Scope num_scope with num.
Bind Scope num_scope with num.
Infix "+" := add : num_scope.
Infix "-" := sub : num_scope.
Infix "*" := mul : num_scope.
Infix "/" := div : num_scope.
Infix "<?" := ltb (at level 70) : num_scope.
Infix ">?" := gtb (at level 70) : num_scope.
Infix ">=?" := geb (at level 70) : num_scope.
Infix "===" := eqb (at level 70) : num_scope.

Open Scope string_scope.
Open Scope list_scope.

(** ** [Number.prototype.toFixed] and [parseFloat]

    The string that [x.toFixed(f)] returns is modelled by what determines it:
    the sign, and the integer [n] for which [n / 10^f] is closest to [|x|]
    (the larger one on a tie); from [10^21] on, [toFixed] prints the number
    itself.  Two such strings are equal exactly when their models are. *)

Inductive FixedString : Type :=
| Digits (negative : bool) (n : Z) (f : nat)
| Plain (negative : bool) (magnitude : Q)
| InfinityString (negative : bool)
| NaNString.

Definition pow10 (f : nat) : Q := inject_Z (10 ^ Z.of_nat f).

Definition toFixed (f : nat) (x : num) : FixedString :=
  match x with
  | Fin q =>
      let negative := Qltb q 0 in
      let a := Qabs q in
      if Qle_bool (pow10 21) a then Plain negative (Qred a)
      else Digits negative (Qfloor (a * pow10 f + 0.5)) f
  | PInf => InfinityString false
  | NInf => InfinityString true
  | NaN => NaNString
  end.

Definition signed (negative : bool) (q : Q) : Q := if negative then - q else q.

Definition parseFloat (s : FixedString) : num :=
  match s with
  | Digits negative n f => Fin (signed negative (inject_Z n / pow10 f))
  | Plain negative m => Fin (signed negative m)
  | InfinityString negative => if negative then NInf else PInf
  | NaNString => NaN
  end.

(** String equality [s1 === s2] of two [toFixed] results. *)
Definition fixed_eqb (s1 s2 : FixedString) : bool :=
  match s1, s2 with
  | Digits b1 n1 f1, Digits b2 n2 f2 =>
      Bool.eqb b1 b2 && (n1 =? n2)%Z && (f1 =? f2)%nat
  | Plain b1 m1, Plain b2 m2 => Bool.eqb b1 b2 && Qeq_bool m1 m2
  | InfinityString b1, InfinityString b2 => Bool.eqb b1 b2
  | NaNString, NaNString => true
  | _, _ => false
  end.

(** ** Grain profiles *)

Record GrainProfile : Type := mkGrain {
  name : string;
  starch : Q;
  protein : Q;
  amylose : Q;
  amylopectin : Q;
  initial_moisture : Q;
  target_moisture : Q;
  gelatinization_onset : Q;
  gelatinization_temp : Q;
  optimal_cook_time : Q;
  weight : Q;
  nir_970 : Q;
  nir_1450 : Q;
  nir_1680 : Q;
  nir_1200 : Q;
  nir_2100 : Q
}.

Definition basmati_rice : GrainProfile :=
  mkGrain "Basmati Rice" 78 7 22 78 12 65 65.9 68 10 100 0.18 0.22 0.15 0.65 0.72.

Definition chickpeas : GrainProfile :=
  mkGrain "Chickpeas" 45 20 30 70 10 70 72 75 20 100 0.15 0.19 0.38 0.52 0.68.

Definition lentils : GrainProfile :=
  mkGrain "Red Lentils" 50 25 25 75 11 68 65 70 14 100 0.16 0.2 0.42 0.58 0.7.

Definition quinoa : GrainProfile :=
  mkGrain "Quinoa" 64 14 15 85 10 62 61 65 12 100 0.14 0.18 0.28 0.6 0.78.

Definition GRAIN_PROFILES : gmap string GrainProfile :=
  <["basmati_rice" := basmati_rice]>
  (<["chickpeas" := chickpeas]>
  (<["lentils" := lentils]>
  (<["quinoa" := quinoa]> ∅))).

Inductive Phase : Type := MICROWAVE | TRANSFER | PRESSURE | COOLING | DONE.

Definition COOKING_PHASES (p : Phase) : string :=
  match p with
  | MICROWAVE => "Microwave Heating"
  | TRANSFER => "Transfer to Pressure Cooker"
  | PRESSURE => "Pressure Cooking"
  | COOLING => "Cooling/Rest"
  | DONE => "Done"
  end.

Definition phase_eqb (p q : Phase) : bool :=
  match p, q with
  | MICROWAVE, MICROWAVE | TRANSFER, TRANSFER | PRESSURE, PRESSURE
  | COOLING, COOLING | DONE, DONE => true
  | _, _ => false
  end.

(** The position of a phase in the process, MICROWAVE first. *)
Definition phase_rank (p : Phase) : nat :=
  match p with
  | MICROWAVE => 0
  | TRANSFER => 1
  | PRESSURE => 2
  | COOLING => 3
  | DONE => 4
  end.

(** ** [calculateWaterRequired] *)

(** What a property read [object[key]] of an object literal with number
    properties gives: the number of an own property, an inherited function or
    object, or [undefined]. *)
Inductive JsValue : Type :=
| VUndefined
| VNumber (x : num)
| VObject.

(** The properties that an object literal inherits from [Object.prototype]:
    functions, and the accessor [__proto__], which gives the prototype. *)
Definition Object_prototype : list string :=
  [ "constructor"; "hasOwnProperty"; "isPrototypeOf"; "propertyIsEnumerable";
    "toLocaleString"; "toString"; "valueOf"; "__proto__";
    "__defineGetter__"; "__defineSetter__"; "__lookupGetter__";
    "__lookupSetter__" ].

Definition inherited (key : string) : bool :=
  existsb (String.eqb key) Object_prototype.

Definition getProperty (own : gmap string Q) (key : string) : JsValue :=
  match own !! key with
  | Some x => VNumber (Fin x)
  | None => if inherited key then VObject else VUndefined
  end.

(** [ToBoolean]: [undefined], zero and NaN are false. *)
Definition truthy (v : JsValue) : bool :=
  match v with
  | VUndefined => false
  | VNumber (Fin q) => negb (Qeq_bool q 0)
  | VNumber NaN => false
  | VNumber _ => true
  | VObject => true
  end.

(** [v || d]. *)
Definition or_else (v : JsValue) (d : Q) : JsValue :=
  if truthy v then v else VNumber (Fin d).

(** [ToNumber]: a function, and [Object.prototype], convert to NaN. *)
Definition toNumber (v : JsValue) : num :=
  match v with
  | VNumber x => x
  | VUndefined | VObject => NaN
  end.

Definition waterRatios : gmap string Q :=
  <["basmati_rice" := 1.5]>
  (<["chickpeas" := 3.0]>
  (<["lentils" := 2.5]>
  (<["quinoa" := 2.0]> ∅))).

(** Lines 139-149.  [grainWeight] is [100] or
    [Math.max(1, parseInt(..) || 1)]: a whole number of at least 1 (or
    Infinity, for a digit string beyond the range of the doubles, which is
    left out here).  The product is the exact one; [Binary64] has the
    function with the rounded product. *)
Definition calculateWaterRequired (selectedGrain : string) (grainWeight : Z)
  : FixedString :=
  let ratio := or_else (getProperty waterRatios selectedGrain) 2.0 in
  toFixed 1 (Fin (inject_Z grainWeight) * toNumber ratio)%num.

(** ** Decision log *)

(** The message of a log entry: the template of the source, with the values
    it interpolates. *)
Inductive Message : Type :=
| NirScanComplete (n970 n1450 n1680 n1200 n2100 : Q)
| Composition (moisture starch protein amylose amylopectin : Q)
| GelatinizationOnset (onset : Q) (ultrasonic : FixedString)
| MicrowaveStatus (power coreTemp moisture : FixedString)
| TransferringVessel
| GelatinizationComplete (ultrasonic : FixedString)
| BuildingPressure (pressure ultrasonic : FixedString)
| HoldingPressure (pressure ultrasonic : FixedString)
| Depressurizing (pressure coolingTo : FixedString)
| CookingComplete (moisture ultrasonic : FixedString).

Record Decision : Type := mkDecision {
  d_time : num;
  d_message : Message
}.

(** The updater that [addDecision(time, message)] hands to [setDecisions]. *)
Definition addDecision (time : num) (message : Message) (prev : list Decision)
  : list Decision :=
  let timeKey := toFixed 1 (time / 60)%num in
  let exists_ := existsb (fun d => fixed_eqb (toFixed 1 (d_time d)) timeKey) prev in
  if negb exists_ then prev ++ [mkDecision (time / 60)%num message]
  else prev.

(** One call [addDecision(time, message)] made by the engine. *)
Record Call : Type := mkCall {
  c_time : num;
  c_message : Message
}.

(** React runs the queued updaters in the order of the calls. *)
Definition record_calls (calls : list Call) (log : list Decision) : list Decision :=
  fold_left (fun l c => addDecision (c_time c) (c_message c) l) calls log.

(** ** The simulation engine *)

Record Latches : Type := mkLatches {
  nirScanLogged : bool;
  gelOnsetLogged : bool;
  gelCompleteLogged : bool;
  transferLogged : bool
}.

Definition set_nirScanLogged (r : Latches) : Latches :=
  mkLatches true (gelOnsetLogged r) (gelCompleteLogged r) (transferLogged r).
Definition set_gelOnsetLogged (r : Latches) : Latches :=
  mkLatches (nirScanLogged r) true (gelCompleteLogged r) (transferLogged r).
Definition set_gelCompleteLogged (r : Latches) : Latches :=
  mkLatches (nirScanLogged r) (gelOnsetLogged r) true (transferLogged r).
Definition set_transferLogged (r : Latches) : Latches :=
  mkLatches (nirScanLogged r) (gelOnsetLogged r) (gelCompleteLogged r) true.

Inductive Transformation : Type :=
| Hydration
| GelatinizationOnsetStage
| CompleteGelatinization
| FullyCooked.

Definition transformation_label (t : Transformation) : string :=
  match t with
  | Hydration => "Hydration"
  | GelatinizationOnsetStage => "Gelatinization Onset"
  | CompleteGelatinization => "Complete Gelatinization"
  | FullyCooked => "Fully Cooked"
  end.

(** The local variables of [simulateCooking] that a phase branch assigns. *)
Record Reading : Type := mkReading {
  r_moisture : num;
  r_temperature : num;
  r_pressure : num;
  r_ultrasonicVelocity : num;
  r_microwavePower : num;
  r_phase : Phase;
  r_gelatinizationProgress : num
}.

(** What a block of [simulateCooking] leaves behind: the locals, the calls
    to [addDecision] it made, in order, and the latches. *)
Definition Block : Type := (Reading * list Call * Latches)%type.

Record Sample : Type := mkSample {
  time : num;
  moisture : num;
  temperature : num;
  pressure : num;
  ultrasonicVelocity : num;
  microwavePower : num;
  gelatinizationProgress : num;
  phase : Phase
}.

(** The result of one invocation: the returned sample, the calls to
    [addDecision], the latches afterwards, and the arguments of
    [setCurrentPhase] and [setGrainTransformation]. *)
Record Invocation : Type := mkInvocation {
  sample : Sample;
  calls : list Call;
  latches : Latches;
  shownPhase : Phase;
  shownTransformation : Transformation
}.

Section Engine.

Variable grain : GrainProfile.

Local Open Scope num_scope.

Definition cookTimeOf : num := optimal_cook_time grain * 60.

(** Lines 161-171. *)
Definition nirBlock (time : num) (refs : Latches) : list Call * Latches :=
  if (time === 0) && negb (nirScanLogged refs) then
    ([ mkCall 0 (NirScanComplete (nir_970 grain) (nir_1450 grain)
                   (nir_1680 grain) (nir_1200 grain) (nir_2100 grain));
       mkCall 0 (Composition (initial_moisture grain) (starch grain)
                   (protein grain) (amylose grain) (amylopectin grain)) ],
     set_nirScanLogged refs)
  else ([], refs).

(** Lines 174-222. *)
Definition microwaveBlock (cookTime time : num) (refs : Latches) : Block :=
  let microwaveProgress := time / (cookTime * 0.45) in
  let moisture :=
    initial_moisture grain + (45 - initial_moisture grain) * microwaveProgress in
  let temperature := 25 + (gelatinization_temp grain + 15) * microwaveProgress in
  let pressure : num := 1 in
  let microwavePower := 40 + 40 * microwaveProgress in
  let ultrasonicVelocity := 1500 + 120 * microwaveProgress in
  let gelatinizationProgress :=
    if temperature >=? gelatinization_onset grain then
      let onsetProgress :=
        (gelatinization_onset grain - 25) / (gelatinization_temp grain + 15 - 25) in
      let progressSinceOnset :=
        (microwaveProgress - onsetProgress) / (1 - onsetProgress) in
      max 0 (min 60 (progressSinceOnset * 60))
    else 0 in
  let onset := (temperature >=? gelatinization_onset grain)
               && negb (gelOnsetLogged refs) in
  let status := (microwaveProgress >? 0.2) && floor_rem_is_zero time 60 in
  (mkReading moisture temperature pressure ultrasonicVelocity microwavePower
     MICROWAVE gelatinizationProgress,
   (if onset
    then [ mkCall time (GelatinizationOnset (gelatinization_onset grain)
                          (toFixed 0 ultrasonicVelocity)) ]
    else [])
   ++
   (if status
    then [ mkCall time (MicrowaveStatus (toFixed 0 microwavePower)
                          (toFixed 1 temperature) (toFixed 1 moisture)) ]
    else []),
   if onset then set_gelOnsetLogged refs else refs).

(** Lines 224-238. *)
Definition transferBlock (time : num) (refs : Latches) : Block :=
  (mkReading 45 (gelatinization_temp grain + 15) 1 1620 0 TRANSFER 60,
   if negb (transferLogged refs) then [ mkCall time TransferringVessel ] else [],
   if negb (transferLogged refs) then set_transferLogged refs else refs).

(** Lines 240-281. *)
Definition pressureBlock (cookTime time : num) (refs : Latches) : Block :=
  let pressureProgress := (time - cookTime * 0.48) / (cookTime * 0.37) in
  let moisture := 45 + (target_moisture grain - 45) * pressureProgress in
  let temperature :=
    gelatinization_temp grain + 15
    + (100 - gelatinization_temp grain - 15) * pressureProgress in
  let microwavePower : num := 0 in
  let ultrasonicVelocity := 1620 + 70 * pressureProgress in
  let gelatinizationProgress := 60 + 40 * pressureProgress in
  let pressure :=
    if pressureProgress <? 0.15
    then 1.0 + (2.2 - 1.0) * (pressureProgress / 0.15)
    else 2.2 in
  let complete := (pressureProgress >? 0.6) && negb (gelCompleteLogged refs) in
  (mkReading moisture temperature pressure ultrasonicVelocity microwavePower
     PRESSURE gelatinizationProgress,
   (if complete
    then [ mkCall time (GelatinizationComplete (toFixed 0 ultrasonicVelocity)) ]
    else [])
   ++
   (if (pressureProgress <? 0.15) && floor_rem_is_zero time 40
    then [ mkCall time (BuildingPressure (toFixed 2 pressure)
                          (toFixed 0 ultrasonicVelocity)) ]
    else if (pressureProgress >=? 0.15) && floor_rem_is_zero time 80
    then [ mkCall time (HoldingPressure (toFixed 1 pressure)
                          (toFixed 0 ultrasonicVelocity)) ]
    else []),
   if complete then set_gelCompleteLogged refs else refs).

(** Lines 283-309. *)
Definition coolingBlock (cookTime time : num) (refs : Latches) : Block :=
  let phase := if time <? cookTime * 0.95 then COOLING else DONE in
  let coolProgress := (time - cookTime * 0.85) / (cookTime * 0.15) in
  let moisture := target_moisture grain - 2 * coolProgress in
  let temperature := 100 - 35 * coolProgress in
  let pressure := 2.2 - 1.2 * coolProgress in
  let microwavePower : num := 0 in
  let ultrasonicVelocity := 1690 - 10 * coolProgress in
  (mkReading moisture temperature pressure ultrasonicVelocity microwavePower
     phase 100,
   (if (coolProgress <? 0.3) && floor_rem_is_zero time 30
    then [ mkCall time (Depressurizing (toFixed 2 pressure)
                          (toFixed 1 temperature)) ]
    else [])
   ++
   (if phase_eqb phase DONE && floor_rem_is_zero time 20
    then [ mkCall time (CookingComplete (toFixed 1 moisture)
                          (toFixed 0 ultrasonicVelocity)) ]
    else []),
   refs).

(** Lines 314-323. *)
Definition classify (gelatinizationProgress : num) : Transformation :=
  if gelatinizationProgress === 0 then Hydration
  else if (gelatinizationProgress >? 0) && (gelatinizationProgress <? 60)
  then GelatinizationOnsetStage
  else if (gelatinizationProgress >=? 60) && (gelatinizationProgress <? 100)
  then CompleteGelatinization
  else if gelatinizationProgress === 100 then FullyCooked
  else Hydration.

Definition simulateCooking (time : num) (refs : Latches) : Invocation :=
  let cookTime := cookTimeOf in
  let '(calls0, refs0) := nirBlock time refs in
  let '(r, calls1, refs1) :=
    if time <? cookTime * 0.45 then microwaveBlock cookTime time refs0
    else if time <? cookTime * 0.48 then transferBlock time refs0
    else if time <? cookTime * 0.85 then pressureBlock cookTime time refs0
    else coolingBlock cookTime time refs0 in
  mkInvocation
    (mkSample (parseFloat (toFixed 2 (time / 60)))
       (r_moisture r) (r_temperature r) (r_pressure r)
       (r_ultrasonicVelocity r) (r_microwavePower r)
       (r_gelatinizationProgress r) (r_phase r))
    (calls0 ++ calls1)
    refs1
    (r_phase r)
    (classify (r_gelatinizationProgress r)).

End Engine.

(** ** Exceptions

    No statement of the modelled code throws on numbers; the only failure is
    the property access on an undefined profile, [grain.optimal_cook_time],
    when [GRAIN_PROFILES[selectedGrain]] is undefined. *)

Inductive JsError : Type := TypeError.

Inductive outcome (A : Type) : Type :=
| Returns (a : A)
| Throws (e : JsError).

Arguments Returns {A} a.
Arguments Throws {A} e.

Definition bind {A B : Type} (m : outcome A) (k : A -> outcome B) : outcome B :=
  match m with
  | Returns a => k a
  | Throws e => Throws e
  end.

Notation "'let*' x ':=' m 'in' k" := (bind m (fun x => k))
  (at level 10, x name, m at level 100, k at level 200).

(** Reading a property of [GRAIN_PROFILES[selectedGrain]]. *)
Definition deref (grain : option GrainProfile) : outcome GrainProfile :=
  match grain with
  | Some g => Returns g
  | None => Throws TypeError
  end.

(** A call [simulateCooking(time)] in a render whose [grain] is the given
    lookup result. *)
Definition callSimulateCooking (grain : option GrainProfile) (time : num)
  (refs : Latches) : outcome Invocation :=
  let* g := deref grain in
  Returns (simulateCooking g time refs).

(** ** The component: state, tick loop and reset *)

Record Component : Type := mkComponent {
  selectedGrain : string;
  grainWeight : Z;
  speedMultiplier : Q;
  isRunning : bool;
  simTime : Q;
  data : list Sample;
  currentPhase : Phase;
  grainTransformation : Transformation;
  decisions : list Decision;
  refs : Latches
}.

Definition initialLatches : Latches := mkLatches false false false false.

Definition initialComponent : Component :=
  mkComponent "basmati_rice" 100 10 false 0 [] MICROWAVE Hydration []
    initialLatches.

Definition grainOf (st : Component) : option GrainProfile :=
  GRAIN_PROFILES !! selectedGrain st.

(** The engine as the component invokes it: on its own profile and latches. *)
Definition invoke (st : Component) (time : num) : outcome Invocation :=
  callSimulateCooking (grainOf st) time (refs st).

Definition UPDATE_INTERVAL : Q := 100.

(** The callback of [setInterval], lines 360-375.  The speed multiplier is
    one of the options 1, 2, 5, 10, 20 and the elapsed time starts at 0, so
    both are finite. *)
Definition tick (st : Component) : outcome Component :=
  let* grain := deref (grainOf st) in
  let TIME_INCREMENT := (UPDATE_INTERVAL / 1000) * speedMultiplier st in
  let newTime := simTime st + TIME_INCREMENT in
  let cookTime := optimal_cook_time grain * 60 in
  if Qle_bool cookTime newTime then
    Returns (mkComponent (selectedGrain st) (grainWeight st) (speedMultiplier st)
               false cookTime (data st) (currentPhase st)
               (grainTransformation st) (decisions st) (refs st))
  else
    let newDataPoint := simulateCooking grain newTime (refs st) in
    Returns (mkComponent (selectedGrain st) (grainWeight st) (speedMultiplier st)
               (isRunning st) newTime (data st ++ [sample newDataPoint])
               (shownPhase newDataPoint) (shownTransformation newDataPoint)
               (record_calls (calls newDataPoint) (decisions st))
               (latches newDataPoint)).

(** The interval exists only while [isRunning]. *)
Definition driverStep (st : Component) : outcome Component :=
  if isRunning st then tick st else Returns st.

Fixpoint ticks (n : nat) (st : Component) : outcome Component :=
  match n with
  | O => Returns st
  | S n' => let* st' := driverStep st in ticks n' st'
  end.

Definition handleReset (st : Component) : Component :=
  mkComponent (selectedGrain st) (grainWeight st) (speedMultiplier st)
    false 0 [] MICROWAVE Hydration [] (mkLatches false false false false).

(** A run of the engine over a sequence of times, the latches threaded from
    one invocation to the next; the calls to [addDecision] in order. *)
Fixpoint runEngine (grain : GrainProfile) (times : list num) (refs : Latches)
  : list Call * Latches :=
  match times with
  | [] => ([], refs)
  | t :: ts =>
      let inv := simulateCooking grain t refs in
      let '(cs, refs') := runEngine grain ts (latches inv) in
      (calls inv ++ cs, refs')
  end.

(** ** The engine as statements on the component

    [simulateCooking] is a closure of the component: besides its argument it
    can reach the profile of the render, the four refs, which it reads and
    assigns in place, and the state setters, whose calls queue an update and
    leave the state of the running render as it is.  Here the function is
    written statement by statement over that store. *)

(** A call to a state setter. *)
Inductive Update : Type :=
| SetDecisions (time : num) (message : Message)
| SetCurrentPhase (p : Phase)
| SetGrainTransformation (t : Transformation).

(** The state of the render, with the refs, and the updates queued since. *)
Record Store : Type := mkStore {
  rendered : Component;
  queued : list Update
}.

Definition Stmt (A : Type) : Type := Store -> A * Store.

Definition ret {A : Type} (a : A) : Stmt A := fun s => (a, s).

Definition andThen {A B : Type} (m : Stmt A) (k : A -> Stmt B) : Stmt B :=
  fun s => let '(a, s') := m s in k a s'.

Notation "'let!' x ':=' m 'in' k" := (andThen m (fun x => k))
  (at level 10, x name, m at level 100, k at level 200).
Notation "m ';;' k" := (andThen m (fun _ => k))
  (at level 100, k at level 200, right associativity).

(** [ref.current]. *)
Definition readRef (ref : Latches -> bool) : Stmt bool :=
  fun s => (ref (refs (rendered s)), s).

(** [ref.current = true]. *)
Definition assignRef (set : Latches -> Latches) : Stmt unit :=
  fun s =>
    let st := rendered s in
    (tt, mkStore (mkComponent (selectedGrain st) (grainWeight st)
                    (speedMultiplier st) (isRunning st) (simTime st) (data st)
                    (currentPhase st) (grainTransformation st) (decisions st)
                    (set (refs st)))
           (queued s)).

Definition callSetter (u : Update) : Stmt unit :=
  fun s => (tt, mkStore (rendered s) (queued s ++ [u])).

(** [addDecision(time, message)]: one call to [setDecisions]. *)
Definition addDecisionStmt (time : num) (message : Message) : Stmt unit :=
  callSetter (SetDecisions time message).

(** [if (b) { m }]. *)
Definition when (b : bool) (m : Stmt unit) : Stmt unit :=
  if b then m else ret tt.

Section EngineStatements.

Variable grain : GrainProfile.

Local Open Scope num_scope.

(** Lines 161-171. *)
Definition nirStmt (time : num) : Stmt unit :=
  let! logged := readRef nirScanLogged in
  when ((time === 0) && negb logged)
    (addDecisionStmt 0
       (NirScanComplete (nir_970 grain) (nir_1450 grain) (nir_1680 grain)
          (nir_1200 grain) (nir_2100 grain)) ;;
     addDecisionStmt 0
       (Composition (initial_moisture grain) (starch grain) (protein grain)
          (amylose grain) (amylopectin grain)) ;;
     assignRef set_nirScanLogged).

(** Lines 174-222. *)
Definition microwaveStmt (cookTime time : num) : Stmt Reading :=
  let microwaveProgress := time / (cookTime * 0.45) in
  let moisture :=
    initial_moisture grain + (45 - initial_moisture grain) * microwaveProgress in
  let temperature := 25 + (gelatinization_temp grain + 15) * microwaveProgress in
  let pressure : num := 1 in
  let microwavePower := 40 + 40 * microwaveProgress in
  let ultrasonicVelocity := 1500 + 120 * microwaveProgress in
  let gelatinizationProgress :=
    if temperature >=? gelatinization_onset grain then
      let onsetProgress :=
        (gelatinization_onset grain - 25) / (gelatinization_temp grain + 15 - 25) in
      let progressSinceOnset :=
        (microwaveProgress - onsetProgress) / (1 - onsetProgress) in
      max 0 (min 60 (progressSinceOnset * 60))
    else 0 in
  let! logged := readRef gelOnsetLogged in
  when ((temperature >=? gelatinization_onset grain) && negb logged)
    (addDecisionStmt time
       (GelatinizationOnset (gelatinization_onset grain)
          (toFixed 0 ultrasonicVelocity)) ;;
     assignRef set_gelOnsetLogged) ;;
  when ((microwaveProgress >? 0.2) && floor_rem_is_zero time 60)
    (addDecisionStmt time
       (MicrowaveStatus (toFixed 0 microwavePower) (toFixed 1 temperature)
          (toFixed 1 moisture))) ;;
  ret (mkReading moisture temperature pressure ultrasonicVelocity
         microwavePower MICROWAVE gelatinizationProgress).

(** Lines 224-238. *)
Definition transferStmt (time : num) : Stmt Reading :=
  let! logged := readRef transferLogged in
  when (negb logged)
    (addDecisionStmt time TransferringVessel ;;
     assignRef set_transferLogged) ;;
  ret (mkReading 45 (gelatinization_temp grain + 15) 1 1620 0 TRANSFER 60).

(** Lines 240-281. *)
Definition pressureStmt (cookTime time : num) : Stmt Reading :=
  let pressureProgress := (time - cookTime * 0.48) / (cookTime * 0.37) in
  let moisture := 45 + (target_moisture grain - 45) * pressureProgress in
  let temperature :=
    gelatinization_temp grain + 15
    + (100 - gelatinization_temp grain - 15) * pressureProgress in
  let microwavePower : num := 0 in
  let ultrasonicVelocity := 1620 + 70 * pressureProgress in
  let gelatinizationProgress := 60 + 40 * pressureProgress in
  let pressure :=
    if pressureProgress <? 0.15
    then 1.0 + (2.2 - 1.0) * (pressureProgress / 0.15)
    else 2.2 in
  let! logged := readRef gelCompleteLogged in
  when ((pressureProgress >? 0.6) && negb logged)
    (addDecisionStmt time
       (GelatinizationComplete (toFixed 0 ultrasonicVelocity)) ;;
     assignRef set_gelCompleteLogged) ;;
  (if (pressureProgress <? 0.15) && floor_rem_is_zero time 40
   then addDecisionStmt time
          (BuildingPressure (toFixed 2 pressure) (toFixed 0 ultrasonicVelocity))
   else when ((pressureProgress >=? 0.15) && floor_rem_is_zero time 80)
          (addDecisionStmt time
             (HoldingPressure (toFixed 1 pressure)
                (toFixed 0 ultrasonicVelocity)))) ;;
  ret (mkReading moisture temperature pressure ultrasonicVelocity
         microwavePower PRESSURE gelatinizationProgress).

(** Lines 283-309. *)
Definition coolingStmt (cookTime time : num) : Stmt Reading :=
  let phase := if time <? cookTime * 0.95 then COOLING else DONE in
  let coolProgress := (time - cookTime * 0.85) / (cookTime * 0.15) in
  let moisture := target_moisture grain - 2 * coolProgress in
  let temperature := 100 - 35 * coolProgress in
  let pressure := 2.2 - 1.2 * coolProgress in
  let microwavePower : num := 0 in
  let ultrasonicVelocity := 1690 - 10 * coolProgress in
  when ((coolProgress <? 0.3) && floor_rem_is_zero time 30)
    (addDecisionStmt time
       (Depressurizing (toFixed 2 pressure) (toFixed 1 temperature))) ;;
  when (phase_eqb phase DONE && floor_rem_is_zero time 20)
    (addDecisionStmt time
       (CookingComplete (toFixed 1 moisture) (toFixed 0 ultrasonicVelocity))) ;;
  ret (mkReading moisture temperature pressure ultrasonicVelocity
         microwavePower phase 100).

(** Lines 151-336. *)
Definition simulateCookingStmt (time : num) : Stmt Sample :=
  let cookTime := optimal_cook_time grain * 60 in
  nirStmt time ;;
  let! r := (if time <? cookTime * 0.45 then microwaveStmt cookTime time
             else if time <? cookTime * 0.48 then transferStmt time
             else if time <? cookTime * 0.85 then pressureStmt cookTime time
             else coolingStmt cookTime time) in
  callSetter (SetCurrentPhase (r_phase r)) ;;
  callSetter (SetGrainTransformation (classify (r_gelatinizationProgress r))) ;;
  ret (mkSample (parseFloat (toFixed 2 (time / 60)))
         (r_moisture r) (r_temperature r) (r_pressure r)
         (r_ultrasonicVelocity r) (r_microwavePower r)
         (r_gelatinizationProgress r) (r_phase r)).

End EngineStatements.

(** The calls to [setDecisions] among the queued updates: the candidate
    entries of the log. *)
Fixpoint candidateEntries (us : list Update) : list Call :=
  match us with
  | [] => []
  | SetDecisions time message :: us' => mkCall time message :: candidateEntries us'
  | _ :: us' => candidateEntries us'
  end.

(** The store with other refs. *)
Definition withRefs (r : Latches) (st : Component) : Component :=
  mkComponent (selectedGrain st) (grainWeight st) (speedMultiplier st)
    (isRunning st) (simTime st) (data st) (currentPhase st)
    (grainTransformation st) (decisions st) r.

(** The updates that an invocation queues. *)
Definition updatesOf (inv : Invocation) : list Update :=
  map (fun c => SetDecisions (c_time c) (c_message c)) (calls inv)
  ++ [SetCurrentPhase (shownPhase inv);
      SetGrainTransformation (shownTransformation inv)].

(** ** The specification's phase table and water ratio *)

(** The table of section 4.2: the range of [t / cookTime] of each phase. *)
Definition phase_range (p : Phase) (f : Q) : Prop :=
  match p with
  | MICROWAVE => 0 <= f < 0.45
  | TRANSFER => 0.45 <= f < 0.48
  | PRESSURE => 0.48 <= f < 0.85
  | COOLING => 0.85 <= f < 0.95
  | DONE => 0.95 <= f <= 1
  end.

(** The water ratio of section 4.1. *)
Definition spec_ratio (id : string) : Q :=
  if String.eqb id "basmati_rice" then 1.5
  else if String.eqb id "chickpeas" then 3.0
  else if String.eqb id "lentils" then 2.5
  else if String.eqb id "quinoa" then 2.0
  else 2.0.

(** ** Definitions used in the statements *)

(** An entry of the log whose time prints, to one decimal, as [time / 60]
    does. *)
Definition same_bucket (time : num) (d : Decision) : Prop :=
  fixed_eqb (toFixed 1 (d_time d)) (toFixed 1 (time / 60)%num) = true.

Definition callsOf (b : Block) : list Call := snd (fst b).
Definition latchesOf (b : Block) : Latches := snd b.
Definition readingOf (b : Block) : Reading := fst (fst b).

(** The branch of [simulateCooking] that the elapsed time selects. *)
Definition phaseBlock (grain : GrainProfile) (time : num) (refs : Latches)
  : Block :=
  let cookTime := cookTimeOf grain in
  if (time <? cookTime * 0.45)%num then microwaveBlock grain cookTime time refs
  else if (time <? cookTime * 0.48)%num then transferBlock grain time refs
  else if (time <? cookTime * 0.85)%num then pressureBlock grain cookTime time refs
  else coolingBlock grain cookTime time refs.

Definition is_scan (m : Message) : bool :=
  match m with NirScanComplete _ _ _ _ _ => true | _ => false end.
Definition is_composition (m : Message) : bool :=
  match m with Composition _ _ _ _ _ => true | _ => false end.
Definition is_onset (m : Message) : bool :=
  match m with GelatinizationOnset _ _ => true | _ => false end.
Definition is_transfer (m : Message) : bool :=
  match m with TransferringVessel => true | _ => false end.
Definition is_complete (m : Message) : bool :=
  match m with GelatinizationComplete _ => true | _ => false end.

Fixpoint count_calls (p : Message -> bool) (cs : list Call) : nat :=
  match cs with
  | [] => 0
  | c :: cs' => (if p (c_message c) then 1 else 0) + count_calls p cs'
  end.

Fixpoint count_entries (p : Message -> bool) (log : list Decision) : nat :=
  match log with
  | [] => 0
  | d :: log' => (if p (d_message d) then 1 else 0) + count_entries p log'
  end.

(** How many times an event may still fire: once unless its latch is set. *)
Definition budget (latched : bool) : nat := if latched then 0 else 1.

(** A sample that the engine returns for an elapsed time before the end of
    the cook time of [g]. *)
Definition sampled_before_end (g : GrainProfile) (s : Sample) : Prop :=
  exists (t : Q) (r : Latches),
    t < optimal_cook_time g * 60 /\ s = sample (simulateCooking g (Fin t) r).

Definition nextTime (st : Component) : Q :=
  simTime st + (UPDATE_INTERVAL / 1000) * speedMultiplier st.

Definition cookSeconds (g : GrainProfile) : Q := optimal_cook_time g * 60.

(** The phase that the comparisons of [simulateCooking] select, for a cook
    time of [c] seconds. *)
Definition phaseAt (c t : Q) : Phase :=
  if Qltb t (c * 0.45) then MICROWAVE
  else if Qltb t (c * 0.48) then TRANSFER
  else if Qltb t (c * 0.85) then PRESSURE
  else if Qltb t (c * 0.95) then COOLING
  else DONE.

(** [Math.max(0, Math.min(60, x))] on a finite [x]. *)
Definition clamp60 (x : Q) : Q :=
  let m := if Qltb x 60 then x else 60 in
  if Qltb 0 m then m else 0.

(** [onsetProgress] of the microwave branch. *)
Definition onsetProgressOf (g : GrainProfile) : Q :=
  (gelatinization_onset g + - 25) / (gelatinization_temp g + 15 + - 25).

(** [gelatinizationProgress] of the microwave branch when every quotient is
    finite. *)
Definition microwaveGel (g : GrainProfile) (c t : Q) : Q :=
  let mp := t / (c * 0.45) in
  if Qle_bool (gelatinization_onset g) (25 + (gelatinization_temp g + 15) * mp)
  then clamp60 ((mp + - onsetProgressOf g) / (1 + - onsetProgressOf g) * 60)
  else 0.

(** [gelatinizationProgress] as the comparisons of [simulateCooking] select
    it, when every quotient is finite. *)
Definition gelAt (g : GrainProfile) (t : Q) : Q :=
  let c := cookSeconds g in
  if Qltb t (c * 0.45) then microwaveGel g c t
  else if Qltb t (c * 0.48) then 60
  else if Qltb t (c * 0.85) then 60 + 40 * ((t + - (c * 0.48)) / (c * 0.37))
  else 100.



(** ** The controls *)

(** The click handler of the Start/Pause button, line 469. *)
Definition toggleRunning (st : Component) : Component :=
  mkComponent (selectedGrain st) (grainWeight st) (speedMultiplier st)
    (negb (isRunning st)) (simTime st) (data st) (currentPhase st)
    (grainTransformation st) (decisions st) (refs st).


(** ** Further definitions used in the statements *)

(** The [time] field of the sample computed for [t] seconds, line 327. *)
Definition minutesField (t : Q) : num := parseFloat (toFixed 2 (Fin t / 60)%num).

(** The time label of a row of the decision log, line 792. *)
Definition timeLabel (d : Decision) : FixedString := toFixed 1 (d_time d).

(** The three branch-local progress values on finite times. *)
Definition microwaveProgressAt (c t : Q) : Q := t / (c * 0.45).
Definition pressureProgressAt (c t : Q) : Q := (t + - (c * 0.48)) / (c * 0.37).
Definition coolProgressAt (c t : Q) : Q := (t + - (c * 0.85)) / (c * 0.15).

(** The position of a transformation label in the process. *)
Definition transformation_rank (t : Transformation) : nat :=
  match t with
  | Hydration => 0
  | GelatinizationOnsetStage => 1
  | CompleteGelatinization => 2
  | FullyCooked => 3
  end.

(** The bucket that [addDecision] computes for a call: [timeKey]. *)
Definition bucketOf (c : Call) : FixedString := toFixed 1 (c_time c / 60)%num.

(** No two rows of the log show the same time label. *)
Fixpoint labels_distinct (log : list Decision) : bool :=
  match log with
  | [] => true
  | d :: log' =>
      negb (existsb (fun e => fixed_eqb (timeLabel e) (timeLabel d)) log')
      && labels_distinct log'
  end.

(** The two outcomes of the interval callback: the run is over, or a sample
    is appended. *)
Definition stopped (g : GrainProfile) (st : Component) : Component :=
  mkComponent (selectedGrain st) (grainWeight st) (speedMultiplier st)
    false (optimal_cook_time g * 60) (data st) (currentPhase st)
    (grainTransformation st) (decisions st) (refs st).

Definition advanced (g : GrainProfile) (st : Component) : Component :=
  let inv := simulateCooking g (Fin (nextTime st)) (refs st) in
  mkComponent (selectedGrain st) (grainWeight st) (speedMultiplier st)
    (isRunning st) (nextTime st) (data st ++ [sample inv])
    (shownPhase inv) (shownTransformation inv)
    (record_calls (calls inv) (decisions st)) (latches inv).

From Stdlib Require Import Sorted.

(** The first sample is not later than the second, by their [time] fields. *)
Definition time_le (s1 s2 : Sample) : Prop :=
  leb (time s1) (time s2) = true.

(** The series is in the order of its [time] fields, and no sample is later
    than the elapsed time of the component. *)
Definition series_in_order (st : Component) : Prop :=
  StronglySorted time_le (data st)
  /\ Forall (fun s => leb (time s) (minutesField (simTime st)) = true) (data st).

(** The phase in which the source emits a message: the scan block runs at
    time 0, the others are in the branch of their phase. *)
Definition message_phase (m : Message) : Phase :=
  match m with
  | NirScanComplete _ _ _ _ _ | Composition _ _ _ _ _ => MICROWAVE
  | GelatinizationOnset _ _ | MicrowaveStatus _ _ _ => MICROWAVE
  | TransferringVessel => TRANSFER
  | GelatinizationComplete _ | BuildingPressure _ _ | HoldingPressure _ _ =>
      PRESSURE
  | Depressurizing _ _ => COOLING
  | CookingComplete _ _ => DONE
  end.

(** ** Binary64

    The arithmetic of [simulateCooking] and [calculateWaterRequired] as
    JavaScript performs it: every number is an IEEE 754 binary64 value (a
    primitive [float]) and every operation rounds to the nearest one, ties to
    even.  The module repeats the part of the engine that computes the
    returned sample; the calls to [addDecision] and to the setters, which do
    not enter the sample, are those of the model above. *)

Module Binary64.

Local Open Scope float_scope.

(** The number that a double is, exactly. *)
Definition toNum (x : float) : num :=
  match Prim2SF x with
  | S754_zero _ => Fin 0
  | S754_infinity negative => if negative then NInf else PInf
  | S754_nan => NaN
  | S754_finite negative m e =>
      Fin (signed negative (inject_Z (Zpos m) * Qpower 2 e))
  end.

(** The double nearest to a rational: what a decimal literal of the source
    text, and [parseFloat] of a decimal string, evaluate to.  It is the
    correctly rounded quotient of the numerator and the denominator. *)
Definition ofQ (q : Q) : float :=
  let d := S754_finite false (Qden q) 0 in
  match Qnum q with
  | Z0 => 0
  | Zpos n => SF2Prim (SFdiv prec emax (S754_finite false n 0) d)
  | Zneg n => SF2Prim (SFdiv prec emax (S754_finite true n 0) d)
  end.

Definition ofNum (x : num) : float :=
  match x with
  | Fin q => ofQ q
  | PInf => infinity
  | NInf => neg_infinity
  | NaN => nan
  end.

(** [x.toFixed(f)] rounds the exact value of [x] to [f] decimals;
    [parseFloat] reads the digits back. *)
Definition toFixed (f : nat) (x : float) : FixedString := toFixed f (toNum x).

Definition parseFloat (s : FixedString) : float := ofNum (parseFloat s).

(** [Math.max(a, b)] and [Math.min(a, b)]: NaN when an argument is, and +0
    above -0. *)
Definition max (a b : float) : float :=
  if is_nan a || is_nan b then nan
  else if a <? b then b
  else if b <? a then a
  else if get_sign a then b else a.

Definition min (a b : float) : float :=
  if is_nan a || is_nan b then nan
  else if a <? b then a
  else if b <? a then b
  else if get_sign a then a else b.

Record Reading : Type := mkReading {
  r_moisture : float;
  r_temperature : float;
  r_pressure : float;
  r_ultrasonicVelocity : float;
  r_microwavePower : float;
  r_phase : Phase;
  r_gelatinizationProgress : float
}.

Record Sample : Type := mkSample {
  time : float;
  moisture : float;
  temperature : float;
  pressure : float;
  ultrasonicVelocity : float;
  microwavePower : float;
  gelatinizationProgress : float;
  phase : Phase
}.

Section Engine.

(** The profile: each number of the table is the double nearest to its
    literal. *)
Variable grain : GrainProfile.

Definition cookTimeOf : float := ofQ (optimal_cook_time grain) * 60.

(** Lines 174-196. *)
Definition microwaveBlock (cookTime time : float) : Reading :=
  let microwaveProgress := time / (cookTime * 0.45) in
  let moisture :=
    ofQ (initial_moisture grain)
    + (45 - ofQ (initial_moisture grain)) * microwaveProgress in
  let temperature :=
    25 + (ofQ (gelatinization_temp grain) + 15) * microwaveProgress in
  let pressure := 1 in
  let microwavePower := 40 + 40 * microwaveProgress in
  let ultrasonicVelocity := 1500 + 120 * microwaveProgress in
  let gelatinizationProgress :=
    if ofQ (gelatinization_onset grain) <=? temperature then
      let onsetProgress :=
        (ofQ (gelatinization_onset grain) - 25)
        / (ofQ (gelatinization_temp grain) + 15 - 25) in
      let progressSinceOnset :=
        (microwaveProgress - onsetProgress) / (1 - onsetProgress) in
      max 0 (min 60 (progressSinceOnset * 60))
    else 0 in
  mkReading moisture temperature pressure ultrasonicVelocity microwavePower
    MICROWAVE gelatinizationProgress.

(** Lines 224-230. *)
Definition transferBlock : Reading :=
  mkReading 45 (ofQ (gelatinization_temp grain) + 15) 1 1620 0 TRANSFER 60.

(** Lines 240-255. *)
Definition pressureBlock (cookTime time : float) : Reading :=
  let pressureProgress := (time - cookTime * 0.48) / (cookTime * 0.37) in
  let moisture := 45 + (ofQ (target_moisture grain) - 45) * pressureProgress in
  let temperature :=
    ofQ (gelatinization_temp grain) + 15
    + (100 - ofQ (gelatinization_temp grain) - 15) * pressureProgress in
  let microwavePower := 0 in
  let ultrasonicVelocity := 1620 + 70 * pressureProgress in
  let gelatinizationProgress := 60 + 40 * pressureProgress in
  let pressure :=
    if pressureProgress <? 0.15
    then 1.0 + (2.2 - 1.0) * (pressureProgress / 0.15)
    else 2.2 in
  mkReading moisture temperature pressure ultrasonicVelocity microwavePower
    PRESSURE gelatinizationProgress.

(** Lines 283-291. *)
Definition coolingBlock (cookTime time : float) : Reading :=
  let phase := if time <? cookTime * 0.95 then COOLING else DONE in
  let coolProgress := (time - cookTime * 0.85) / (cookTime * 0.15) in
  let moisture := ofQ (target_moisture grain) - 2 * coolProgress in
  let temperature := 100 - 35 * coolProgress in
  let pressure := 2.2 - 1.2 * coolProgress in
  let microwavePower := 0 in
  let ultrasonicVelocity := 1690 - 10 * coolProgress in
  mkReading moisture temperature pressure ultrasonicVelocity microwavePower
    phase 100.

(** The sample that [simulateCooking(time)] returns, lines 151-336. *)
Definition simulateCooking (time : float) : Sample :=
  let cookTime := cookTimeOf in
  let r :=
    if time <? cookTime * 0.45 then microwaveBlock cookTime time
    else if time <? cookTime * 0.48 then transferBlock
    else if time <? cookTime * 0.85 then pressureBlock cookTime time
    else coolingBlock cookTime time in
  mkSample (parseFloat (toFixed 2 (time / 60)))
    (r_moisture r) (r_temperature r) (r_pressure r)
    (r_ultrasonicVelocity r) (r_microwavePower r)
    (r_gelatinizationProgress r) (r_phase r).

End Engine.

(** Lines 314-323, the argument of [setGrainTransformation]. *)
Definition classify (gelatinizationProgress : float) : Transformation :=
  if gelatinizationProgress =? 0 then Hydration
  else if (0 <? gelatinizationProgress) && (gelatinizationProgress <? 60)
  then GelatinizationOnsetStage
  else if (60 <=? gelatinizationProgress) && (gelatinizationProgress <? 100)
  then CompleteGelatinization
  else if gelatinizationProgress =? 100 then FullyCooked
  else Hydration.

(** Lines 139-149, for a weight that is a double. *)
Definition calculateWaterRequired (selectedGrain : string) (grainWeight : float)
  : FixedString :=
  let ratio := or_else (getProperty waterRatios selectedGrain) 2.0 in
  toFixed 1 (grainWeight * ofNum (toNumber ratio)).

(** The phase that the comparisons of [simulateCooking] select, for a cook
    time of [c] seconds. *)
Definition phaseAt (c t : float) : Phase :=
  if t <? c * 0.45 then MICROWAVE
  else if t <? c * 0.48 then TRANSFER
  else if t <? c * 0.85 then PRESSURE
  else if t <? c * 0.95 then COOLING
  else DONE.

(** The comparisons as intervals of the elapsed time between the computed
    products: the table of the phases with the boundaries of binary64. *)
Definition phase_interval (c : float) (p : Phase) (t : float) : Prop :=
  match p with
  | MICROWAVE => (t <? c * 0.45) = true
  | TRANSFER => (c * 0.45 <=? t) = true /\ (t <? c * 0.48) = true
  | PRESSURE =>
      (c * 0.45 <=? t) = true /\ (c * 0.48 <=? t) = true
      /\ (t <? c * 0.85) = true
  | COOLING =>
      (c * 0.45 <=? t) = true /\ (c * 0.48 <=? t) = true
      /\ (c * 0.85 <=? t) = true /\ (t <? c * 0.95) = true
  | DONE =>
      (c * 0.45 <=? t) = true /\ (c * 0.48 <=? t) = true
      /\ (c * 0.85 <=? t) = true /\ (c * 0.95 <=? t) = true
  end.

End Binary64.

(** * Properties *)

(** ** Comparison of rationals *)

Lemma Qltb_lt (x y : Q) : Qltb x y = true <-> x < y.
Proof.
  unfold Qltb. rewrite negb_true_iff.
  split; intros H.
  - apply Qnot_le_lt. intros Hle. apply Qle_bool_iff in Hle. congruence.
  - destruct (Qle_bool y x) eqn:E; [|reflexivity].
    apply Qle_bool_iff in E. exfalso. lra.
Qed.

Lemma Qltb_ge (x y : Q) : Qltb x y = false <-> y <= x.
Proof.
  unfold Qltb. rewrite negb_false_iff. apply Qle_bool_iff.
Qed.

Lemma Qle_bool_gt (x y : Q) : Qle_bool x y = false <-> y < x.
Proof.
  split; intros H.
  - apply Qnot_le_lt. intros Hle. apply Qle_bool_iff in Hle. congruence.
  - destruct (Qle_bool x y) eqn:E; [|reflexivity].
    apply Qle_bool_iff in E. exfalso. lra.
Qed.

Lemma Qeq_bool_false (x y : Q) : Qeq_bool x y = false <-> ~ x == y.
Proof.
  split.
  - intros H Heq. apply Qeq_bool_iff in Heq. congruence.
  - intros H. destruct (Qeq_bool x y) eqn:E; [|reflexivity].
    apply Qeq_bool_iff in E. contradiction.
Qed.

(** ** Tactics *)

Ltac case_if :=
  match goal with
  | |- context [if ?b then _ else _] => destruct b eqn:?
  end.

Ltac to_order :=
  repeat match goal with
    | H : Qltb _ _ = true |- _ => apply Qltb_lt in H
    | H : Qltb _ _ = false |- _ => apply Qltb_ge in H
    | H : Qle_bool _ _ = true |- _ => apply Qle_bool_iff in H
    | H : Qle_bool _ _ = false |- _ => apply Qle_bool_gt in H
    end.

(** ** Arithmetic of finite numbers *)

Lemma add_Fin (x y : Q) : (Fin x + Fin y)%num = Fin (x + y).
Proof. reflexivity. Qed.

Lemma sub_Fin (x y : Q) : (Fin x - Fin y)%num = Fin (x + - y).
Proof. reflexivity. Qed.

Lemma mul_Fin (x y : Q) : (Fin x * Fin y)%num = Fin (x * y).
Proof. reflexivity. Qed.

Lemma div_Fin (x y : Q) : ~ y == 0 -> (Fin x / Fin y)%num = Fin (x / y).
Proof.
  intros Hy. unfold div.
  apply Qeq_bool_false in Hy. rewrite Hy. reflexivity.
Qed.

Lemma div_60 (x : Q) : (Fin x / Fin 60)%num = Fin (x / 60).
Proof. reflexivity. Qed.

(** ** The decision log *)

Lemma addDecision_fresh (time : num) (message : Message) (log : list Decision) :
  (forall d, In d log -> ~ same_bucket time d) ->
  addDecision time message log = log ++ [mkDecision (time / 60)%num message].
Proof.
  intros Hfresh. unfold addDecision.
  destruct (existsb _ log) eqn:E; [|reflexivity].
  apply existsb_exists in E. destruct E as (d & Hin & Hd).
  exfalso. exact (Hfresh d Hin Hd).
Qed.

Lemma addDecision_taken (time : num) (message : Message) (log : list Decision) :
  (exists d, In d log /\ same_bucket time d) ->
  addDecision time message log = log.
Proof.
  intros Htaken. unfold addDecision.
  destruct (existsb _ log) eqn:E; [reflexivity|].
  exfalso. apply Bool.not_true_iff_false in E. apply E.
  apply existsb_exists. exact Htaken.
Qed.

Lemma app_singleton_neq {A : Type} (l : list A) (x : A) : l ++ [x] <> l.
Proof.
  intros H. apply (f_equal (@length A)) in H.
  rewrite length_app in H. simpl in H. lia.
Qed.

Lemma bucket_decidable (time : num) (log : list Decision) :
  (exists d, In d log /\ same_bucket time d) \/
  (forall d, In d log -> ~ same_bucket time d).
Proof.
  destruct (existsb (fun d => fixed_eqb (toFixed 1 (d_time d))
                                (toFixed 1 (time / 60)%num)) log) eqn:E.
  - left. apply existsb_exists in E. exact E.
  - right. intros d Hin Hd.
    apply Bool.not_true_iff_false in E. apply E.
    apply existsb_exists. exists d. split; assumption.
Qed.

Lemma record_calls_snoc (cs : list Call) (c : Call) (log : list Decision) :
  record_calls (cs ++ [c]) log
  = addDecision (c_time c) (c_message c) (record_calls cs log).
Proof. unfold record_calls. rewrite fold_left_app. reflexivity. Qed.

Lemma addDecision_extends (time : num) (message : Message) (log : list Decision) :
  exists added, addDecision time message log = log ++ added.
Proof.
  unfold addDecision. destruct (negb _).
  - eexists. reflexivity.
  - exists []. symmetry. apply app_nil_r.
Qed.

Lemma record_calls_extends (cs : list Call) (log : list Decision) :
  exists added, record_calls cs log = log ++ added.
Proof.
  revert log. induction cs as [|c cs IH]; intros log.
  - exists []. symmetry. apply app_nil_r.
  - simpl. destruct (addDecision_extends (c_time c) (c_message c) log) as [a1 H1].
    destruct (IH (addDecision (c_time c) (c_message c) log)) as [a2 H2].
    exists (a1 ++ a2). unfold record_calls in *. rewrite H2, H1.
    symmetry. apply app_assoc.
Qed.

(** C7.  A call [addDecision(time, message)] appends the entry
    [(time / 60, message)] at the end of the log exactly when no entry of the
    log rounds to the same 0.1-minute bucket as [time]; when one does, the
    log is unchanged whatever the message; a sequence of calls is the calls
    one after the other, each extending the log at its end only; and the
    reset empties the log. *)
Theorem addDecision_contract (log : list Decision) (time : num)
  (message : Message) (cs : list Call) (c : Call) (st : Component) :
  ((forall d, In d log -> ~ same_bucket time d) <->
   addDecision time message log = log ++ [mkDecision (time / 60)%num message])
  /\ ((exists d, In d log /\ same_bucket time d) <->
      addDecision time message log = log)
  /\ record_calls (cs ++ [c]) log
     = addDecision (c_time c) (c_message c) (record_calls cs log)
  /\ (exists added, record_calls cs log = log ++ added)
  /\ decisions (handleReset st) = [].
Proof.
  split; [|split; [|split; [|split]]].
  - split; [apply addDecision_fresh|].
    intros Heq.
    destruct (bucket_decidable time log) as [Htaken|Hfresh]; [|exact Hfresh].
    rewrite (addDecision_taken _ message _ Htaken) in Heq.
    symmetry in Heq. exfalso. exact (app_singleton_neq _ _ Heq).
  - split; [apply addDecision_taken|].
    intros Heq.
    destruct (bucket_decidable time log) as [Htaken|Hfresh]; [exact Htaken|].
    rewrite (addDecision_fresh _ message _ Hfresh) in Heq.
    exfalso. exact (app_singleton_neq _ _ Heq).
  - apply record_calls_snoc.
  - apply record_calls_extends.
  - reflexivity.
Qed.

(** ** Rounding to decimals *)

Lemma Qfloor_half (k : Z) : Qfloor (inject_Z k + 0.5) = k.
Proof.
  pose proof (Qfloor_le (inject_Z k + 0.5)) as Hlo.
  pose proof (Qlt_floor (inject_Z k + 0.5)) as Hhi.
  set (n := Qfloor (inject_Z k + 0.5)) in *.
  assert (H1 : inject_Z n < inject_Z (k + 1)).
  { rewrite inject_Z_plus. change (inject_Z 1) with 1. lra. }
  assert (H2 : inject_Z k < inject_Z (n + 1)) by lra.
  rewrite <- Zlt_Qlt in H1, H2. lia.
Qed.

Lemma signed_abs (x : Q) : signed (Qltb x 0) (Qabs x) == x.
Proof.
  unfold signed. destruct (Qltb x 0) eqn:E.
  - apply Qltb_lt in E. rewrite Qabs_neg by lra. lra.
  - apply Qltb_ge in E. rewrite Qabs_pos by lra. lra.
Qed.

Lemma signed_comp (b : bool) (x y : Q) : x == y -> signed b x == signed b y.
Proof. intros H. destruct b; simpl; rewrite H; reflexivity. Qed.

Lemma Qabs_inject_Z (k : Z) : Qabs (inject_Z k) = inject_Z (Z.abs k).
Proof. reflexivity. Qed.

Lemma pow10_1 : pow10 1 == 10.
Proof. reflexivity. Qed.

(** A number that is a whole count of tenths is printed exactly by
    [toFixed(1)]. *)
Lemma toFixed1_exact (x : Q) (k : Z) :
  x * 10 == inject_Z k -> same (parseFloat (toFixed 1 (Fin x))) (Fin x).
Proof.
  intros Hk. unfold toFixed.
  destruct (Qle_bool (pow10 21) (Qabs x)).
  - cbn [parseFloat same].
    rewrite (signed_comp _ _ _ (Qred_correct (Qabs x))).
    apply signed_abs.
  - cbn [parseFloat same].
    assert (Ha : Qabs x * pow10 1 + 0.5 == inject_Z (Z.abs k) + 0.5).
    { rewrite pow10_1.
      assert (H10 : Qabs x * 10 == Qabs (x * 10)).
      { rewrite Qabs_Qmult. rewrite (Qabs_pos 10) by lra. reflexivity. }
      rewrite H10, Hk, Qabs_inject_Z. reflexivity. }
    rewrite (Qfloor_comp _ _ Ha), Qfloor_half.
    rewrite <- (signed_abs x) at 2.
    apply signed_comp.
    rewrite pow10_1.
    assert (H10 : inject_Z (Z.abs k) == Qabs x * 10).
    { rewrite <- Qabs_inject_Z, <- Hk, Qabs_Qmult.
      rewrite (Qabs_pos 10) by lra. reflexivity. }
    rewrite H10. field.
Qed.

(** ** Water requirement *)

Lemma waterRatios_spec (id : string) :
  inherited id = false ->
  or_else (getProperty waterRatios id) 2.0 = VNumber (Fin (spec_ratio id)).
Proof.
  intros Hid. unfold spec_ratio, getProperty, waterRatios.
  destruct (String.eqb_spec id "basmati_rice") as [->|H1].
  { rewrite lookup_insert_eq. reflexivity. }
  rewrite lookup_insert_ne by congruence.
  destruct (String.eqb_spec id "chickpeas") as [->|H2].
  { rewrite lookup_insert_eq. reflexivity. }
  rewrite lookup_insert_ne by congruence.
  destruct (String.eqb_spec id "lentils") as [->|H3].
  { rewrite lookup_insert_eq. reflexivity. }
  rewrite lookup_insert_ne by congruence.
  destruct (String.eqb_spec id "quinoa") as [->|H4].
  { rewrite lookup_insert_eq. reflexivity. }
  rewrite lookup_insert_ne by congruence.
  rewrite lookup_empty, Hid. reflexivity.
Qed.

Lemma waterRatios_inherited (id : string) :
  inherited id = true -> getProperty waterRatios id = VObject.
Proof.
  intros Hid. unfold getProperty, waterRatios.
  destruct (String.eqb_spec id "basmati_rice") as [->|H1]; [discriminate Hid|].
  rewrite lookup_insert_ne by congruence.
  destruct (String.eqb_spec id "chickpeas") as [->|H2]; [discriminate Hid|].
  rewrite lookup_insert_ne by congruence.
  destruct (String.eqb_spec id "lentils") as [->|H3]; [discriminate Hid|].
  rewrite lookup_insert_ne by congruence.
  destruct (String.eqb_spec id "quinoa") as [->|H4]; [discriminate Hid|].
  rewrite lookup_insert_ne by congruence.
  rewrite lookup_empty, Hid. reflexivity.
Qed.

Lemma spec_ratio_tenths (id : string) :
  exists k : Z, spec_ratio id * 10 == inject_Z k.
Proof.
  unfold spec_ratio.
  destruct (String.eqb id "basmati_rice"); [exists 15%Z; reflexivity|].
  destruct (String.eqb id "chickpeas"); [exists 30%Z; reflexivity|].
  destruct (String.eqb id "lentils"); [exists 25%Z; reflexivity|].
  destruct (String.eqb id "quinoa"); exists 20%Z; reflexivity.
Qed.

(** The id [constructor] is not registered, and the report is NaN, not
    [100 * 2.0]; and for lentils at 9007199254740990 g the product of
    binary64 is rounded: the report ends in ...476.0, the product in ...475. *)
Lemma water_required_not_for_every_id_and_weight :
  (GRAIN_PROFILES !! "constructor" = None
   /\ calculateWaterRequired "constructor" 100 = NaNString
   /\ ~ same (parseFloat (calculateWaterRequired "constructor" 100))
          (Fin (inject_Z 100 * 2.0)))
  /\ (Binary64.calculateWaterRequired "lentils" 9007199254740990%float
      = Digits false 225179981368524760 1
      /\ inject_Z 9007199254740990 * spec_ratio "lentils"
         == inject_Z 22517998136852475
      /\ ~ same (parseFloat
                   (Binary64.calculateWaterRequired "lentils" 9007199254740990%float))
             (Fin (inject_Z 9007199254740990 * spec_ratio "lentils")))
  /\ ~ (forall (id : string) (grainWeight : Z),
          same (parseFloat (calculateWaterRequired id grainWeight))
            (Fin (inject_Z grainWeight * spec_ratio id))).
Proof.
  assert (Hnan : calculateWaterRequired "constructor" 100 = NaNString)
    by reflexivity.
  split; [|split].
  - split; [reflexivity|]. split; [exact Hnan|].
    rewrite Hnan. intros H. exact H.
  - assert (Hb : Binary64.calculateWaterRequired "lentils" 9007199254740990%float
                 = Digits false 225179981368524760 1)
      by (vm_compute; reflexivity).
    split; [exact Hb|]. split; [reflexivity|].
    rewrite Hb. cbn [parseFloat same]. intros H. vm_compute in H.
    discriminate H.
  - intros H. specialize (H "constructor" 100%Z). rewrite Hnan in H. exact H.
Qed.

(** C9 (amended).  For every grain id that is not the name of a property
    inherited from [Object.prototype], and every whole weight from 1 g to
    [10^15] g (up to there the product of binary64 is the exact product),
    the number that [calculateWaterRequired] prints is the weight times the
    ratio of the id: 1.5 for basmati_rice, 3.0 for chickpeas, 2.5 for
    lentils, 2.0 for quinoa and 2.0 for every other such id; for chickpeas
    at 150 g it is 450.  For an inherited name, [constructor] or [toString]
    for instance, the function prints NaN. *)
Theorem water_required (id : string) (grainWeight : Z) :
  (1 <= grainWeight <= 10 ^ 15)%Z ->
  (inherited id = false ->
   same (parseFloat (calculateWaterRequired id grainWeight))
     (Fin (inject_Z grainWeight * spec_ratio id)))
  /\ (inherited id = true -> calculateWaterRequired id grainWeight = NaNString)
  /\ spec_ratio "basmati_rice" == 1.5
  /\ spec_ratio "chickpeas" == 3.0
  /\ spec_ratio "lentils" == 2.5
  /\ spec_ratio "quinoa" == 2.0
  /\ (GRAIN_PROFILES !! id = None -> spec_ratio id == 2.0)
  /\ same (parseFloat (calculateWaterRequired "chickpeas" 150)) (Fin 450).
Proof.
  intros Hw.
  split; [|split; [|split; [|split; [|split; [|split; [|split]]]]]];
    try reflexivity.
  - intros Hid. unfold calculateWaterRequired. cbn zeta.
    rewrite (waterRatios_spec id Hid). cbn [toNumber]. rewrite mul_Fin.
    destruct (spec_ratio_tenths id) as [k Hk].
    apply (toFixed1_exact _ (grainWeight * k)%Z).
    rewrite inject_Z_mult, <- Hk. ring.
  - intros Hid. unfold calculateWaterRequired. cbn zeta.
    rewrite (waterRatios_inherited id Hid). reflexivity.
  - intros Hnone. unfold spec_ratio, GRAIN_PROFILES in *.
    destruct (String.eqb_spec id "basmati_rice") as [->|H1].
    { rewrite lookup_insert_eq in Hnone. discriminate. }
    rewrite lookup_insert_ne in Hnone by congruence.
    destruct (String.eqb_spec id "chickpeas") as [->|H2].
    { rewrite lookup_insert_eq in Hnone. discriminate. }
    rewrite lookup_insert_ne in Hnone by congruence.
    destruct (String.eqb_spec id "lentils") as [->|H3].
    { rewrite lookup_insert_eq in Hnone. discriminate. }
    destruct (String.eqb_spec id "quinoa"); reflexivity.
Qed.

Lemma water_required_witness :
  same (parseFloat (calculateWaterRequired "lentils" 1000000000000000))
    (Fin (inject_Z 1000000000000000 * 2.5))
  /\ calculateWaterRequired "toString" 100 = NaNString.
Proof.
  split.
  - destruct (water_required "lentils" 1000000000000000) as [H _].
    + vm_compute. split; discriminate.
    + apply H. reflexivity.
  - destruct (water_required "toString" 100) as (_ & H & _).
    + vm_compute. split; discriminate.
    + apply H. reflexivity.
Defined.

(** ** The calls of one invocation *)

Lemma simulateCooking_blocks (grain : GrainProfile) (time : num) (refs : Latches) :
  let b := phaseBlock grain time (snd (nirBlock grain time refs)) in
  simulateCooking grain time refs =
  mkInvocation
    (mkSample (parseFloat (toFixed 2 (time / 60)%num))
       (r_moisture (readingOf b)) (r_temperature (readingOf b))
       (r_pressure (readingOf b)) (r_ultrasonicVelocity (readingOf b))
       (r_microwavePower (readingOf b))
       (r_gelatinizationProgress (readingOf b)) (r_phase (readingOf b)))
    (fst (nirBlock grain time refs) ++ callsOf b)
    (latchesOf b)
    (r_phase (readingOf b))
    (classify (r_gelatinizationProgress (readingOf b))).
Proof.
  unfold simulateCooking, phaseBlock.
  destruct (nirBlock grain time refs) as [calls0 refs0].
  cbn [snd fst].
  destruct (if (time <? cookTimeOf grain * 0.45)%num then _ else _)
    as [[r calls1] refs1].
  reflexivity.
Qed.

Lemma phaseBlock_times (grain : GrainProfile) (time : num) (refs : Latches) :
  Forall (fun c => c_time c = time) (callsOf (phaseBlock grain time refs)).
Proof.
  unfold phaseBlock, microwaveBlock, transferBlock, pressureBlock, coolingBlock,
    callsOf.
  repeat case_if; cbn [fst snd app]; repeat constructor.
Qed.

Lemma record_calls_taken (t : num) (cs : list Call) (log : list Decision) :
  (exists d, In d log /\ same_bucket t d) ->
  Forall (fun c => c_time c = t) cs ->
  record_calls cs log = log.
Proof.
  intros Htaken Hall. induction Hall as [|c cs Hc Hcs IH]; [reflexivity|].
  cbn [record_calls fold_left].
  rewrite Hc, (addDecision_taken _ _ _ Htaken). exact IH.
Qed.

(** At [time = 0] with the scan not logged yet, the engine asks for the scan
    entry, then for the composition entry, then for whatever its phase branch
    logs at this time, and sets the latch. *)
Lemma calls_at_zero (grain : GrainProfile) (refs : Latches) :
  nirScanLogged refs = false ->
  let inv := simulateCooking grain 0 refs in
  let scan := NirScanComplete (nir_970 grain) (nir_1450 grain) (nir_1680 grain)
                (nir_1200 grain) (nir_2100 grain) in
  let composition := Composition (initial_moisture grain) (starch grain)
                       (protein grain) (amylose grain) (amylopectin grain) in
  (exists rest,
      calls inv = mkCall 0 scan :: mkCall 0 composition :: rest
      /\ Forall (fun c => c_time c = Fin 0) rest)
  /\ nirScanLogged (latches inv) = true.
Proof.
  intros Hlatch inv scan composition. subst inv.
  rewrite simulateCooking_blocks. cbn zeta.
  assert (Hnir : nirBlock grain 0 refs
                 = ([mkCall 0 scan; mkCall 0 composition], set_nirScanLogged refs)).
  { unfold nirBlock. rewrite Hlatch. reflexivity. }
  rewrite Hnir. cbn [fst snd calls latches app].
  split.
  - eexists. split; [reflexivity|]. apply phaseBlock_times.
  - unfold phaseBlock, microwaveBlock, transferBlock, pressureBlock,
      coolingBlock, latchesOf.
    repeat case_if; reflexivity.
Qed.

(** Basmati rice at [t = 0], all latches false, empty log: the engine asks
    for the scan entry and for the composition entry, and the log then holds
    one entry, not two; the composition entry is not in it. *)
Lemma composition_entry_not_recorded :
  calls (simulateCooking basmati_rice 0 initialLatches)
  = [ mkCall 0 (NirScanComplete 0.18 0.22 0.15 0.65 0.72);
      mkCall 0 (Composition 12 78 7 22 78) ]
  /\ record_calls (calls (simulateCooking basmati_rice 0 initialLatches)) []
     = [ mkDecision (0 / 60)%num (NirScanComplete 0.18 0.22 0.15 0.65 0.72) ]
  /\ length (record_calls (calls (simulateCooking basmati_rice 0 initialLatches)) [])
     <> 2%nat.
Proof. vm_compute. repeat split. discriminate. Qed.

(** C3 (amended).  Invoked at [t = 0] with the scan latch false, the engine
    emits the scan event (five reflectance values) and then the composition
    event, and sets the latch; when the log records these emissions, the scan
    entry is appended if no entry of the log is in the bucket of time 0, and
    nothing else is: the composition entry is in the bucket the scan entry
    has taken.  From an empty log the result is the scan entry alone. *)
Theorem scan_recorded_composition_suppressed (grain : GrainProfile)
  (refs : Latches) :
  nirScanLogged refs = false ->
  let inv := simulateCooking grain 0 refs in
  let scan := NirScanComplete (nir_970 grain) (nir_1450 grain) (nir_1680 grain)
                (nir_1200 grain) (nir_2100 grain) in
  let composition := Composition (initial_moisture grain) (starch grain)
                       (protein grain) (amylose grain) (amylopectin grain) in
  (exists rest, calls inv = mkCall 0 scan :: mkCall 0 composition :: rest)
  /\ nirScanLogged (latches inv) = true
  /\ (forall log,
        (forall d, In d log -> ~ same_bucket 0 d) ->
        record_calls (calls inv) log = log ++ [mkDecision (0 / 60)%num scan])
  /\ (forall log,
        (exists d, In d log /\ same_bucket 0 d) ->
        record_calls (calls inv) log = log)
  /\ record_calls (calls inv) [] = [mkDecision (0 / 60)%num scan].
Proof.
  intros Hlatch inv scan composition.
  destruct (calls_at_zero grain refs Hlatch) as [(rest & Hcalls & Hrest) Hset].
  fold inv scan composition in Hcalls, Hset.
  assert (Hfresh : forall log,
            (forall d, In d log -> ~ same_bucket 0 d) ->
            record_calls (calls inv) log = log ++ [mkDecision (0 / 60)%num scan]).
  { intros log Hlog. rewrite Hcalls.
    change (record_calls rest
              (addDecision 0 composition (addDecision 0 scan log))
            = log ++ [mkDecision (0 / 60)%num scan]).
    rewrite (addDecision_fresh _ _ _ Hlog).
    assert (Htaken : exists d, In d (log ++ [mkDecision (0 / 60)%num scan])
                               /\ same_bucket 0 d).
    { exists (mkDecision (0 / 60)%num scan). split; [|reflexivity].
      apply in_or_app. right. left. reflexivity. }
    rewrite (addDecision_taken _ _ _ Htaken).
    apply (record_calls_taken 0); assumption. }
  split; [exists rest; exact Hcalls|]. split; [exact Hset|].
  split; [exact Hfresh|]. split.
  - intros log Htaken. rewrite Hcalls.
    apply (record_calls_taken 0); [exact Htaken|].
    repeat (constructor; [reflexivity|]). exact Hrest.
  - apply (Hfresh []). intros d [].
Qed.

Lemma scan_recorded_witness :
  nirScanLogged initialLatches = false
  /\ record_calls (calls (simulateCooking chickpeas 0 initialLatches)) []
     = [ mkDecision (0 / 60)%num (NirScanComplete 0.15 0.19 0.38 0.52 0.68) ].
Proof.
  split; [reflexivity|].
  destruct (scan_recorded_composition_suppressed chickpeas initialLatches)
    as (_ & _ & _ & _ & H).
  - reflexivity.
  - exact H.
Defined.

(** ** Failure *)

(** Negative time and a zero cook time both return a sample. *)
Lemma invalid_time_returns_sample :
  (exists inv,
      callSimulateCooking (Some basmati_rice) (Fin (-1)) initialLatches
      = Returns inv
      /\ phase (sample inv) = MICROWAVE)
  /\ (exists inv,
        callSimulateCooking
          (Some (mkGrain "Basmati Rice" 78 7 22 78 12 65 65.9 68 0 100
                   0.18 0.22 0.15 0.65 0.72)) (Fin 5) initialLatches
        = Returns inv
        /\ phase (sample inv) = DONE)
  /\ ~ (forall (g : GrainProfile) (t : Q) (r : Latches),
          t < 0 \/ optimal_cook_time g <= 0 ->
          exists e, callSimulateCooking (Some g) (Fin t) r = Throws e).
Proof.
  split; [|split].
  - eexists. split; reflexivity.
  - eexists. split; reflexivity.
  - intros H.
    destruct (H basmati_rice (-1) initialLatches) as [e He].
    + left. reflexivity.
    + discriminate He.
Qed.

(** C4 (amended).  The engine validates neither the elapsed time nor the cook
    time: for every profile, every number given as the time (negative or not)
    and every cook time (positive or not) the call returns a sample.  The only
    failure is the property access on an unregistered grain. *)
Theorem simulateCooking_never_rejects_time (g : GrainProfile) (time : num)
  (r : Latches) :
  callSimulateCooking (Some g) time r = Returns (simulateCooking g time r)
  /\ (forall e, callSimulateCooking (Some g) time r <> Throws e)
  /\ callSimulateCooking None time r = Throws TypeError.
Proof.
  split; [reflexivity|]. split; [|reflexivity].
  intros e H. discriminate H.
Qed.

(** ** Purity *)

Ltac run_stmt :=
  cbv beta iota zeta delta
    [simulateCookingStmt nirStmt microwaveStmt transferStmt pressureStmt
     coolingStmt andThen when readRef assignRef addDecisionStmt callSetter ret
     simulateCooking nirBlock microwaveBlock transferBlock pressureBlock
     coolingBlock cookTimeOf updatesOf withRefs
     rendered queued refs selectedGrain grainWeight speedMultiplier isRunning
     simTime data currentPhase grainTransformation decisions
     nirScanLogged gelOnsetLogged gelCompleteLogged transferLogged
     set_nirScanLogged set_gelOnsetLogged set_gelCompleteLogged
     set_transferLogged
     sample calls latches shownPhase shownTransformation
     r_phase r_gelatinizationProgress r_moisture r_temperature r_pressure
     r_ultrasonicVelocity r_microwavePower c_time c_message fst snd].

(** The statements of one invocation change the refs as [simulateCooking]
    says, queue the updates it lists and return its sample; nothing else of
    the store is read or written. *)
Lemma simulateCookingStmt_run (grain : GrainProfile) (time : num) (s : Store) :
  simulateCookingStmt grain time s
  = (sample (simulateCooking grain time (refs (rendered s))),
     mkStore
       (withRefs (latches (simulateCooking grain time (refs (rendered s))))
          (rendered s))
       (queued s ++ updatesOf (simulateCooking grain time (refs (rendered s))))).
Proof.
  destruct s as [st q]. destruct st as [sg gw sm ir tm dt cp gt ds rf].
  destruct rf as [l1 l2 l3 l4].
  run_stmt.
  repeat match goal with
    | |- context [if ?b then _ else _] => destruct b; run_stmt
    end.
  all: cbn [map app]; rewrite <- ?app_assoc; reflexivity.
Qed.

Lemma candidateEntries_updatesOf (inv : Invocation) :
  candidateEntries (updatesOf inv) = calls inv.
Proof.
  unfold updatesOf. induction (calls inv) as [|c cs IH].
  - reflexivity.
  - destruct c as [time message]. cbn [map app candidateEntries c_time c_message].
    rewrite IH. reflexivity.
Qed.

(** C5.  The engine reads the profile, the time and the four latches and
    nothing else.  Two calls for the same profile at the same time, in stores
    that agree on the latches and differ in anything else (log, series,
    clock, weight, speed, displayed phase and label, queued updates), return
    the same sample, queue the same updates, with the same candidate entries
    of the log in the same order, and assign the same values to the latches;
    nothing else of either store is changed.  The sample, the candidate
    entries and the latches are those that the function [simulateCooking]
    gives for the profile, the time and the latches. *)
Theorem engine_reads_only_profile_time_latches (grain : GrainProfile)
  (time : num) (s1 s2 : Store) :
  refs (rendered s1) = refs (rendered s2) ->
  exists (returned : Sample) (updates : list Update) (assigned : Latches),
    simulateCookingStmt grain time s1
    = (returned,
       mkStore (withRefs assigned (rendered s1)) (queued s1 ++ updates))
    /\ simulateCookingStmt grain time s2
       = (returned,
          mkStore (withRefs assigned (rendered s2)) (queued s2 ++ updates))
    /\ returned = sample (simulateCooking grain time (refs (rendered s1)))
    /\ candidateEntries updates
       = calls (simulateCooking grain time (refs (rendered s1)))
    /\ assigned = latches (simulateCooking grain time (refs (rendered s1))).
Proof.
  intros Hr. rewrite !simulateCookingStmt_run, <- Hr.
  eexists. eexists. eexists.
  split; [reflexivity|]. split; [reflexivity|].
  split; [reflexivity|]. split; [|reflexivity].
  apply candidateEntries_updatesOf.
Qed.

Lemma engine_reads_only_witness :
  exists (returned : Sample) (updates : list Update) (assigned : Latches),
    simulateCookingStmt basmati_rice 0 (mkStore initialComponent [])
    = (returned, mkStore (withRefs assigned initialComponent) ([] ++ updates))
    /\ simulateCookingStmt basmati_rice 0
         (mkStore
            (mkComponent "basmati_rice" 250 20 true 123 [] PRESSURE FullyCooked
               [mkDecision 2 TransferringVessel] initialLatches)
            [SetCurrentPhase DONE])
       = (returned,
          mkStore
            (withRefs assigned
               (mkComponent "basmati_rice" 250 20 true 123 [] PRESSURE
                  FullyCooked [mkDecision 2 TransferringVessel] initialLatches))
            ([SetCurrentPhase DONE] ++ updates))
    /\ length (candidateEntries updates) = 2%nat
    /\ nirScanLogged assigned = true.
Proof.
  destruct (engine_reads_only_profile_time_latches basmati_rice 0
              (mkStore initialComponent [])
              (mkStore
                 (mkComponent "basmati_rice" 250 20 true 123 [] PRESSURE
                    FullyCooked [mkDecision 2 TransferringVessel] initialLatches)
                 [SetCurrentPhase DONE]))
    as (returned & updates & assigned & E1 & E2 & _ & C & L).
  - reflexivity.
  - exists returned, updates, assigned.
    split; [exact E1|]. split; [exact E2|].
    rewrite C, L. split; vm_compute; reflexivity.
Defined.

(** A second call on the store that the first one left finds the scan latch
    set and queues no entry: the latches are part of the input. *)
Example second_call_sees_the_latches :
  exists (s' s'' : Store) (a b : Sample),
    simulateCookingStmt basmati_rice 0 (mkStore initialComponent []) = (a, s')
    /\ simulateCookingStmt basmati_rice 0 (mkStore (rendered s') []) = (b, s'')
    /\ length (candidateEntries (queued s')) = 2%nat
    /\ candidateEntries (queued s'') = []
    /\ a = b.
Proof.
  eexists. eexists. eexists. eexists.
  split; [vm_compute; reflexivity|].
  split; [vm_compute; reflexivity|].
  repeat split.
Qed.

(** ** One-shot events *)

Lemma count_calls_app (p : Message -> bool) (cs1 cs2 : list Call) :
  count_calls p (cs1 ++ cs2) = (count_calls p cs1 + count_calls p cs2)%nat.
Proof. induction cs1 as [|c cs1 IH]; simpl; [reflexivity|]. rewrite IH. lia. Qed.

Lemma count_entries_app (p : Message -> bool) (l1 l2 : list Decision) :
  count_entries p (l1 ++ l2) = (count_entries p l1 + count_entries p l2)%nat.
Proof. induction l1 as [|d l1 IH]; simpl; [reflexivity|]. rewrite IH. lia. Qed.

Lemma count_entries_addDecision (p : Message -> bool) (time : num)
  (message : Message) (log : list Decision) :
  (count_entries p (addDecision time message log)
   <= count_entries p log + (if p message then 1 else 0))%nat.
Proof.
  unfold addDecision. destruct (negb _).
  - rewrite count_entries_app. simpl. lia.
  - lia.
Qed.

Lemma count_entries_record (p : Message -> bool) (cs : list Call)
  (log : list Decision) :
  (count_entries p (record_calls cs log)
   <= count_entries p log + count_calls p cs)%nat.
Proof.
  unfold record_calls. revert log.
  induction cs as [|c cs IH]; intros log; cbn [fold_left count_calls]; [lia|].
  specialize (IH (addDecision (c_time c) (c_message c) log)).
  pose proof (count_entries_addDecision p (c_time c) (c_message c) log).
  lia.
Qed.

(** The phase branch emits no scan event and spends from the budget of each
    of its three latches what it emits. *)
Lemma phaseBlock_budget (g : GrainProfile) (t : num) (r : Latches) :
  let b := phaseBlock g t r in
  count_calls is_scan (callsOf b) = 0%nat
  /\ count_calls is_composition (callsOf b) = 0%nat
  /\ nirScanLogged (latchesOf b) = nirScanLogged r
  /\ (count_calls is_onset (callsOf b) + budget (gelOnsetLogged (latchesOf b))
      <= budget (gelOnsetLogged r))%nat
  /\ (count_calls is_transfer (callsOf b) + budget (transferLogged (latchesOf b))
      <= budget (transferLogged r))%nat
  /\ (count_calls is_complete (callsOf b) + budget (gelCompleteLogged (latchesOf b))
      <= budget (gelCompleteLogged r))%nat.
Proof.
  cbn zeta. destruct r as [n o c tr].
  unfold phaseBlock, microwaveBlock, transferBlock, pressureBlock,
    coolingBlock, callsOf, latchesOf.
  cbn [nirScanLogged gelOnsetLogged gelCompleteLogged transferLogged].
  destruct o, c, tr;
    cbn [negb]; rewrite ?andb_false_r, ?andb_true_r;
    repeat case_if;
    cbn [fst snd app count_calls c_message is_scan is_composition is_onset
         is_transfer is_complete budget set_nirScanLogged set_gelOnsetLogged
         set_gelCompleteLogged set_transferLogged nirScanLogged gelOnsetLogged
         gelCompleteLogged transferLogged];
    repeat split; lia.
Qed.

(** The scan block emits the scan and the composition once each, when its
    latch is not set, and leaves the other latches alone. *)
Lemma nirBlock_budget (g : GrainProfile) (t : num) (r : Latches) :
  let cs := fst (nirBlock g t r) in
  let r' := snd (nirBlock g t r) in
  (count_calls is_scan cs + budget (nirScanLogged r') <= budget (nirScanLogged r))%nat
  /\ (count_calls is_composition cs + budget (nirScanLogged r')
      <= budget (nirScanLogged r))%nat
  /\ count_calls is_onset cs = 0%nat
  /\ count_calls is_transfer cs = 0%nat
  /\ count_calls is_complete cs = 0%nat
  /\ gelOnsetLogged r' = gelOnsetLogged r
  /\ transferLogged r' = transferLogged r
  /\ gelCompleteLogged r' = gelCompleteLogged r.
Proof.
  cbn zeta. unfold nirBlock. destruct r as [n o c tr].
  cbn [nirScanLogged]. destruct n; cbn [negb];
    rewrite ?andb_false_r, ?andb_true_r; try case_if;
    cbn [fst snd count_calls c_message is_scan is_composition is_onset
         is_transfer is_complete budget set_nirScanLogged nirScanLogged
         gelOnsetLogged gelCompleteLogged transferLogged];
    repeat split; lia.
Qed.

(** One invocation spends from the budget of each latch what it emits. *)
Lemma invocation_budget (g : GrainProfile) (t : num) (r : Latches) :
  let inv := simulateCooking g t r in
  (count_calls is_scan (calls inv) + budget (nirScanLogged (latches inv))
   <= budget (nirScanLogged r))%nat
  /\ (count_calls is_composition (calls inv) + budget (nirScanLogged (latches inv))
      <= budget (nirScanLogged r))%nat
  /\ (count_calls is_onset (calls inv) + budget (gelOnsetLogged (latches inv))
      <= budget (gelOnsetLogged r))%nat
  /\ (count_calls is_transfer (calls inv) + budget (transferLogged (latches inv))
      <= budget (transferLogged r))%nat
  /\ (count_calls is_complete (calls inv) + budget (gelCompleteLogged (latches inv))
      <= budget (gelCompleteLogged r))%nat.
Proof.
  cbn zeta. rewrite simulateCooking_blocks. cbn zeta.
  cbn [calls latches]. rewrite !count_calls_app.
  pose proof (nirBlock_budget g t r) as Hn. cbn zeta in Hn.
  pose proof (phaseBlock_budget g t (snd (nirBlock g t r))) as Hp.
  cbn zeta in Hp.
  destruct Hn as (Hn1 & Hn2 & Hn3 & Hn4 & Hn5 & Hn6 & Hn7 & Hn8).
  destruct Hp as (Hp1 & Hp2 & Hp3 & Hp4 & Hp5 & Hp6).
  rewrite Hn6 in Hp4. rewrite Hn7 in Hp5. rewrite Hn8 in Hp6.
  rewrite Hp1, Hp2, Hp3, Hn3, Hn4, Hn5.
  repeat split; lia.
Qed.

(** Over a whole run, whatever the times. *)
Lemma runEngine_budget (g : GrainProfile) (times : list num) (r : Latches) :
  let cs := fst (runEngine g times r) in
  let r' := snd (runEngine g times r) in
  (count_calls is_scan cs + budget (nirScanLogged r') <= budget (nirScanLogged r))%nat
  /\ (count_calls is_composition cs + budget (nirScanLogged r')
      <= budget (nirScanLogged r))%nat
  /\ (count_calls is_onset cs + budget (gelOnsetLogged r')
      <= budget (gelOnsetLogged r))%nat
  /\ (count_calls is_transfer cs + budget (transferLogged r')
      <= budget (transferLogged r))%nat
  /\ (count_calls is_complete cs + budget (gelCompleteLogged r')
      <= budget (gelCompleteLogged r))%nat.
Proof.
  cbn zeta. revert r. induction times as [|t ts IH]; intros r.
  - cbn [runEngine fst snd count_calls]. repeat split; lia.
  - cbn [runEngine].
    specialize (IH (latches (simulateCooking g t r))).
    destruct (runEngine g ts (latches (simulateCooking g t r))) as [cs r'].
    cbn [fst snd] in *. rewrite !count_calls_app.
    pose proof (invocation_budget g t r) as Hi. cbn zeta in Hi.
    destruct Hi as (Hi1 & Hi2 & Hi3 & Hi4 & Hi5).
    destruct IH as (H1 & H2 & H3 & H4 & H5).
    repeat split; lia.
Qed.

(** C8.  In a run that starts with the four latches false, over any sequence
    of times (non-decreasing or not), the engine emits the scan event, the
    composition event, the onset event, the transfer event and the
    gelatinization-complete event at most once each; so the log recorded from
    these calls holds each at most once; and a latch that is set stays set. *)
Theorem one_shot_events_at_most_once (g : GrainProfile) (times : list num) :
  let cs := fst (runEngine g times initialLatches) in
  let log := record_calls cs [] in
  ((count_calls is_scan cs <= 1)%nat
   /\ (count_calls is_composition cs <= 1)%nat
   /\ (count_calls is_onset cs <= 1)%nat
   /\ (count_calls is_transfer cs <= 1)%nat
   /\ (count_calls is_complete cs <= 1)%nat)
  /\ ((count_entries is_scan log <= 1)%nat
      /\ (count_entries is_composition log <= 1)%nat
      /\ (count_entries is_onset log <= 1)%nat
      /\ (count_entries is_transfer log <= 1)%nat
      /\ (count_entries is_complete log <= 1)%nat)
  /\ (forall (t : num) (r : Latches),
        let r' := latches (simulateCooking g t r) in
        (nirScanLogged r = true -> nirScanLogged r' = true)
        /\ (gelOnsetLogged r = true -> gelOnsetLogged r' = true)
        /\ (transferLogged r = true -> transferLogged r' = true)
        /\ (gelCompleteLogged r = true -> gelCompleteLogged r' = true)).
Proof.
  cbn zeta.
  pose proof (runEngine_budget g times initialLatches) as H. cbn zeta in H.
  destruct H as (H1 & H2 & H3 & H4 & H5).
  cbn [initialLatches nirScanLogged gelOnsetLogged transferLogged
       gelCompleteLogged budget] in *.
  assert (Hcalls :
    (count_calls is_scan (fst (runEngine g times initialLatches)) <= 1)%nat
    /\ (count_calls is_composition (fst (runEngine g times initialLatches)) <= 1)%nat
    /\ (count_calls is_onset (fst (runEngine g times initialLatches)) <= 1)%nat
    /\ (count_calls is_transfer (fst (runEngine g times initialLatches)) <= 1)%nat
    /\ (count_calls is_complete (fst (runEngine g times initialLatches)) <= 1)%nat).
  { repeat split; lia. }
  split; [exact Hcalls|]. split.
  - destruct Hcalls as (C1 & C2 & C3 & C4 & C5).
    repeat split.
    + pose proof (count_entries_record is_scan
                    (fst (runEngine g times initialLatches)) []) as E.
      cbn [count_entries] in E. lia.
    + pose proof (count_entries_record is_composition
                    (fst (runEngine g times initialLatches)) []) as E.
      cbn [count_entries] in E. lia.
    + pose proof (count_entries_record is_onset
                    (fst (runEngine g times initialLatches)) []) as E.
      cbn [count_entries] in E. lia.
    + pose proof (count_entries_record is_transfer
                    (fst (runEngine g times initialLatches)) []) as E.
      cbn [count_entries] in E. lia.
    + pose proof (count_entries_record is_complete
                    (fst (runEngine g times initialLatches)) []) as E.
      cbn [count_entries] in E. lia.
  - intros t r.
    pose proof (invocation_budget g t r) as Hi. cbn zeta in Hi.
    destruct Hi as (Hi1 & _ & Hi3 & Hi4 & Hi5).
    repeat split; intros Hset; rewrite Hset in *; cbn [budget] in *;
      match goal with
      | |- ?b = true => destruct b; [reflexivity|cbn [budget] in *; lia]
      end.
Qed.

(** ** The tick loop *)

Lemma tick_stops (g : GrainProfile) (st : Component) :
  grainOf st = Some g ->
  optimal_cook_time g * 60 <= nextTime st ->
  tick st =
  Returns (mkComponent (selectedGrain st) (grainWeight st) (speedMultiplier st)
             false (optimal_cook_time g * 60) (data st) (currentPhase st)
             (grainTransformation st) (decisions st) (refs st)).
Proof.
  intros Hg Hend. unfold tick. rewrite Hg. cbn [deref bind].
  apply Qle_bool_iff in Hend. unfold nextTime in Hend. rewrite Hend.
  reflexivity.
Qed.

Lemma tick_samples (g : GrainProfile) (st : Component) :
  grainOf st = Some g ->
  nextTime st < optimal_cook_time g * 60 ->
  let inv := simulateCooking g (Fin (nextTime st)) (refs st) in
  tick st =
  Returns (mkComponent (selectedGrain st) (grainWeight st) (speedMultiplier st)
             (isRunning st) (nextTime st) (data st ++ [sample inv])
             (shownPhase inv) (shownTransformation inv)
             (record_calls (calls inv) (decisions st)) (latches inv)).
Proof.
  intros Hg Hbefore. unfold tick. rewrite Hg. cbn [deref bind].
  apply Qle_bool_gt in Hbefore. unfold nextTime in Hbefore. rewrite Hbefore.
  reflexivity.
Qed.

Lemma driverStep_series (g : GrainProfile) (st : Component) :
  grainOf st = Some g ->
  exists st' added,
    driverStep st = Returns st'
    /\ grainOf st' = Some g
    /\ data st' = data st ++ added
    /\ Forall (sampled_before_end g) added.
Proof.
  intros Hg. unfold driverStep. destruct (isRunning st).
  - destruct (Qlt_le_dec (nextTime st) (optimal_cook_time g * 60)) as [Hlt|Hge].
    + pose proof (tick_samples g st Hg Hlt) as Ht. cbn zeta in Ht.
      eexists. exists [sample (simulateCooking g (Fin (nextTime st)) (refs st))].
      split; [exact Ht|]. split; [exact Hg|]. split; [reflexivity|].
      constructor; [|constructor].
      exists (nextTime st), (refs st). split; [exact Hlt|reflexivity].
    + pose proof (tick_stops g st Hg Hge) as Ht.
      eexists. exists []. split; [exact Ht|]. split; [exact Hg|].
      split; [symmetry; apply app_nil_r|constructor].
  - exists st, []. split; [reflexivity|]. split; [exact Hg|].
    split; [symmetry; apply app_nil_r|constructor].
Qed.

(** C10.  For a registered grain the loop never fails, and: a tick whose new
    time reaches the cook time only clears [isRunning] and sets the elapsed
    time to the cook time (series, log and latches are untouched: the engine
    is not invoked); any other tick appends the sample of the new time; so
    every sample that any number of ticks appends was computed for an elapsed
    time strictly before the cook time. *)
Theorem tick_loop_stops_before_cook_time (g : GrainProfile) (st : Component)
  (n : nat) :
  grainOf st = Some g ->
  (optimal_cook_time g * 60 <= nextTime st ->
   tick st =
   Returns (mkComponent (selectedGrain st) (grainWeight st) (speedMultiplier st)
              false (optimal_cook_time g * 60) (data st) (currentPhase st)
              (grainTransformation st) (decisions st) (refs st)))
  /\ (nextTime st < optimal_cook_time g * 60 ->
      exists st', tick st = Returns st'
        /\ simTime st' = nextTime st
        /\ data st' = data st
                      ++ [sample (simulateCooking g (Fin (nextTime st)) (refs st))])
  /\ exists st' added,
       ticks n st = Returns st'
       /\ data st' = data st ++ added
       /\ Forall (sampled_before_end g) added.
Proof.
  intros Hg. split; [apply tick_stops; exact Hg|]. split.
  - intros Hlt. pose proof (tick_samples g st Hg Hlt) as Ht. cbn zeta in Ht.
    eexists. split; [exact Ht|]. split; reflexivity.
  - revert st Hg. induction n as [|n IH]; intros st Hg.
    + exists st, []. split; [reflexivity|].
      split; [symmetry; apply app_nil_r|constructor].
    + destruct (driverStep_series g st Hg) as (st1 & a1 & Hs & Hg1 & Hd1 & Ha1).
      destruct (IH st1 Hg1) as (st2 & a2 & Hs2 & Hd2 & Ha2).
      exists st2, (a1 ++ a2). cbn [ticks]. rewrite Hs. cbn [bind].
      split; [exact Hs2|]. split.
      * rewrite Hd2, Hd1. symmetry. apply app_assoc.
      * apply Forall_app. split; assumption.
Qed.

Lemma tick_loop_witness :
  grainOf (mkComponent "basmati_rice" 100 20 true 598 [] DONE FullyCooked []
             initialLatches) = Some basmati_rice
  /\ exists st' added,
       ticks 3 (mkComponent "basmati_rice" 100 20 true 598 [] DONE FullyCooked []
                  initialLatches) = Returns st'
       /\ data st' = [] ++ added
       /\ Forall (sampled_before_end basmati_rice) added.
Proof.
  split; [reflexivity|].
  apply (tick_loop_stops_before_cook_time basmati_rice
           (mkComponent "basmati_rice" 100 20 true 598 [] DONE FullyCooked []
              initialLatches) 3).
  reflexivity.
Defined.

(** The [time] field of a sample is the elapsed time in minutes rounded to
    two decimals: the sample computed for 599.9 s, before the end of the 600 s
    of basmati rice, shows 10 minutes. *)
Remark time_field_is_rounded :
  599.9 < cookSeconds basmati_rice
  /\ same (time (sample (simulateCooking basmati_rice (Fin 599.9) initialLatches)))
          (Fin 10).
Proof. split; reflexivity. Qed.

(** ** The worked example of basmati rice (cook time 600 s) *)

Example basmati_at_0 :
  let s := sample (simulateCooking basmati_rice (Fin 0) initialLatches) in
  phase s = MICROWAVE /\ same (moisture s) (Fin 12)
  /\ same (temperature s) (Fin 25) /\ same (pressure s) (Fin 1).
Proof. vm_compute. repeat split. Qed.

Example basmati_at_270 :
  let s := sample (simulateCooking basmati_rice (Fin 270) initialLatches) in
  phase s = TRANSFER /\ same (moisture s) (Fin 45)
  /\ same (temperature s) (Fin 83).
Proof. vm_compute. repeat split. Qed.

Example basmati_at_288 :
  phase (sample (simulateCooking basmati_rice (Fin 288) initialLatches))
  = PRESSURE.
Proof. vm_compute. reflexivity. Qed.

Example basmati_at_600 :
  let s := sample (simulateCooking basmati_rice (Fin 600) initialLatches) in
  phase s = DONE /\ same (gelatinizationProgress s) (Fin 100)
  /\ same (moisture s) (Fin 63).
Proof. vm_compute. repeat split. Qed.

(** ** The engine on finite times *)

Lemma cookTimeOf_Fin (g : GrainProfile) : cookTimeOf g = Fin (cookSeconds g).
Proof. reflexivity. Qed.

Lemma sample_phase (g : GrainProfile) (t : Q) (r : Latches) :
  phase (sample (simulateCooking g (Fin t) r)) = phaseAt (cookSeconds g) t.
Proof.
  rewrite simulateCooking_blocks. cbn zeta. cbn [sample phase].
  unfold phaseBlock, phaseAt. cbn zeta. rewrite cookTimeOf_Fin.
  cbn [mul ltb].
  destruct (Qltb t (cookSeconds g * 0.45)); [reflexivity|].
  destruct (Qltb t (cookSeconds g * 0.48)); [reflexivity|].
  destruct (Qltb t (cookSeconds g * 0.85)); [reflexivity|].
  unfold coolingBlock, readingOf. cbn [fst r_phase mul ltb].
  destruct (Qltb t (cookSeconds g * 0.95)); reflexivity.
Qed.

(** No regression: a later time is never in an earlier phase. *)
Lemma phaseAt_monotone (c t1 t2 : Q) :
  t1 <= t2 -> (phase_rank (phaseAt c t1) <= phase_rank (phaseAt c t2))%nat.
Proof.
  intros Hle. unfold phaseAt.
  destruct (Qltb t1 (c * 0.45)) eqn:A1; [cbn [phase_rank]; lia|].
  destruct (Qltb t2 (c * 0.45)) eqn:B1; [to_order; exfalso; lra|].
  destruct (Qltb t1 (c * 0.48)) eqn:A2;
    [repeat case_if; cbn [phase_rank]; lia|].
  destruct (Qltb t2 (c * 0.48)) eqn:B2; [to_order; exfalso; lra|].
  destruct (Qltb t1 (c * 0.85)) eqn:A3;
    [repeat case_if; cbn [phase_rank]; lia|].
  destruct (Qltb t2 (c * 0.85)) eqn:B3; [to_order; exfalso; lra|].
  destruct (Qltb t1 (c * 0.95)) eqn:A4;
    [repeat case_if; cbn [phase_rank]; lia|].
  destruct (Qltb t2 (c * 0.95)) eqn:B4; [to_order; exfalso; lra|].
  cbn [phase_rank]. lia.
Qed.

Lemma fraction_lt (c t k : Q) : 0 < c -> (t / c < k <-> t < c * k).
Proof.
  intros Hc.
  assert (Ht : t == t / c * c) by (field; lra).
  split; intros H.
  - rewrite Ht. rewrite (Qmult_comm c k). apply Qmult_lt_compat_r; assumption.
  - apply Qlt_shift_div_r; [assumption|]. lra.
Qed.

Lemma fraction_le (c t k : Q) : 0 < c -> (k <= t / c <-> c * k <= t).
Proof.
  intros Hc.
  assert (Ht : t == t / c * c) by (field; lra).
  split; intros H.
  - rewrite Ht. rewrite (Qmult_comm c k). apply Qmult_le_compat_r; lra.
  - apply Qle_shift_div_l; [assumption|]. lra.
Qed.

Lemma fraction_le_1 (c t : Q) : 0 < c -> (t / c <= 1 <-> t <= c).
Proof.
  intros Hc.
  assert (Ht : t == t / c * c) by (field; lra).
  split; intros H.
  - assert (E : t / c * c <= 1 * c) by (apply Qmult_le_compat_r; lra).
    rewrite <- Ht in E. lra.
  - apply Qle_shift_div_r; [assumption|]. lra.
Qed.

(** The phase is the one whose range in the table holds [t / c]. *)
Lemma phaseAt_range (c t : Q) (p : Phase) :
  0 < c -> 0 <= t <= c ->
  (phaseAt c t = p <-> phase_range p (t / c)).
Proof.
  intros Hc [H0 H1].
  pose proof (fraction_lt c t 0.45 Hc) as L45.
  pose proof (fraction_lt c t 0.48 Hc) as L48.
  pose proof (fraction_lt c t 0.85 Hc) as L85.
  pose proof (fraction_lt c t 0.95 Hc) as L95.
  pose proof (fraction_le c t 0.45 Hc) as G45.
  pose proof (fraction_le c t 0.48 Hc) as G48.
  pose proof (fraction_le c t 0.85 Hc) as G85.
  pose proof (fraction_le c t 0.95 Hc) as G95.
  pose proof (fraction_le c t 0 Hc) as G0.
  pose proof (fraction_le_1 c t Hc) as L1.
  assert (F0 : 0 <= t / c) by (apply G0; lra).
  assert (F1 : t / c <= 1) by (apply L1; lra).
  unfold phaseAt.
  destruct (Qltb t (c * 0.45)) eqn:A1; to_order.
  { apply L45 in A1. destruct p; cbn [phase_range];
      split; intros H; try discriminate H; try reflexivity;
      try (exfalso; lra); lra. }
  apply G45 in A1.
  destruct (Qltb t (c * 0.48)) eqn:A2; to_order.
  { apply L48 in A2. destruct p; cbn [phase_range];
      split; intros H; try discriminate H; try reflexivity;
      try (exfalso; lra); lra. }
  apply G48 in A2.
  destruct (Qltb t (c * 0.85)) eqn:A3; to_order.
  { apply L85 in A3. destruct p; cbn [phase_range];
      split; intros H; try discriminate H; try reflexivity;
      try (exfalso; lra); lra. }
  apply G85 in A3.
  destruct (Qltb t (c * 0.95)) eqn:A4; to_order.
  { apply L95 in A4. destruct p; cbn [phase_range];
      split; intros H; try discriminate H; try reflexivity;
      try (exfalso; lra); lra. }
  apply G95 in A4.
  destruct p; cbn [phase_range];
    split; intros H; try discriminate H; try reflexivity;
    try (exfalso; lra); lra.
Qed.

(** ** Binary64: the order of doubles

    The comparisons of doubles are those of their bit-level specification,
    [SFcompare]: a lexicographic order of sign, exponent and mantissa in which
    NaN compares with nothing. *)

Lemma SFcompare_nan_r (a : spec_float) : SFcompare a S754_nan = None.
Proof. destruct a; reflexivity. Qed.

(** [a <= b < c] gives [a < c]. *)
Lemma SFleb_ltb_trans (a b c : spec_float) :
  SFleb a b = true -> SFltb b c = true -> SFltb a c = true.
Proof.
  unfold SFleb, SFltb.
  destruct a as [sa|sa| |sa ma ea], b as [sb|sb| |sb mb eb],
    c as [sc|sc| |sc mc ec];
    cbn [SFcompare]; try discriminate; try reflexivity;
    repeat match goal with s : bool |- _ => destruct s end;
    try discriminate; try reflexivity.
  all: rewrite ?Pos.compare_cont_spec; cbn [Pos.switch_Eq].
  all: destruct (Z.compare_spec ea eb), (Z.compare_spec eb ec),
         (Z.compare_spec ea ec);
       try discriminate; try reflexivity; try lia.
  all: subst.
  all: destruct (Pos.compare_spec ma mb), (Pos.compare_spec mb mc),
         (Pos.compare_spec ma mc);
       cbn; try discriminate; try reflexivity; try lia.
Qed.

(** Two numbers are ordered one way or the other. *)
Lemma SFltb_false_leb (a b : spec_float) :
  a <> S754_nan -> b <> S754_nan ->
  SFltb a b = false -> SFleb b a = true.
Proof.
  unfold SFleb, SFltb. intros Ha Hb.
  destruct a as [sa|sa| |sa ma ea], b as [sb|sb| |sb mb eb];
    try contradiction; cbn [SFcompare];
    repeat match goal with s : bool |- _ => destruct s end;
    try discriminate; try reflexivity.
  all: rewrite ?Pos.compare_cont_spec; cbn [Pos.switch_Eq].
  all: destruct (Z.compare_spec ea eb), (Z.compare_spec eb ea);
       try discriminate; try reflexivity; try lia.
  all: subst.
  all: destruct (Pos.compare_spec ma mb), (Pos.compare_spec mb ma);
       cbn; try discriminate; try reflexivity; try lia.
Qed.

Lemma SFleb_ltb_false (a b : spec_float) :
  SFleb b a = true -> SFltb a b = false.
Proof.
  unfold SFleb, SFltb.
  destruct a as [sa|sa| |sa ma ea], b as [sb|sb| |sb mb eb];
    cbn [SFcompare];
    repeat match goal with s : bool |- _ => destruct s end;
    try discriminate; try reflexivity.
  all: rewrite ?Pos.compare_cont_spec; cbn [Pos.switch_Eq].
  all: destruct (Z.compare_spec ea eb), (Z.compare_spec eb ea);
       try discriminate; try reflexivity; try lia.
  all: subst.
  all: destruct (Pos.compare_spec ma mb), (Pos.compare_spec mb ma);
       cbn; try discriminate; try reflexivity; try lia.
Qed.

Lemma SFleb_not_nan (a b : spec_float) :
  SFleb a b = true -> a <> S754_nan /\ b <> S754_nan.
Proof.
  unfold SFleb. intros H. split; intros ->; [|rewrite SFcompare_nan_r in H];
    discriminate H.
Qed.

(** ** Binary64: a product with a finite factor is a number

    Rounding shifts the mantissa to the right and may add one; it never
    makes it negative, so the rounded product of two finite doubles is a
    zero, a finite double or an infinity. *)

Lemma shr_1_nonneg (mrs : shr_record) :
  (0 <= shr_m mrs)%Z -> (0 <= shr_m (shr_1 mrs))%Z.
Proof.
  destruct mrs as [m r s]. cbn [shr_m]. intros H.
  destruct m as [|p|p]; [| |lia]; cbn [shr_1].
  - cbn. lia.
  - destruct p; cbn; lia.
Qed.

Lemma iter_shr_1_nonneg (p : positive) (mrs : shr_record) :
  (0 <= shr_m mrs)%Z -> (0 <= shr_m (iter_pos shr_1 p mrs))%Z.
Proof.
  revert mrs. induction p as [p IH|p IH|]; intros mrs H; cbn [iter_pos].
  - apply IH, IH, shr_1_nonneg, H.
  - apply IH, IH, H.
  - apply shr_1_nonneg, H.
Qed.

Lemma shr_fexp_nonneg (m e : Z) (l : location) :
  (0 <= m)%Z -> (0 <= shr_m (fst (shr_fexp prec emax m e l)))%Z.
Proof.
  intros H. unfold shr_fexp, shr.
  assert (H0 : (0 <= shr_m (shr_record_of_loc m l))%Z)
    by (destruct l as [|[]]; exact H).
  destruct (_ - e)%Z; cbn [fst]; try exact H0.
  apply iter_shr_1_nonneg, H0.
Qed.

Lemma round_nearest_even_nonneg (m : Z) (l : location) :
  (0 <= m)%Z -> (0 <= round_nearest_even m l)%Z.
Proof.
  intros H. destruct l as [|[]]; cbn [round_nearest_even]; try lia.
  destruct (Z.even m); lia.
Qed.

Lemma binary_round_aux_not_nan (s : bool) (m e : Z) (l : location) :
  (0 <= m)%Z -> binary_round_aux prec emax s m e l <> S754_nan.
Proof.
  intros H. unfold binary_round_aux.
  pose proof (shr_fexp_nonneg m e l H) as H1.
  destruct (shr_fexp prec emax m e l) as [mrs' e']. cbn [fst] in H1.
  pose proof (shr_fexp_nonneg _ e' loc_Exact
                (round_nearest_even_nonneg _ (loc_of_shr_record mrs') H1)) as H2.
  destruct (shr_fexp prec emax (round_nearest_even _ _) e' loc_Exact)
    as [mrs'' e''].
  cbn [fst] in H2.
  destruct (shr_m mrs'') as [|p|p]; [discriminate| |lia].
  destruct (Z.leb e'' _); discriminate.
Qed.

Lemma SFmul_finite_not_nan (a : spec_float) (s : bool) (m : positive) (e : Z) :
  a <> S754_nan -> SFmul prec emax a (S754_finite s m e) <> S754_nan.
Proof.
  intros Ha. destruct a as [sa|sa| |sa ma ea]; cbn [SFmul];
    try discriminate; [contradiction|].
  apply binary_round_aux_not_nan. lia.
Qed.

Section PhaseOfDoubles.

Local Open Scope float_scope.

Lemma mul_finite_not_nan (x k : float) (s : bool) (m : positive) (e : Z) :
  Prim2SF k = S754_finite s m e ->
  Prim2SF x <> S754_nan -> Prim2SF (x * k) <> S754_nan.
Proof.
  intros Hk Hx. rewrite mul_spec, Hk. apply SFmul_finite_not_nan, Hx.
Qed.

Lemma leb_ltb_trans (x y z : float) :
  (x <=? y) = true -> (y <? z) = true -> (x <? z) = true.
Proof. rewrite leb_spec, !ltb_spec. apply SFleb_ltb_trans. Qed.

Lemma leb_ltb_false (x y : float) : (y <=? x) = true -> (x <? y) = false.
Proof. rewrite leb_spec, ltb_spec. apply SFleb_ltb_false. Qed.

Lemma ltb_false_leb (x y : float) :
  Prim2SF x <> S754_nan -> Prim2SF y <> S754_nan ->
  (x <? y) = false -> (y <=? x) = true.
Proof. rewrite leb_spec, ltb_spec. apply SFltb_false_leb. Qed.

Lemma leb_not_nan (x y : float) :
  (x <=? y) = true -> Prim2SF x <> S754_nan /\ Prim2SF y <> S754_nan.
Proof. rewrite leb_spec. apply SFleb_not_nan. Qed.

(** ** Binary64: the phase *)

Lemma simulateCooking_phase (g : GrainProfile) (t : float) :
  Binary64.phase (Binary64.simulateCooking g t)
  = Binary64.phaseAt (Binary64.cookTimeOf g) t.
Proof.
  unfold Binary64.simulateCooking, Binary64.phaseAt. cbn zeta.
  cbn [Binary64.phase].
  destruct (t <? _ * 0.45); [reflexivity|].
  destruct (t <? _ * 0.48); [reflexivity|].
  destruct (t <? _ * 0.85); [reflexivity|].
  unfold Binary64.coolingBlock. cbn zeta. cbn [Binary64.r_phase]. reflexivity.
Qed.

Ltac phase_case :=
  cbn [Binary64.phase_interval]; split; intros;
  repeat match goal with
    | H : _ /\ _ |- _ => destruct H
    | H : (_ <=? _)%float = true |- _ => apply leb_ltb_false in H
    end;
  repeat split;
  first [ congruence | apply ltb_false_leb; assumption ].

(** When the cook time and the elapsed time are numbers, the phase is the
    one whose interval holds the time. *)
Lemma phase_interval_decides (c t : float) (p : Phase) :
  Prim2SF c <> S754_nan -> Prim2SF t <> S754_nan ->
  (Binary64.phaseAt c t = p <-> Binary64.phase_interval c p t).
Proof.
  intros Hc Ht.
  assert (N45 : Prim2SF (c * 0.45) <> S754_nan)
    by (eapply mul_finite_not_nan; [reflexivity|exact Hc]).
  assert (N48 : Prim2SF (c * 0.48) <> S754_nan)
    by (eapply mul_finite_not_nan; [reflexivity|exact Hc]).
  assert (N85 : Prim2SF (c * 0.85) <> S754_nan)
    by (eapply mul_finite_not_nan; [reflexivity|exact Hc]).
  assert (N95 : Prim2SF (c * 0.95) <> S754_nan)
    by (eapply mul_finite_not_nan; [reflexivity|exact Hc]).
  unfold Binary64.phaseAt.
  destruct (t <? c * 0.45) eqn:A1; [destruct p; phase_case|].
  destruct (t <? c * 0.48) eqn:A2; [destruct p; phase_case|].
  destruct (t <? c * 0.85) eqn:A3; [destruct p; phase_case|].
  destruct (t <? c * 0.95) eqn:A4; destruct p; phase_case.
Qed.

(** No regression: a later time is never in an earlier phase, whatever the
    products are rounded to. *)
Lemma phaseAt_monotone_binary64 (c t1 t2 : float) :
  (t1 <=? t2) = true ->
  (phase_rank (Binary64.phaseAt c t1) <= phase_rank (Binary64.phaseAt c t2))%nat.
Proof.
  intros Hle. unfold Binary64.phaseAt.
  pose proof (leb_ltb_trans t1 t2 (c * 0.45) Hle) as T1.
  pose proof (leb_ltb_trans t1 t2 (c * 0.48) Hle) as T2.
  pose proof (leb_ltb_trans t1 t2 (c * 0.85) Hle) as T3.
  pose proof (leb_ltb_trans t1 t2 (c * 0.95) Hle) as T4.
  destruct (t2 <? c * 0.45); [rewrite (T1 eq_refl); cbn [phase_rank]; lia|].
  destruct (t2 <? c * 0.48);
    [rewrite (T2 eq_refl); destruct (t1 <? c * 0.45); cbn [phase_rank]; lia|].
  destruct (t2 <? c * 0.85);
    [rewrite (T3 eq_refl); destruct (t1 <? c * 0.45), (t1 <? c * 0.48);
     cbn [phase_rank]; lia|].
  destruct (t2 <? c * 0.95);
    [rewrite (T4 eq_refl);
     destruct (t1 <? c * 0.45), (t1 <? c * 0.48), (t1 <? c * 0.85);
     cbn [phase_rank]; lia|].
  destruct (t1 <? c * 0.45), (t1 <? c * 0.48), (t1 <? c * 0.85),
    (t1 <? c * 0.95); cbn [phase_rank]; lia.
Qed.

End PhaseOfDoubles.

(** Quinoa (cook time 720 s) at the double 345.59999999999997, which is the
    product [720 * 0.48] of binary64: the fraction [t / cookTime] is below
    0.48, in binary64 and exactly, so the table gives TRANSFER; the code
    compares with the rounded product and gives PRESSURE. *)
Lemma quinoa_at_rounded_boundary :
  Binary64.phase (Binary64.simulateCooking quinoa 345.59999999999997)
  = PRESSURE
  /\ ((0.45 <=? 345.59999999999997 / Binary64.cookTimeOf quinoa)%float = true
      /\ (345.59999999999997 / Binary64.cookTimeOf quinoa <? 0.48)%float = true)
  /\ (exists t : Q,
        Binary64.toNum 345.59999999999997 = Fin t
        /\ phase_range TRANSFER (t / cookSeconds quinoa))
  /\ ~ (forall (g : GrainProfile) (t : float) (p : Phase),
          (0 <=? t)%float = true ->
          (t <=? Binary64.cookTimeOf g)%float = true ->
          (exists q : Q,
              Binary64.toNum t = Fin q /\ phase_range p (q / cookSeconds g)) ->
          Binary64.phase (Binary64.simulateCooking g t) = p).
Proof.
  assert (Hphase : Binary64.phase
                     (Binary64.simulateCooking quinoa 345.59999999999997)
                   = PRESSURE) by (vm_compute; reflexivity).
  assert (Hrange : exists t : Q,
            Binary64.toNum 345.59999999999997 = Fin t
            /\ phase_range TRANSFER (t / cookSeconds quinoa)).
  { eexists. split; [vm_compute; reflexivity|].
    cbn [phase_range]. split; [discriminate|reflexivity]. }
  split; [exact Hphase|]. split; [split; vm_compute; reflexivity|].
  split; [exact Hrange|].
  intros H.
  specialize (H quinoa 345.59999999999997%float TRANSFER).
  rewrite Hphase in H.
  assert (E : PRESSURE = TRANSFER).
  { apply H; [vm_compute; reflexivity|vm_compute; reflexivity|exact Hrange]. }
  discriminate E.
Qed.

(** C1 (amended).  In binary64, for every profile and all elapsed times
    [0 <= t1 <= t2 <= cookTime] (cookTime = optimal_cook_time * 60): the
    sample at [t1] has exactly one phase, the one whose interval between the
    computed products holds [t1] (MICROWAVE below [cookTime * 0.45], TRANSFER
    from there to below [cookTime * 0.48], PRESSURE to below
    [cookTime * 0.85], COOLING to below [cookTime * 0.95], DONE from there
    on), and the phase at [t2] is not an earlier one.  The products are
    rounded, so next to a boundary the phase can differ from the one that
    the fraction [t / cookTime] has in the table. *)
Theorem phase_by_computed_boundaries_and_monotone (g : GrainProfile)
  (t1 t2 : float) :
  (0 <=? t1)%float = true ->
  (t1 <=? t2)%float = true ->
  (t2 <=? Binary64.cookTimeOf g)%float = true ->
  (forall p : Phase,
      Binary64.phase (Binary64.simulateCooking g t1) = p
      <-> Binary64.phase_interval (Binary64.cookTimeOf g) p t1)
  /\ (phase_rank (Binary64.phase (Binary64.simulateCooking g t1))
      <= phase_rank (Binary64.phase (Binary64.simulateCooking g t2)))%nat.
Proof.
  intros H0 H12 H2.
  destruct (leb_not_nan _ _ H12) as [N1 _].
  destruct (leb_not_nan _ _ H2) as [_ Nc].
  rewrite !simulateCooking_phase. split.
  - intros p. apply phase_interval_decides; assumption.
  - apply phaseAt_monotone_binary64. exact H12.
Qed.

Lemma phase_by_computed_boundaries_witness :
  Binary64.phase (Binary64.simulateCooking quinoa 345.59999999999997)
  = PRESSURE
  /\ (phase_rank
        (Binary64.phase (Binary64.simulateCooking quinoa 345.59999999999997))
      <= phase_rank (Binary64.phase (Binary64.simulateCooking quinoa 700)))%nat.
Proof.
  destruct (phase_by_computed_boundaries_and_monotone quinoa
              345.59999999999997%float 700%float) as [Hp Hm].
  - vm_compute. reflexivity.
  - vm_compute. reflexivity.
  - vm_compute. reflexivity.
  - split; [|exact Hm].
    apply Hp. cbn [Binary64.phase_interval].
    repeat split; vm_compute; reflexivity.
Defined.

(** ** Binary64: samples at the last double of a phase

    The last double before the end of a phase can carry the value of the
    end: basmati rice at 269.99999999999994 s is in MICROWAVE with the power
    80 and the velocity 1620, and at 509.99999999999994 s in PRESSURE with
    the velocity 1690 and the progress 100, which is labelled "Fully Cooked";
    for a cook time of 128.9 minutes the pressure of the last sample is below
    1 by one unit of the last place.  The bounds of the properties below are
    closed where these values are reached. *)
Example last_double_of_a_phase :
  Binary64.microwavePower
    (Binary64.simulateCooking basmati_rice 269.99999999999994) = 80%float
  /\ Binary64.ultrasonicVelocity
       (Binary64.simulateCooking basmati_rice 269.99999999999994) = 1620%float
  /\ Binary64.phase (Binary64.simulateCooking basmati_rice 269.99999999999994)
     = MICROWAVE
  /\ Binary64.gelatinizationProgress
       (Binary64.simulateCooking basmati_rice 509.99999999999994) = 100%float
  /\ Binary64.phase (Binary64.simulateCooking basmati_rice 509.99999999999994)
     = PRESSURE
  /\ Binary64.classify
       (Binary64.gelatinizationProgress
          (Binary64.simulateCooking basmati_rice 509.99999999999994))
     = FullyCooked
  /\ Binary64.pressure
       (Binary64.simulateCooking
          (mkGrain "Basmati Rice" 78 7 22 78 12 65 65.9 68 128.9 100
             0.18 0.22 0.15 0.65 0.72) (128.9 * 60)%float)
     = 0.99999999999999978%float.
Proof. vm_compute. repeat split. Qed.

(** A ramp that is zero only after rounding: with the temperature
    10.000000000000002 the divisor [gelatinization_temp + 15 - 25] is 0 in
    binary64 and the progress is NaN, as on the flat ramp. *)
Example progress_nan_on_rounded_ramp :
  Binary64.toNum
    (Binary64.gelatinizationProgress
       (Binary64.simulateCooking
          (mkGrain "Flat ramp" 78 7 22 78 12 65 8 10.000000000000002 10 100
             0.18 0.22 0.15 0.65 0.72) 60)) = NaN
  /\ Binary64.phase
       (Binary64.simulateCooking
          (mkGrain "Flat ramp" 78 7 22 78 12 65 8 10.000000000000002 10 100
             0.18 0.22 0.15 0.65 0.72) 60) = MICROWAVE.
Proof. vm_compute. split; reflexivity. Qed.

(** ** Binary64: the clamp of the progress

    [Math.max(0, Math.min(60, x))] is NaN when [x] is, and otherwise a number
    between 0 and 60, by the order of doubles alone. *)

Section ClampOfDoubles.

Local Open Scope float_scope.

Lemma is_nan_spec (x : float) : is_nan x = false -> Prim2SF x <> S754_nan.
Proof.
  unfold is_nan. rewrite eqb_spec. intros H E. rewrite E in H. discriminate H.
Qed.

Lemma ltb_leb (x y : float) : (x <? y) = true -> (x <=? y) = true.
Proof.
  rewrite ltb_spec, leb_spec. unfold SFltb, SFleb.
  destruct (SFcompare _ _) as [[]|]; intros H; try discriminate H; reflexivity.
Qed.

(** [Math.min(60, x)] of a number is a number not above 60. *)
Lemma min_60_bounds (x : float) :
  is_nan x = false ->
  is_nan (Binary64.min 60 x) = false /\ (Binary64.min 60 x <=? 60) = true.
Proof.
  intros Hx. pose proof (is_nan_spec x Hx) as Nx.
  unfold Binary64.min. rewrite Hx.
  change (is_nan 60 || false) with false. cbv iota.
  destruct (60 <? x) eqn:A; [split; reflexivity|].
  destruct (x <? 60) eqn:B; [split; [exact Hx|apply ltb_leb; exact B]|].
  change (get_sign 60) with false. cbv iota.
  split; [exact Hx|].
  apply ltb_false_leb; [discriminate|exact Nx|exact A].
Qed.

(** [Math.max(0, m)] of a number not above 60 is in [0, 60]. *)
Lemma max_0_bounds (m : float) :
  is_nan m = false -> (m <=? 60) = true ->
  (0 <=? Binary64.max 0 m) = true /\ (Binary64.max 0 m <=? 60) = true.
Proof.
  intros Hm H60. pose proof (is_nan_spec m Hm) as Nm.
  unfold Binary64.max. rewrite Hm.
  change (is_nan 0 || false) with false. cbv iota.
  destruct (0 <? m) eqn:A; [split; [apply ltb_leb; exact A|exact H60]|].
  destruct (m <? 0) eqn:B; [split; reflexivity|].
  change (get_sign 0) with false. cbv iota.
  split; reflexivity.
Qed.

Lemma clamp_nan (x : float) :
  is_nan x = true -> Binary64.max 0 (Binary64.min 60 x) = nan.
Proof.
  intros Hx. unfold Binary64.min. rewrite Hx, orb_true_r.
  reflexivity.
Qed.

Lemma clamp_bounds (x : float) :
  let r := Binary64.max 0 (Binary64.min 60 x) in
  (is_nan x = true /\ r = nan)
  \/ (is_nan x = false /\ (0 <=? r) = true /\ (r <=? 60) = true).
Proof.
  cbn zeta. destruct (is_nan x) eqn:Hx.
  - left. split; [reflexivity|]. apply clamp_nan. exact Hx.
  - right. split; [reflexivity|].
    destruct (min_60_bounds x Hx) as [Hm H60].
    apply max_0_bounds; assumption.
Qed.

End ClampOfDoubles.

(** X21.  In binary64, whatever the profile and the elapsed time are: the
    progress of a MICROWAVE sample is NaN or a number between 0 and 60 (what
    [Math.max(0, Math.min(60, x))] returns, or 0 before the onset), the
    progress of a TRANSFER sample is 60, that of a PRESSURE sample is
    [60 + 40 * pressureProgress] as computed, and that of a COOLING or DONE
    sample is 100. *)
Theorem progress_by_phase_in_binary64 (g : GrainProfile) (t : float) :
  match Binary64.phase (Binary64.simulateCooking g t) with
  | MICROWAVE =>
      Binary64.gelatinizationProgress (Binary64.simulateCooking g t) = nan
      \/ ((0 <=? Binary64.gelatinizationProgress (Binary64.simulateCooking g t))%float
          = true
          /\ (Binary64.gelatinizationProgress (Binary64.simulateCooking g t)
              <=? 60)%float = true)
  | TRANSFER =>
      Binary64.gelatinizationProgress (Binary64.simulateCooking g t) = 60%float
  | PRESSURE =>
      Binary64.gelatinizationProgress (Binary64.simulateCooking g t)
      = (60 + 40 * ((t - Binary64.cookTimeOf g * 0.48)
                    / (Binary64.cookTimeOf g * 0.37)))%float
  | COOLING | DONE =>
      Binary64.gelatinizationProgress (Binary64.simulateCooking g t) = 100%float
  end.
Proof.
  unfold Binary64.simulateCooking. cbn zeta.
  cbn [Binary64.phase Binary64.gelatinizationProgress].
  destruct (t <? Binary64.cookTimeOf g * 0.45)%float.
  { unfold Binary64.microwaveBlock. cbn zeta.
    cbn [Binary64.r_phase Binary64.r_gelatinizationProgress].
    destruct (_ <=? _)%float; [|right; split; reflexivity].
    match goal with
    | |- Binary64.max 0 (Binary64.min 60 ?x) = nan \/ _ =>
        destruct (clamp_bounds x) as [[_ E]|[_ B]]
    end.
    - left. exact E.
    - right. exact B. }
  destruct (t <? Binary64.cookTimeOf g * 0.48)%float; [reflexivity|].
  destruct (t <? Binary64.cookTimeOf g * 0.85)%float; [reflexivity|].
  unfold Binary64.coolingBlock. cbn zeta.
  cbn [Binary64.r_phase Binary64.r_gelatinizationProgress].
  destruct (t <? Binary64.cookTimeOf g * 0.95)%float; reflexivity.
Qed.

(** ** The branches on finite times *)

Lemma phaseBlock_microwave (g : GrainProfile) (t : Q) (r : Latches) :
  t < cookSeconds g * 0.45 ->
  phaseBlock g (Fin t) r = microwaveBlock g (Fin (cookSeconds g)) (Fin t) r.
Proof.
  intros H. unfold phaseBlock. cbn zeta. rewrite cookTimeOf_Fin.
  cbn [mul ltb]. apply Qltb_lt in H. rewrite H. reflexivity.
Qed.

Lemma phaseBlock_transfer (g : GrainProfile) (t : Q) (r : Latches) :
  cookSeconds g * 0.45 <= t -> t < cookSeconds g * 0.48 ->
  phaseBlock g (Fin t) r = transferBlock g (Fin t) r.
Proof.
  intros H1 H2. unfold phaseBlock. cbn zeta. rewrite cookTimeOf_Fin.
  cbn [mul ltb]. apply Qltb_ge in H1. apply Qltb_lt in H2.
  rewrite H1, H2. reflexivity.
Qed.

Lemma phaseBlock_pressure (g : GrainProfile) (t : Q) (r : Latches) :
  cookSeconds g * 0.45 <= t -> cookSeconds g * 0.48 <= t ->
  t < cookSeconds g * 0.85 ->
  phaseBlock g (Fin t) r = pressureBlock g (Fin (cookSeconds g)) (Fin t) r.
Proof.
  intros H1 H2 H3. unfold phaseBlock. cbn zeta. rewrite cookTimeOf_Fin.
  cbn [mul ltb]. apply Qltb_ge in H1, H2. apply Qltb_lt in H3.
  rewrite H1, H2, H3. reflexivity.
Qed.

Lemma phaseBlock_cooling (g : GrainProfile) (t : Q) (r : Latches) :
  cookSeconds g * 0.45 <= t -> cookSeconds g * 0.48 <= t ->
  cookSeconds g * 0.85 <= t ->
  phaseBlock g (Fin t) r = coolingBlock g (Fin (cookSeconds g)) (Fin t) r.
Proof.
  intros H1 H2 H3. unfold phaseBlock. cbn zeta. rewrite cookTimeOf_Fin.
  cbn [mul ltb]. apply Qltb_ge in H1, H2, H3.
  rewrite H1, H2, H3. reflexivity.
Qed.

Lemma sample_moisture (g : GrainProfile) (t : num) (r : Latches) :
  moisture (sample (simulateCooking g t r))
  = r_moisture (readingOf (phaseBlock g t (snd (nirBlock g t r)))).
Proof. rewrite simulateCooking_blocks. reflexivity. Qed.

Lemma sample_gelatinizationProgress (g : GrainProfile) (t : num) (r : Latches) :
  gelatinizationProgress (sample (simulateCooking g t r))
  = r_gelatinizationProgress (readingOf (phaseBlock g t (snd (nirBlock g t r)))).
Proof. rewrite simulateCooking_blocks. reflexivity. Qed.

Lemma microwave_moisture (g : GrainProfile) (c t : Q) (r : Latches) :
  ~ c * 0.45 == 0 ->
  r_moisture (readingOf (microwaveBlock g (Fin c) (Fin t) r))
  = Fin (initial_moisture g
         + (45 + - initial_moisture g) * (t / (c * 0.45))).
Proof.
  intros Hc. unfold microwaveBlock, readingOf. cbn [fst r_moisture].
  rewrite mul_Fin, (div_Fin _ _ Hc). reflexivity.
Qed.




(** ** Gelatinization progress *)

Lemma max_min_Fin (x : Q) : max (Fin 0) (min (Fin 60) (Fin x)) = Fin (clamp60 x).
Proof.
  unfold clamp60, min. cbn [ltb]. destruct (Qltb x 60); unfold max; cbn [ltb];
    case_if; reflexivity.
Qed.

Lemma microwave_gel (g : GrainProfile) (c t : Q) (r : Latches) :
  ~ c * 0.45 == 0 ->
  ~ gelatinization_temp g + 15 + - 25 == 0 ->
  ~ 1 + - onsetProgressOf g == 0 ->
  r_gelatinizationProgress (readingOf (microwaveBlock g (Fin c) (Fin t) r))
  = Fin (microwaveGel g c t).
Proof.
  intros Hc HD Hk. unfold microwaveBlock, readingOf, microwaveGel.
  cbn [fst r_gelatinizationProgress]. cbn zeta.
  rewrite !mul_Fin, (div_Fin _ _ Hc), !add_Fin, !mul_Fin, !add_Fin.
  cbn [geb leb].
  destruct (Qle_bool _ _); [|reflexivity].
  rewrite !sub_Fin, (div_Fin _ _ HD), !sub_Fin.
  fold (onsetProgressOf g).
  rewrite (div_Fin _ _ Hk), mul_Fin.
  apply max_min_Fin.
Qed.

Lemma pressure_gel (g : GrainProfile) (c t : Q) (r : Latches) :
  ~ c * 0.37 == 0 ->
  r_gelatinizationProgress (readingOf (pressureBlock g (Fin c) (Fin t) r))
  = Fin (60 + 40 * ((t + - (c * 0.48)) / (c * 0.37))).
Proof.
  intros Hc. unfold pressureBlock, readingOf.
  cbn [fst r_gelatinizationProgress]. cbn zeta.
  rewrite !mul_Fin, sub_Fin, (div_Fin _ _ Hc). reflexivity.
Qed.

Lemma clamp60_bounds (x : Q) : 0 <= clamp60 x <= 60.
Proof.
  unfold clamp60. cbn zeta.
  destruct (Qltb x 60) eqn:A; destruct (Qltb 0 _) eqn:B; to_order; lra.
Qed.

Lemma clamp60_monotone (x y : Q) : x <= y -> clamp60 x <= clamp60 y.
Proof.
  intros Hxy. unfold clamp60. cbn zeta.
  destruct (Qltb x 60) eqn:A; destruct (Qltb y 60) eqn:B;
    repeat case_if; to_order; lra.
Qed.

Lemma clamp60_saturated (x : Q) : 60 <= x -> clamp60 x == 60.
Proof.
  intros Hx. unfold clamp60. cbn zeta.
  destruct (Qltb x 60) eqn:A; repeat case_if; to_order; lra.
Qed.

Lemma div_monotone (a b d : Q) : 0 < d -> a <= b -> a / d <= b / d.
Proof.
  intros Hd Hab. unfold Qdiv. apply Qmult_le_compat_r; [assumption|].
  apply Qinv_le_0_compat. lra.
Qed.

Lemma div_nonneg (a d : Q) : 0 < d -> 0 <= a -> 0 <= a / d.
Proof. intros Hd Ha. apply Qle_shift_div_l; [assumption|]. lra. Qed.

Lemma div_lt_1 (a d : Q) : 0 < d -> a < d -> a / d < 1.
Proof. intros Hd Ha. apply Qlt_shift_div_r; [assumption|]. lra. Qed.

(** A quotient of two negative numbers, the numerator the smaller. *)
Lemma div_neg_ge_1 (a d : Q) : d < 0 -> a <= d -> 1 <= a / d.
Proof.
  intros Hd Ha.
  assert (E : a / d == (- a) / (- d)) by (field; lra).
  rewrite E. apply Qle_shift_div_l; lra.
Qed.

Lemma div_neg_gt_1 (a d : Q) : d < 0 -> a < d -> 1 < a / d.
Proof.
  intros Hd Ha.
  assert (E : a / d == (- a) / (- d)) by (field; lra).
  rewrite E. apply Qlt_shift_div_l; lra.
Qed.

Section MicrowaveProgress.
Variable g : GrainProfile.
Hypothesis onset_pos : 0 < gelatinization_onset g.
Hypothesis onset_le_temp : gelatinization_onset g <= gelatinization_temp g.
Hypothesis temp_not_10 : ~ gelatinization_temp g == 10.

Lemma ramp_nonzero : ~ gelatinization_temp g + 15 + - 25 == 0.
Proof. intros H. apply temp_not_10. lra. Qed.

Lemma onset_denominator_sign :
  (0 < gelatinization_temp g + 15 + - 25 -> 0 < 1 + - onsetProgressOf g)
  /\ (gelatinization_temp g + 15 + - 25 < 0 -> 1 + - onsetProgressOf g < 0).
Proof.
  unfold onsetProgressOf. split; intros HD.
  - assert (H : (gelatinization_onset g + - 25)
                / (gelatinization_temp g + 15 + - 25) < 1)
      by (apply div_lt_1; lra).
    lra.
  - assert (H : 1 < (gelatinization_onset g + - 25)
                    / (gelatinization_temp g + 15 + - 25))
      by (apply div_neg_gt_1; lra).
    lra.
Qed.

Lemma onset_denominator_nonzero : ~ 1 + - onsetProgressOf g == 0.
Proof.
  destruct onset_denominator_sign as [Hpos Hneg].
  destruct (Q_dec (gelatinization_temp g + 15 + - 25) 0) as [[H|H]|H].
  - specialize (Hneg H). lra.
  - specialize (Hpos H). lra.
  - exfalso. exact (ramp_nonzero H).
Qed.

Lemma microwaveGel_bounds (c t : Q) : 0 <= microwaveGel g c t <= 60.
Proof.
  unfold microwaveGel. cbn zeta. case_if; [apply clamp60_bounds|lra].
Qed.

Lemma microwaveGel_monotone (c t1 t2 : Q) :
  0 <= t1 -> t1 <= t2 -> t2 < c * 0.45 ->
  microwaveGel g c t1 <= microwaveGel g c t2.
Proof.
  intros H0 H12 H2.
  assert (Hd : 0 < c * 0.45) by lra.
  pose proof (div_monotone t1 t2 (c * 0.45) Hd H12) as Hmp.
  pose proof (div_nonneg t1 (c * 0.45) Hd H0) as Hmp0.
  assert (Hmp1 : t2 / (c * 0.45) < 1) by (apply div_lt_1; lra).
  unfold microwaveGel. cbn zeta.
  set (mp1 := t1 / (c * 0.45)) in *. set (mp2 := t2 / (c * 0.45)) in *.
  assert (Hramp : (gelatinization_temp g + 15) * mp1
                  <= (gelatinization_temp g + 15) * mp2).
  { rewrite !(Qmult_comm (gelatinization_temp g + 15)).
    apply Qmult_le_compat_r; lra. }
  assert (Hramp0 : 0 <= (gelatinization_temp g + 15) * mp1).
  { apply Qmult_le_0_compat; lra. }
  destruct onset_denominator_sign as [Hpos Hneg].
  set (k := 1 + - onsetProgressOf g) in *.
  destruct (Q_dec (gelatinization_temp g + 15 + - 25) 0) as [[HD|HD]|HD].
  - (* the ramp is below 25: progress is saturated from the start *)
    specialize (Hneg HD).
    assert (S1 : 1 <= (mp1 + - onsetProgressOf g) / k)
      by (apply div_neg_ge_1; [assumption|unfold k; lra]).
    assert (S2 : 1 <= (mp2 + - onsetProgressOf g) / k)
      by (apply div_neg_ge_1; [assumption|unfold k; lra]).
    destruct (Qle_bool _ (25 + _ * mp1)) eqn:C1; to_order; [|exfalso; lra].
    destruct (Qle_bool _ (25 + _ * mp2)) eqn:C2; to_order; [|exfalso; lra].
    rewrite !clamp60_saturated by lra. lra.
  - specialize (Hpos HD).
    assert (Hx : (mp1 + - onsetProgressOf g) / k * 60
                 <= (mp2 + - onsetProgressOf g) / k * 60).
    { apply Qmult_le_compat_r; [|lra]. apply div_monotone; lra. }
    destruct (Qle_bool _ (25 + _ * mp1)) eqn:C1; to_order.
    + destruct (Qle_bool _ (25 + _ * mp2)) eqn:C2; to_order; [|exfalso; lra].
      apply clamp60_monotone. exact Hx.
    + case_if; [apply clamp60_bounds|lra].
  - exfalso. exact (ramp_nonzero HD).
Qed.
End MicrowaveProgress.

Section Progress.
Variable g : GrainProfile.
Hypothesis onset_pos : 0 < gelatinization_onset g.
Hypothesis onset_le_temp : gelatinization_onset g <= gelatinization_temp g.
Hypothesis temp_not_10 : ~ gelatinization_temp g == 10.

Lemma sample_gel (t : Q) (r : Latches) :
  0 <= t ->
  gelatinizationProgress (sample (simulateCooking g (Fin t) r))
  = Fin (gelAt g t).
Proof.
  intros H0. rewrite sample_gelatinizationProgress. unfold gelAt. cbn zeta.
  destruct (Qltb t (cookSeconds g * 0.45)) eqn:A1; to_order.
  { rewrite phaseBlock_microwave by assumption.
    apply microwave_gel.
    - lra.
    - apply ramp_nonzero; assumption.
    - apply onset_denominator_nonzero; assumption. }
  destruct (Qltb t (cookSeconds g * 0.48)) eqn:A2; to_order.
  { rewrite phaseBlock_transfer by assumption. reflexivity. }
  destruct (Qltb t (cookSeconds g * 0.85)) eqn:A3; to_order.
  { rewrite phaseBlock_pressure by assumption.
    apply pressure_gel. lra. }
  rewrite phaseBlock_cooling by assumption. reflexivity.
Qed.

Lemma gelAt_bounds (t : Q) : 0 <= gelAt g t <= 100.
Proof.
  unfold gelAt. cbn zeta.
  destruct (Qltb t (cookSeconds g * 0.45)) eqn:A1; to_order.
  { pose proof (microwaveGel_bounds g (cookSeconds g) t). lra. }
  destruct (Qltb t (cookSeconds g * 0.48)) eqn:A2; to_order; [lra|].
  destruct (Qltb t (cookSeconds g * 0.85)) eqn:A3; to_order; [|lra].
  assert (Hd : 0 < cookSeconds g * 0.37) by lra.
  pose proof (div_nonneg (t + - (cookSeconds g * 0.48))
                (cookSeconds g * 0.37) Hd) as P0.
  pose proof (div_lt_1 (t + - (cookSeconds g * 0.48))
                (cookSeconds g * 0.37) Hd) as P1.
  assert (0 <= (t + - (cookSeconds g * 0.48)) / (cookSeconds g * 0.37))
    by (apply P0; lra).
  assert ((t + - (cookSeconds g * 0.48)) / (cookSeconds g * 0.37) < 1)
    by (apply P1; lra).
  lra.
Qed.

Lemma gelAt_monotone (t1 t2 : Q) :
  0 <= t1 -> t1 <= t2 -> gelAt g t1 <= gelAt g t2.
Proof.
  intros H0 H12.
  pose proof (gelAt_bounds t1) as B1. pose proof (gelAt_bounds t2) as B2.
  unfold gelAt in *. cbn zeta in *.
  destruct (Qltb t2 (cookSeconds g * 0.45)) eqn:A1.
  { assert (E : Qltb t1 (cookSeconds g * 0.45) = true)
      by (to_order; apply Qltb_lt; lra).
    rewrite E. to_order.
    apply microwaveGel_monotone; assumption. }
  destruct (Qltb t1 (cookSeconds g * 0.45)) eqn:C1.
  { pose proof (microwaveGel_bounds g (cookSeconds g) t1) as M.
    destruct (Qltb t2 (cookSeconds g * 0.48)) eqn:A2; [lra|].
    destruct (Qltb t2 (cookSeconds g * 0.85)) eqn:A3; [|lra].
    to_order.
    assert (Hd : 0 < cookSeconds g * 0.37) by lra.
    assert (0 <= (t2 + - (cookSeconds g * 0.48)) / (cookSeconds g * 0.37))
      by (apply div_nonneg; lra).
    lra. }
  destruct (Qltb t2 (cookSeconds g * 0.48)) eqn:A2.
  { assert (E : Qltb t1 (cookSeconds g * 0.48) = true)
      by (to_order; apply Qltb_lt; lra).
    rewrite E. lra. }
  destruct (Qltb t2 (cookSeconds g * 0.85)) eqn:A3.
  - to_order.
    assert (Hd : 0 < cookSeconds g * 0.37) by lra.
    assert (E : Qltb t1 (cookSeconds g * 0.85) = true)
      by (apply Qltb_lt; lra).
    rewrite E.
    destruct (Qltb t1 (cookSeconds g * 0.48)) eqn:C2; to_order.
    + assert (0 <= (t2 + - (cookSeconds g * 0.48)) / (cookSeconds g * 0.37))
        by (apply div_nonneg; lra).
      lra.
    + assert ((t1 + - (cookSeconds g * 0.48)) / (cookSeconds g * 0.37)
              <= (t2 + - (cookSeconds g * 0.48)) / (cookSeconds g * 0.37))
        by (apply div_monotone; lra).
      lra.
  - destruct (Qltb t1 (cookSeconds g * 0.48)); [lra|].
    destruct (Qltb t1 (cookSeconds g * 0.85)); lra.
Qed.

(** The value of the progress in each phase. *)
Lemma gelAt_by_phase (t : Q) :
  match phaseAt (cookSeconds g) t with
  | MICROWAVE => gelAt g t <= 60
  | TRANSFER => gelAt g t == 60
  | PRESSURE =>
      gelAt g t
      == 60 + 40 * ((t - cookSeconds g * 0.48) / (cookSeconds g * 0.37))
  | COOLING | DONE => gelAt g t == 100
  end.
Proof.
  unfold gelAt, phaseAt. cbn zeta.
  destruct (Qltb t (cookSeconds g * 0.45)).
  { pose proof (microwaveGel_bounds g (cookSeconds g) t). lra. }
  destruct (Qltb t (cookSeconds g * 0.48)); [reflexivity|].
  destruct (Qltb t (cookSeconds g * 0.85)); [reflexivity|].
  destruct (Qltb t (cookSeconds g * 0.95)); reflexivity.
Qed.

End Progress.


(** ** Gelatinization progress when the heating ramp is flat *)

Lemma div_Fin_zero (x y : Q) :
  y == 0 -> x < 0 -> (Fin x / Fin y)%num = NInf.
Proof.
  intros Hy Hx. unfold div.
  rewrite (proj2 (Qeq_bool_iff y 0) Hy), (proj1 (Qlt_alt x 0) Hx). reflexivity.
Qed.

(** With [gelatinization_temp = 10] the divisor of [onsetProgress] is zero
    and every microwave sample has the progress NaN. *)
Lemma microwave_gel_flat (g : GrainProfile) (c t : Q) (r : Latches) :
  gelatinization_onset g <= gelatinization_temp g ->
  gelatinization_temp g == 10 ->
  0 <= t -> t < c * 0.45 ->
  r_gelatinizationProgress (readingOf (microwaveBlock g (Fin c) (Fin t) r))
  = NaN.
Proof.
  intros Hle HT H0 H1.
  assert (Hc : ~ c * 0.45 == 0) by lra.
  assert (Hmp : 0 <= t / (c * 0.45)) by (apply div_nonneg; lra).
  unfold microwaveBlock, readingOf.
  cbn [fst r_gelatinizationProgress]. cbn zeta.
  rewrite !mul_Fin, (div_Fin _ _ Hc), !add_Fin, !mul_Fin, !add_Fin.
  cbn [geb leb].
  assert (Hhot : Qle_bool (gelatinization_onset g)
                   (25 + (gelatinization_temp g + 15) * (t / (c * 0.45))) = true).
  { apply Qle_bool_iff.
    assert (0 <= (gelatinization_temp g + 15) * (t / (c * 0.45)))
      by (apply Qmult_le_0_compat; lra).
    lra. }
  rewrite Hhot, !sub_Fin.
  rewrite div_Fin_zero by lra. reflexivity.
Qed.

Lemma sample_gel_after_microwave (g : GrainProfile) (t : Q) (r : Latches) :
  cookSeconds g * 0.45 <= t ->
  gelatinizationProgress (sample (simulateCooking g (Fin t) r))
  = Fin (gelAt g t).
Proof.
  intros A1. rewrite sample_gelatinizationProgress. unfold gelAt. cbn zeta.
  rewrite (proj2 (Qltb_ge _ _) A1).
  destruct (Qltb t (cookSeconds g * 0.48)) eqn:A2; to_order.
  { rewrite phaseBlock_transfer by assumption. reflexivity. }
  destruct (Qltb t (cookSeconds g * 0.85)) eqn:A3; to_order.
  { rewrite phaseBlock_pressure by assumption.
    apply pressure_gel. lra. }
  rewrite phaseBlock_cooling by assumption. reflexivity.
Qed.

Lemma gelAt_monotone_after_microwave (g : GrainProfile) (t1 t2 : Q) :
  cookSeconds g * 0.45 <= t1 -> t1 <= t2 -> gelAt g t1 <= gelAt g t2.
Proof.
  intros A1 H12. unfold gelAt. cbn zeta.
  rewrite (proj2 (Qltb_ge _ _) A1).
  rewrite (proj2 (Qltb_ge t2 (cookSeconds g * 0.45)) ltac:(lra)).
  destruct (Qltb t2 (cookSeconds g * 0.48)) eqn:B2; to_order.
  { rewrite (proj2 (Qltb_lt t1 (cookSeconds g * 0.48)) ltac:(lra)). lra. }
  destruct (Qltb t2 (cookSeconds g * 0.85)) eqn:B3; to_order.
  - rewrite (proj2 (Qltb_lt t1 (cookSeconds g * 0.85)) ltac:(lra)).
    destruct (Qltb t1 (cookSeconds g * 0.48)) eqn:C2; to_order.
    + assert (0 <= (t2 + - (cookSeconds g * 0.48)) / (cookSeconds g * 0.37))
        by (apply div_nonneg; lra).
      lra.
    + assert ((t1 + - (cookSeconds g * 0.48)) / (cookSeconds g * 0.37)
              <= (t2 + - (cookSeconds g * 0.48)) / (cookSeconds g * 0.37))
        by (apply div_monotone; lra).
      lra.
  - destruct (Qltb t1 (cookSeconds g * 0.48)) eqn:C2; [lra|].
    destruct (Qltb t1 (cookSeconds g * 0.85)) eqn:C3; to_order; [|lra].
    assert ((t1 + - (cookSeconds g * 0.48)) / (cookSeconds g * 0.37) < 1)
      by (apply div_lt_1; lra).
    lra.
Qed.

(** The bounds of the progress in each phase. *)
Lemma gelAt_phase_bounds (g : GrainProfile) (t : Q) :
  match phaseAt (cookSeconds g) t with
  | MICROWAVE => gelAt g t <= 60
  | TRANSFER => gelAt g t == 60
  | PRESSURE => 60 <= gelAt g t
  | COOLING | DONE => gelAt g t == 100
  end.
Proof.
  pose proof (gelAt_by_phase g t) as P.
  unfold phaseAt in *.
  destruct (Qltb t (cookSeconds g * 0.45)) eqn:A1; [exact P|].
  destruct (Qltb t (cookSeconds g * 0.48)) eqn:A2; [exact P|].
  destruct (Qltb t (cookSeconds g * 0.85)) eqn:A3;
    [|destruct (Qltb t (cookSeconds g * 0.95)); exact P].
  to_order.
  assert (0 <= (t - cookSeconds g * 0.48) / (cookSeconds g * 0.37))
    by (apply div_nonneg; lra).
  lra.
Qed.

(** The progress of a sample: NaN on the microwave samples of a flat ramp,
    the number [gelAt] otherwise. *)
Lemma progress_cases (g : GrainProfile) (t : Q) (r : Latches) :
  0 < gelatinization_onset g ->
  gelatinization_onset g <= gelatinization_temp g ->
  0 <= t ->
  (gelatinization_temp g == 10 /\ t < cookSeconds g * 0.45
   /\ gelatinizationProgress (sample (simulateCooking g (Fin t) r)) = NaN)
  \/ ((~ gelatinization_temp g == 10 \/ cookSeconds g * 0.45 <= t)
      /\ gelatinizationProgress (sample (simulateCooking g (Fin t) r))
         = Fin (gelAt g t)).
Proof.
  intros Hpos Hle H0.
  destruct (Qlt_le_dec t (cookSeconds g * 0.45)) as [A1|A1].
  - destruct (Qeq_dec (gelatinization_temp g) 10) as [HT|HT].
    + left. split; [assumption|]. split; [assumption|].
      rewrite sample_gelatinizationProgress, phaseBlock_microwave by assumption.
      apply microwave_gel_flat; assumption.
    + right. split; [left; assumption|]. apply sample_gel; assumption.
  - right. split; [right; assumption|].
    apply sample_gel_after_microwave. assumption.
Qed.

Lemma gelAt_monotone_numbers (g : GrainProfile) (t1 t2 : Q) :
  0 < gelatinization_onset g ->
  gelatinization_onset g <= gelatinization_temp g ->
  0 <= t1 -> t1 <= t2 ->
  ~ gelatinization_temp g == 10 \/ cookSeconds g * 0.45 <= t1 ->
  gelAt g t1 <= gelAt g t2.
Proof.
  intros Hpos Hle H0 H12 [HT|A1].
  - apply gelAt_monotone; assumption.
  - apply gelAt_monotone_after_microwave; assumption.
Qed.





(** * Further properties of the code *)

(** ** The other observables on finite times *)

Lemma sample_fields (g : GrainProfile) (t : num) (r : Latches) :
  let b := readingOf (phaseBlock g t (snd (nirBlock g t r))) in
  temperature (sample (simulateCooking g t r)) = r_temperature b
  /\ pressure (sample (simulateCooking g t r)) = r_pressure b
  /\ ultrasonicVelocity (sample (simulateCooking g t r)) = r_ultrasonicVelocity b
  /\ microwavePower (sample (simulateCooking g t r)) = r_microwavePower b
  /\ shownTransformation (simulateCooking g t r)
     = classify (r_gelatinizationProgress b).
Proof. rewrite simulateCooking_blocks. cbn zeta. repeat split. Qed.

(** The branch taken, with what it knows about the time. *)
Lemma phaseBlock_cases (g : GrainProfile) (t : Q) (r : Latches) :
  (t < cookSeconds g * 0.45
   /\ phaseBlock g (Fin t) r = microwaveBlock g (Fin (cookSeconds g)) (Fin t) r)
  \/ (cookSeconds g * 0.45 <= t /\ t < cookSeconds g * 0.48
      /\ phaseBlock g (Fin t) r = transferBlock g (Fin t) r)
  \/ (cookSeconds g * 0.45 <= t /\ cookSeconds g * 0.48 <= t
      /\ t < cookSeconds g * 0.85
      /\ phaseBlock g (Fin t) r = pressureBlock g (Fin (cookSeconds g)) (Fin t) r)
  \/ (cookSeconds g * 0.45 <= t /\ cookSeconds g * 0.48 <= t
      /\ cookSeconds g * 0.85 <= t
      /\ phaseBlock g (Fin t) r = coolingBlock g (Fin (cookSeconds g)) (Fin t) r).
Proof.
  destruct (Qlt_le_dec t (cookSeconds g * 0.45)) as [A1|A1].
  { left. split; [assumption|]. apply phaseBlock_microwave. assumption. }
  destruct (Qlt_le_dec t (cookSeconds g * 0.48)) as [A2|A2].
  { right. left. repeat split; try assumption.
    apply phaseBlock_transfer; assumption. }
  destruct (Qlt_le_dec t (cookSeconds g * 0.85)) as [A3|A3].
  { right. right. left. repeat split; try assumption.
    apply phaseBlock_pressure; assumption. }
  right. right. right. repeat split; try assumption.
  apply phaseBlock_cooling; assumption.
Qed.

Lemma microwave_reading (g : GrainProfile) (c t : Q) (r : Latches) :
  ~ c * 0.45 == 0 ->
  let b := readingOf (microwaveBlock g (Fin c) (Fin t) r) in
  let mp := microwaveProgressAt c t in
  r_temperature b = Fin (25 + (gelatinization_temp g + 15) * mp)
  /\ r_pressure b = Fin 1
  /\ r_ultrasonicVelocity b = Fin (1500 + 120 * mp)
  /\ r_microwavePower b = Fin (40 + 40 * mp)
  /\ r_phase b = MICROWAVE.
Proof.
  intros Hc. unfold microwaveBlock, readingOf, microwaveProgressAt.
  cbn [fst r_temperature r_pressure r_ultrasonicVelocity r_microwavePower
       r_phase]. cbn zeta.
  rewrite !mul_Fin, (div_Fin _ _ Hc). repeat split.
Qed.

Lemma pressure_reading (g : GrainProfile) (c t : Q) (r : Latches) :
  ~ c * 0.37 == 0 ->
  let b := readingOf (pressureBlock g (Fin c) (Fin t) r) in
  let pp := pressureProgressAt c t in
  r_moisture b = Fin (45 + (target_moisture g + - 45) * pp)
  /\ r_temperature b
     = Fin (gelatinization_temp g + 15
            + (100 + - gelatinization_temp g + - 15) * pp)
  /\ r_pressure b
     = (if Qltb pp 0.15 then Fin (1.0 + (2.2 + - 1.0) * (pp / 0.15)) else Fin 2.2)
  /\ r_ultrasonicVelocity b = Fin (1620 + 70 * pp)
  /\ r_microwavePower b = Fin 0
  /\ r_phase b = PRESSURE.
Proof.
  intros Hc. unfold pressureBlock, readingOf, pressureProgressAt.
  cbn [fst r_moisture r_temperature r_pressure r_ultrasonicVelocity
       r_microwavePower r_phase]. cbn zeta.
  rewrite !mul_Fin, !sub_Fin, (div_Fin _ _ Hc).
  repeat split.
Qed.

Lemma cooling_reading (g : GrainProfile) (c t : Q) (r : Latches) :
  ~ c * 0.15 == 0 ->
  let b := readingOf (coolingBlock g (Fin c) (Fin t) r) in
  let cp := coolProgressAt c t in
  r_moisture b = Fin (target_moisture g + - (2 * cp))
  /\ r_temperature b = Fin (100 + - (35 * cp))
  /\ r_pressure b = Fin (2.2 + - (1.2 * cp))
  /\ r_ultrasonicVelocity b = Fin (1690 + - (10 * cp))
  /\ r_microwavePower b = Fin 0.
Proof.
  intros Hc. unfold coolingBlock, readingOf, coolProgressAt.
  cbn [fst r_moisture r_temperature r_pressure r_ultrasonicVelocity
       r_microwavePower]. cbn zeta.
  rewrite !mul_Fin, !sub_Fin, (div_Fin _ _ Hc).
  repeat split.
Qed.

Lemma div_le_1 (a d : Q) : 0 < d -> a <= d -> a / d <= 1.
Proof. intros Hd Ha. apply Qle_shift_div_r; [assumption|]. lra. Qed.

(** The sample of a time within the cook time, branch by branch. *)
Lemma sample_cases (g : GrainProfile) (t : Q) (r : Latches) :
  0 < cookSeconds g -> 0 <= t -> t <= cookSeconds g ->
  let s := sample (simulateCooking g (Fin t) r) in
  let c := cookSeconds g in
  (t < c * 0.45
   /\ (0 <= microwaveProgressAt c t /\ microwaveProgressAt c t < 1)
   /\ phase s = MICROWAVE
   /\ moisture s
      = Fin (initial_moisture g
             + (45 + - initial_moisture g) * microwaveProgressAt c t)
   /\ temperature s
      = Fin (25 + (gelatinization_temp g + 15) * microwaveProgressAt c t)
   /\ pressure s = Fin 1
   /\ ultrasonicVelocity s = Fin (1500 + 120 * microwaveProgressAt c t)
   /\ microwavePower s = Fin (40 + 40 * microwaveProgressAt c t))
  \/ ((c * 0.45 <= t /\ t < c * 0.48)
      /\ phase s = TRANSFER
      /\ moisture s = Fin 45
      /\ temperature s = Fin (gelatinization_temp g + 15)
      /\ pressure s = Fin 1
      /\ ultrasonicVelocity s = Fin 1620
      /\ microwavePower s = Fin 0)
  \/ ((c * 0.48 <= t /\ t < c * 0.85)
      /\ (0 <= pressureProgressAt c t /\ pressureProgressAt c t < 1)
      /\ phase s = PRESSURE
      /\ moisture s
         = Fin (45 + (target_moisture g + - 45) * pressureProgressAt c t)
      /\ temperature s
         = Fin (gelatinization_temp g + 15
                + (100 + - gelatinization_temp g + - 15)
                  * pressureProgressAt c t)
      /\ pressure s
         = (if Qltb (pressureProgressAt c t) 0.15
            then Fin (1.0 + (2.2 + - 1.0) * (pressureProgressAt c t / 0.15))
            else Fin 2.2)
      /\ ultrasonicVelocity s = Fin (1620 + 70 * pressureProgressAt c t)
      /\ microwavePower s = Fin 0)
  \/ (c * 0.85 <= t
      /\ (0 <= coolProgressAt c t /\ coolProgressAt c t <= 1)
      /\ phase s = (if Qltb t (c * 0.95) then COOLING else DONE)
      /\ moisture s = Fin (target_moisture g + - (2 * coolProgressAt c t))
      /\ temperature s = Fin (100 + - (35 * coolProgressAt c t))
      /\ pressure s = Fin (2.2 + - (1.2 * coolProgressAt c t))
      /\ ultrasonicVelocity s = Fin (1690 + - (10 * coolProgressAt c t))
      /\ microwavePower s = Fin 0).
Proof.
  intros Hc H0 H1. cbn zeta.
  pose proof (sample_fields g (Fin t) r) as F. cbn zeta in F.
  destruct F as (Ft & Fp & Fu & Fm & _).
  rewrite Ft, Fp, Fu, Fm, sample_moisture, sample_phase. clear Ft Fp Fu Fm.
  unfold phaseAt.
  destruct (phaseBlock_cases g t (snd (nirBlock g (Fin t) r)))
    as [[A1 E]|[(A1 & A2 & E)|[(A1 & A2 & A3 & E)|(A1 & A2 & A3 & E)]]];
    rewrite E; clear E.
  - left.
    assert (Hd : ~ cookSeconds g * 0.45 == 0) by lra.
    pose proof (microwave_reading g (cookSeconds g) t
                  (snd (nirBlock g (Fin t) r)) Hd) as R.
    cbn zeta in R. destruct R as (R1 & R2 & R3 & R4 & _).
    rewrite R1, R2, R3, R4, (microwave_moisture _ _ _ _ Hd).
    rewrite (proj2 (Qltb_lt _ _) A1).
    split; [assumption|]. split.
    { unfold microwaveProgressAt. split;
        [apply div_nonneg; lra|apply div_lt_1; lra]. }
    repeat split.
  - right. left.
    rewrite (proj2 (Qltb_ge _ _) A1), (proj2 (Qltb_lt _ _) A2).
    repeat split; assumption.
  - right. right. left.
    assert (Hd : ~ cookSeconds g * 0.37 == 0) by lra.
    pose proof (pressure_reading g (cookSeconds g) t
                  (snd (nirBlock g (Fin t) r)) Hd) as R.
    cbn zeta in R. destruct R as (R1 & R2 & R3 & R4 & R5 & _).
    rewrite R1, R2, R3, R4, R5.
    rewrite (proj2 (Qltb_ge _ _) A1), (proj2 (Qltb_ge _ _) A2),
      (proj2 (Qltb_lt _ _) A3).
    split; [split; assumption|]. split.
    { unfold pressureProgressAt. split;
        [apply div_nonneg; lra|apply div_lt_1; lra]. }
    repeat split.
  - right. right. right.
    assert (Hd : ~ cookSeconds g * 0.15 == 0) by lra.
    pose proof (cooling_reading g (cookSeconds g) t
                  (snd (nirBlock g (Fin t) r)) Hd) as R.
    cbn zeta in R. destruct R as (R1 & R2 & R3 & R4 & R5).
    rewrite R1, R2, R3, R4, R5.
    rewrite (proj2 (Qltb_ge _ _) A1), (proj2 (Qltb_ge _ _) A2),
      (proj2 (Qltb_ge _ _) A3).
    split; [assumption|]. split.
    { unfold coolProgressAt. split;
        [apply div_nonneg; lra|apply div_le_1; lra]. }
    repeat split.
Qed.

Lemma positive_cook_time (g : GrainProfile) :
  0 < optimal_cook_time g -> 0 < cookSeconds g.
Proof. intros H. unfold cookSeconds. lra. Qed.

(** ** The two-decimal display of a bounded number *)






(** X3.  Over the cook time the microwave power is between 40 and 80 %
    while the phase is MICROWAVE and exactly 0 in every other phase. *)
Theorem microwave_power_only_in_microwave (g : GrainProfile) (t : Q)
  (r : Latches) :
  0 < optimal_cook_time g -> 0 <= t -> t <= cookSeconds g ->
  exists q : Q,
    microwavePower (sample (simulateCooking g (Fin t) r)) = Fin q
    /\ match phase (sample (simulateCooking g (Fin t) r)) with
       | MICROWAVE => 40 <= q /\ q <= 80
       | _ => q == 0
       end.
Proof.
  intros Hc H0 H1. apply positive_cook_time in Hc.
  pose proof (sample_cases g t r Hc H0 H1) as C. cbn zeta in C.
  destruct C as [C|[C|[C|C]]].
  - destruct C as (_ & [P0 P1] & Hp & _ & _ & _ & _ & Hq).
    rewrite Hp, Hq. eexists. split; [reflexivity|]. split; lra.
  - destruct C as (_ & Hp & _ & _ & _ & _ & Hq).
    rewrite Hp, Hq. eexists. split; reflexivity.
  - destruct C as (_ & _ & Hp & _ & _ & _ & _ & Hq).
    rewrite Hp, Hq. eexists. split; reflexivity.
  - destruct C as (_ & _ & Hp & _ & _ & _ & _ & Hq).
    rewrite Hp, Hq. eexists. split; [reflexivity|].
    destruct (Qltb t (cookSeconds g * 0.95)); reflexivity.
Qed.

Lemma microwave_power_witness :
  exists q : Q,
    microwavePower (sample (simulateCooking quinoa (Fin 100) initialLatches))
    = Fin q
    /\ 40 <= q /\ q <= 80.
Proof.
  destruct (microwave_power_only_in_microwave quinoa 100 initialLatches)
    as (q & E & B).
  - reflexivity.
  - discriminate.
  - discriminate.
  - exists q. split; [exact E|].
    change (phase (sample (simulateCooking quinoa (Fin 100) initialLatches)))
      with MICROWAVE in B.
    exact B.
Defined.



Lemma scale_monotone (k x y : Q) : 0 <= k -> x <= y -> k * x <= k * y.
Proof.
  intros Hk Hxy. rewrite !(Qmult_comm k).
  apply Qmult_le_compat_r; assumption.
Qed.





(** X5.  The temperature falls at the hand-over to the pressure cooker.  For
    a profile with a gelatinization temperature between 0 and 100 and a
    positive cook time, a sample of the last tenth of the microwave phase is
    earlier than every TRANSFER sample and at least 10 degrees hotter: the
    microwave ramp runs towards [gelatinization_temp + 40], the transfer
    shows [gelatinization_temp + 15]. *)
Theorem temperature_falls_at_transfer (g : GrainProfile) (t1 t2 : Q)
  (r1 r2 : Latches) :
  0 < optimal_cook_time g ->
  0 <= gelatinization_temp g -> gelatinization_temp g <= 100 ->
  0 <= t2 -> t2 <= cookSeconds g ->
  0.9 * (cookSeconds g * 0.45) <= t1 ->
  phase (sample (simulateCooking g (Fin t1) r1)) = MICROWAVE ->
  phase (sample (simulateCooking g (Fin t2) r2)) = TRANSFER ->
  t1 < t2
  /\ exists q1 q2 : Q,
       temperature (sample (simulateCooking g (Fin t1) r1)) = Fin q1
       /\ temperature (sample (simulateCooking g (Fin t2) r2)) = Fin q2
       /\ q2 + 10 <= q1.
Proof.
  intros Hc HT0 HT1 H2 H3 Hlast Hp1 Hp2. apply positive_cook_time in Hc.
  set (T := gelatinization_temp g) in *.
  set (c := cookSeconds g) in *.
  assert (H0 : 0 <= t1) by lra.
  assert (A1 : t1 < c * 0.45).
  { rewrite sample_phase in Hp1. fold c in Hp1. unfold phaseAt in Hp1.
    destruct (Qltb t1 (c * 0.45)) eqn:A; to_order; [exact A|].
    repeat (destruct (Qltb t1 _) in Hp1; try discriminate Hp1). }
  pose proof (sample_cases g t1 r1 Hc H0 ltac:(fold c; lra)) as C1.
  pose proof (sample_cases g t2 r2 Hc H2 H3) as C2.
  cbn zeta in C1, C2. fold c T in C1, C2.
  destruct C1 as [C1|[C1|[C1|C1]]];
    [|exfalso; destruct C1 as [? _]; lra..].
  destruct C2 as [C2|[C2|[C2|C2]]].
  - exfalso. destruct C2 as (_ & _ & E & _). rewrite E in Hp2. discriminate Hp2.
  - destruct C1 as (_ & [P0 P1] & _ & _ & E1 & _).
    destruct C2 as ([B1 B2] & _ & _ & E2 & _).
    split; [lra|].
    rewrite E1, E2. eexists. eexists.
    split; [reflexivity|]. split; [reflexivity|].
    assert (Hmp : 0.9 <= microwaveProgressAt c t1)
      by (unfold microwaveProgressAt; apply Qle_shift_div_l; lra).
    assert (Hlo : (T + 15) * 0.9 <= (T + 15) * microwaveProgressAt c t1)
      by (apply scale_monotone; lra).
    lra.
  - exfalso. destruct C2 as (_ & _ & E & _). rewrite E in Hp2. discriminate Hp2.
  - exfalso. destruct C2 as (_ & _ & E & _). rewrite E in Hp2.
    destruct (Qltb t2 (c * 0.95)); discriminate Hp2.
Qed.

Lemma temperature_falls_witness :
  exists q1 q2 : Q,
    temperature (sample (simulateCooking basmati_rice (Fin 269) initialLatches))
    = Fin q1
    /\ temperature (sample (simulateCooking basmati_rice (Fin 270)
                              initialLatches)) = Fin q2
    /\ q2 + 10 <= q1.
Proof.
  destruct (temperature_falls_at_transfer basmati_rice 269 270 initialLatches
              initialLatches) as (_ & q1 & q2 & E1 & E2 & D).
  - reflexivity.
  - discriminate.
  - discriminate.
  - discriminate.
  - discriminate.
  - discriminate.
  - reflexivity.
  - reflexivity.
  - exists q1, q2. repeat split; assumption.
Defined.

(** ** The transformation label *)

Lemma classify_Fin (q : Q) :
  classify (Fin q)
  = if Qeq_bool q 0 then Hydration
    else if Qltb 0 q && Qltb q 60 then GelatinizationOnsetStage
    else if Qle_bool 60 q && Qltb q 100 then CompleteGelatinization
    else if Qeq_bool q 100 then FullyCooked
    else Hydration.
Proof. reflexivity. Qed.

Ltac to_equations :=
  repeat match goal with
    | H : Qeq_bool _ _ = true |- _ => apply Qeq_bool_iff in H
    | H : Qeq_bool _ _ = false |- _ => apply Qeq_bool_false in H
    | H : (_ && _)%bool = true |- _ => apply andb_prop in H; destruct H
    | H : (_ && _)%bool = false |- _ => apply andb_false_iff in H; destruct H
    end.

Lemma classify_table (q : Q) :
  (q == 0 -> classify (Fin q) = Hydration)
  /\ (0 < q -> q < 60 -> classify (Fin q) = GelatinizationOnsetStage)
  /\ (60 <= q -> q < 100 -> classify (Fin q) = CompleteGelatinization)
  /\ (q == 100 -> classify (Fin q) = FullyCooked)
  /\ (q < 0 \/ 100 < q -> classify (Fin q) = Hydration).
Proof.
  rewrite classify_Fin.
  destruct (Qeq_bool q 0) eqn:E0;
    destruct (Qltb 0 q && Qltb q 60) eqn:E1;
    destruct (Qle_bool 60 q && Qltb q 100) eqn:E2;
    destruct (Qeq_bool q 100) eqn:E3;
    to_equations; to_order;
    repeat split; intros; try reflexivity; exfalso;
    repeat match goal with
      | H : _ \/ _ |- _ => destruct H
      end;
    first [lra | contradiction | (apply E0; lra) | (apply E3; lra)].
Qed.

Lemma classify_monotone (q1 q2 : Q) :
  0 <= q1 -> q1 <= q2 -> q2 <= 100 ->
  (transformation_rank (classify (Fin q1))
   <= transformation_rank (classify (Fin q2)))%nat.
Proof.
  intros H0 H12 H2.
  destruct (classify_table q1) as (A1 & A2 & A3 & A4 & _).
  destruct (classify_table q2) as (B1 & B2 & B3 & B4 & _).
  destruct (Qlt_le_dec 0 q1) as [P1|P1].
  2:{ rewrite A1 by lra. cbn [transformation_rank]. lia. }
  destruct (Qlt_le_dec q1 60) as [Q1|Q1].
  { rewrite A2 by assumption.
    destruct (Qlt_le_dec q2 60) as [Q2|Q2];
      [rewrite B2 by lra|
       destruct (Qlt_le_dec q2 100) as [R2|R2];
       [rewrite B3 by lra|rewrite B4 by lra]];
      cbn [transformation_rank]; lia. }
  destruct (Qlt_le_dec q1 100) as [R1|R1].
  { rewrite A3 by assumption.
    destruct (Qlt_le_dec q2 100) as [R2|R2];
      [rewrite B3 by lra|rewrite B4 by lra];
      cbn [transformation_rank]; lia. }
  rewrite A4 by lra. rewrite B4 by lra. cbn [transformation_rank]. lia.
Qed.

(** X6.  The grain-transformation label follows the progress and, for a
    profile with [0 < gelatinization_onset <= gelatinization_temp], never
    goes back as time advances: it is not yet "Fully Cooked" in MICROWAVE,
    "Complete Gelatinization" in TRANSFER, "Complete Gelatinization" or
    "Fully Cooked" in PRESSURE and "Fully Cooked" in COOLING and DONE.  A
    progress that is not a number in [0, 100] is labelled "Hydration", the
    initial value of the variable. *)
Theorem transformation_never_regresses (g : GrainProfile) (t1 t2 : Q)
  (r1 r2 : Latches) :
  0 < gelatinization_onset g ->
  gelatinization_onset g <= gelatinization_temp g ->
  0 <= t1 -> t1 <= t2 ->
  (transformation_rank (shownTransformation (simulateCooking g (Fin t1) r1))
   <= transformation_rank (shownTransformation (simulateCooking g (Fin t2) r2)))%nat
  /\ match phase (sample (simulateCooking g (Fin t1) r1)) with
     | MICROWAVE =>
         shownTransformation (simulateCooking g (Fin t1) r1) <> FullyCooked
     | TRANSFER =>
         shownTransformation (simulateCooking g (Fin t1) r1)
         = CompleteGelatinization
     | PRESSURE =>
         shownTransformation (simulateCooking g (Fin t1) r1)
         = CompleteGelatinization
         \/ shownTransformation (simulateCooking g (Fin t1) r1) = FullyCooked
     | COOLING | DONE =>
         shownTransformation (simulateCooking g (Fin t1) r1) = FullyCooked
     end
  /\ (forall x : num, ~ within 0 100 x -> classify x = Hydration).
Proof.
  intros Hpos Hle H0 H12.
  assert (Hshown : forall t r,
            shownTransformation (simulateCooking g (Fin t) r)
            = classify (gelatinizationProgress
                          (sample (simulateCooking g (Fin t) r)))).
  { intros t r.
    pose proof (sample_fields g (Fin t) r) as F. cbn zeta in F.
    destruct F as (_ & _ & _ & _ & F). rewrite F.
    rewrite sample_gelatinizationProgress. reflexivity. }
  rewrite !Hshown. split; [|split].
  - destruct (progress_cases g t1 r1 Hpos Hle H0) as [(_ & _ & N)|[C1 F1]].
    { rewrite N. cbn [classify eqb gtb geb ltb leb andb transformation_rank].
      lia. }
    destruct (progress_cases g t2 r2 Hpos Hle ltac:(lra))
      as [(HT & A2 & _)|[_ F2]].
    { exfalso. destruct C1 as [C1|C1]; [contradiction|lra]. }
    rewrite F1, F2.
    pose proof (gelAt_bounds g t1) as B1. pose proof (gelAt_bounds g t2) as B2.
    apply classify_monotone; [lra| |lra].
    apply gelAt_monotone_numbers; assumption.
  - rewrite sample_phase.
    pose proof (gelAt_phase_bounds g t1) as P.
    pose proof (gelAt_bounds g t1) as B.
    destruct (classify_table (gelAt g t1)) as (A1 & A2 & A3 & A4 & _).
    destruct (progress_cases g t1 r1 Hpos Hle H0) as [(_ & A & N)|[_ F]].
    { rewrite N. unfold phaseAt. rewrite (proj2 (Qltb_lt _ _) A).
      discriminate. }
    rewrite F.
    destruct (phaseAt (cookSeconds g) t1).
    + intros Hfull.
      destruct (Qlt_le_dec 0 (gelAt g t1)) as [P1|P1];
        [|rewrite A1 in Hfull by lra; discriminate Hfull].
      destruct (Qlt_le_dec (gelAt g t1) 60) as [Q1|Q1];
        [rewrite A2 in Hfull by assumption; discriminate Hfull|].
      rewrite A3 in Hfull by lra. discriminate Hfull.
    + apply A3; lra.
    + destruct (Qlt_le_dec (gelAt g t1) 100) as [Q1|Q1].
      * left. apply A3; lra.
      * right. apply A4. lra.
    + apply A4. exact P.
    + apply A4. exact P.
  - intros x Hx. destruct x as [q| | |]; try reflexivity.
    destruct (classify_table q) as (A1 & A2 & A3 & A4 & A5).
    apply A5. cbn [within] in Hx.
    destruct (Qlt_le_dec q 0) as [L|L]; [left; assumption|].
    destruct (Qlt_le_dec 100 q) as [U|U]; [right; assumption|].
    exfalso. apply Hx. split; assumption.
Qed.

Lemma transformation_witness :
  (transformation_rank
     (shownTransformation (simulateCooking basmati_rice (Fin 100) initialLatches))
   <= transformation_rank
        (shownTransformation (simulateCooking basmati_rice (Fin 580)
                                initialLatches)))%nat.
Proof.
  destruct (transformation_never_regresses basmati_rice 100 580 initialLatches
              initialLatches) as (H & _).
  - reflexivity.
  - discriminate.
  - discriminate.
  - discriminate.
  - exact H.
Defined.


(** ** The decision log: one entry per bucket *)

Lemma fixed_eqb_refl (s : FixedString) : fixed_eqb s s = true.
Proof.
  destruct s as [b n f|b m|b|]; cbn [fixed_eqb];
    rewrite ?eqb_reflx, ?Z.eqb_refl, ?Nat.eqb_refl, ?Qeq_bool_refl;
    reflexivity.
Qed.

Lemma fixed_eqb_sym (s1 s2 : FixedString) : fixed_eqb s1 s2 = fixed_eqb s2 s1.
Proof.
  destruct s1 as [b1 n1 f1|b1 m1|b1|], s2 as [b2 n2 f2|b2 m2|b2|];
    cbn [fixed_eqb]; try reflexivity.
  - rewrite (Z.eqb_sym n1 n2), (Nat.eqb_sym f1 f2).
    destruct b1, b2; reflexivity.
  - assert (E : Qeq_bool m1 m2 = Qeq_bool m2 m1).
    { destruct (Qeq_bool m1 m2) eqn:A; destruct (Qeq_bool m2 m1) eqn:B;
        try reflexivity; to_equations; exfalso.
      - apply B. symmetry. exact A.
      - apply A. symmetry. exact B. }
    rewrite E. destruct b1, b2; reflexivity.
  - destruct b1, b2; reflexivity.
Qed.

Lemma Qle_bool_comp (a b c d : Q) :
  a == b -> c == d -> Qle_bool a c = Qle_bool b d.
Proof.
  intros E1 E2.
  destruct (Qle_bool a c) eqn:A; destruct (Qle_bool b d) eqn:B;
    try reflexivity; to_order; exfalso; lra.
Qed.

(** [toFixed] does not depend on how the rational is written. *)
Lemma toFixed_comp (f : nat) (a b : Q) :
  a == b -> toFixed f (Fin a) = toFixed f (Fin b).
Proof.
  intros E. unfold toFixed.
  assert (Eabs : Qabs a == Qabs b) by (rewrite E; reflexivity).
  assert (En : Qltb a 0 = Qltb b 0).
  { unfold Qltb. f_equal. apply Qle_bool_comp; [reflexivity|exact E]. }
  rewrite En, (Qle_bool_comp (pow10 21) (pow10 21) (Qabs a) (Qabs b))
    by (reflexivity || exact Eabs).
  destruct (Qle_bool (pow10 21) (Qabs b)).
  - f_equal. apply Qred_complete. exact Eabs.
  - f_equal. apply Qfloor_comp. rewrite Eabs. reflexivity.
Qed.

Lemma addDecision_taken_key (c : Call) (log : list Decision) :
  (exists d, In d log /\ fixed_eqb (timeLabel d) (bucketOf c) = true) ->
  addDecision (c_time c) (c_message c) log = log.
Proof. intros H. apply addDecision_taken. exact H. Qed.

Lemma record_calls_taken_key (K : FixedString) (cs : list Call)
  (log : list Decision) :
  (exists d, In d log /\ fixed_eqb (timeLabel d) K = true) ->
  Forall (fun c => bucketOf c = K) cs ->
  record_calls cs log = log.
Proof.
  intros Htaken Hall. induction Hall as [|c cs Hc Hcs IH]; [reflexivity|].
  cbn [record_calls fold_left].
  rewrite addDecision_taken_key by (rewrite Hc; exact Htaken).
  exact IH.
Qed.

(** Calls that fall into one bucket leave at most one entry. *)
Lemma record_calls_one_bucket (K : FixedString) (cs : list Call)
  (log : list Decision) :
  Forall (fun c => bucketOf c = K) cs ->
  exists added,
    record_calls cs log = log ++ added /\ (length added <= 1)%nat.
Proof.
  intros Hall. induction Hall as [|c cs Hc Hcs IH].
  - exists []. split; [symmetry; apply app_nil_r|cbn; lia].
  - cbn [record_calls fold_left].
    destruct (bucket_decidable (c_time c) log) as [Htaken|Hfresh].
    + rewrite (addDecision_taken _ _ _ Htaken). exact IH.
    + rewrite (addDecision_fresh _ _ _ Hfresh).
      exists [mkDecision (c_time c / 60)%num (c_message c)].
      split; [|cbn; lia].
      apply (record_calls_taken_key K); [|exact Hcs].
      exists (mkDecision (c_time c / 60)%num (c_message c)). split.
      * apply in_or_app. right. left. reflexivity.
      * unfold timeLabel. cbn [d_time]. fold (bucketOf c). rewrite Hc.
        apply fixed_eqb_refl.
Qed.

Lemma eqb_zero_bucket (time : num) :
  (time === 0)%num = true ->
  toFixed 1 (Fin 0 / 60)%num = toFixed 1 (time / 60)%num.
Proof.
  destruct time as [q| | |]; cbn [eqb]; try discriminate.
  intros E. apply Qeq_bool_iff in E.
  rewrite !div_60. apply toFixed_comp. rewrite E. reflexivity.
Qed.

(** All the calls of one invocation fall into the bucket of its time. *)
Lemma invocation_one_bucket (g : GrainProfile) (time : num) (r : Latches) :
  Forall (fun c => bucketOf c = toFixed 1 (time / 60)%num)
    (calls (simulateCooking g time r)).
Proof.
  rewrite simulateCooking_blocks. cbn zeta. cbn [calls].
  apply Forall_app. split.
  - unfold nirBlock.
    destruct ((time === 0)%num && negb (nirScanLogged r)) eqn:E;
      cbn [fst]; [|constructor].
    apply andb_prop in E. destruct E as [E _].
    repeat constructor; unfold bucketOf; cbn [c_time];
      apply eqb_zero_bucket; exact E.
  - pose proof (phaseBlock_times g time (snd (nirBlock g time r))) as H.
    induction H as [|c cs Hc Hcs IH]; constructor; [|exact IH].
    unfold bucketOf. rewrite Hc. reflexivity.
Qed.

(** X7.  Whatever an invocation of the engine asks the log to record, at
    most one entry is added: all its calls carry the time of the invocation,
    so once one entry is in, the bucket is taken for the others (a status,
    pressure or completion message that comes after a one-shot message of the
    same invocation is lost).  The earlier entries stay as they are. *)
Theorem invocation_adds_at_most_one_entry (g : GrainProfile) (time : num)
  (r : Latches) (log : list Decision) :
  exists added,
    record_calls (calls (simulateCooking g time r)) log = log ++ added
    /\ (length added <= 1)%nat
    /\ (forall d, In d added -> timeLabel d = toFixed 1 (time / 60)%num).
Proof.
  pose proof (invocation_one_bucket g time r) as Hall.
  destruct (record_calls_one_bucket _ _ log Hall) as (added & E & L).
  exists added. split; [exact E|]. split; [exact L|].
  revert E. generalize (calls (simulateCooking g time r)) Hall. clear.
  intros cs Hall. revert log added.
  induction Hall as [|c cs Hc Hcs IH]; intros log added E d Hin.
  - cbn in E. rewrite <- (app_nil_r log) in E at 1.
    apply app_inv_head in E. subst added. destruct Hin.
  - cbn [record_calls fold_left] in E.
    destruct (addDecision_extends (c_time c) (c_message c) log) as [a1 E1].
    destruct (record_calls_extends cs (addDecision (c_time c) (c_message c) log))
      as [a2 E2].
    unfold record_calls in E2. rewrite E2 in E.
    assert (Ha : added = a1 ++ a2).
    { rewrite E1, <- app_assoc in E. apply app_inv_head in E. symmetry. exact E. }
    subst added. apply in_app_or in Hin. destruct Hin as [Hin|Hin].
    + unfold addDecision in E1. destruct (negb _).
      * apply app_inv_head in E1. subst a1.
        destruct Hin as [<-|[]]. unfold timeLabel. cbn [d_time].
        fold (bucketOf c). exact Hc.
      * rewrite <- (app_nil_r log) in E1 at 1.
        apply app_inv_head in E1. subst a1. destruct Hin.
    + apply (IH _ a2 E2 d Hin).
Qed.

(** Basmati rice at 480 s with the latches unset: the engine asks for the
    gelatinization-complete entry and for the holding-pressure entry; the
    log takes the first. *)
Example two_calls_one_entry :
  length (calls (simulateCooking basmati_rice (Fin 480) initialLatches)) = 2%nat
  /\ length (record_calls
               (calls (simulateCooking basmati_rice (Fin 480) initialLatches)) [])
     = 1%nat.
Proof. vm_compute. split; reflexivity. Qed.

Lemma labels_distinct_snoc (log : list Decision) (d : Decision) :
  labels_distinct (log ++ [d])
  = labels_distinct log
    && negb (existsb (fun e => fixed_eqb (timeLabel e) (timeLabel d)) log).
Proof.
  induction log as [|x log IH].
  - reflexivity.
  - cbn [app labels_distinct existsb]. rewrite IH, existsb_app.
    cbn [existsb]. rewrite orb_false_r.
    rewrite (fixed_eqb_sym (timeLabel d) (timeLabel x)).
    destruct (existsb (fun e => fixed_eqb (timeLabel e) (timeLabel x)) log);
      destruct (fixed_eqb (timeLabel x) (timeLabel d));
      destruct (labels_distinct log);
      destruct (existsb (fun e => fixed_eqb (timeLabel e) (timeLabel d)) log);
      reflexivity.
Qed.

Lemma addDecision_keeps_labels_distinct (time : num) (message : Message)
  (log : list Decision) :
  labels_distinct log = true ->
  labels_distinct (addDecision time message log) = true.
Proof.
  intros H. unfold addDecision.
  destruct (existsb _ log) eqn:E; cbn [negb]; [exact H|].
  rewrite labels_distinct_snoc, H. unfold timeLabel at 2. cbn [d_time].
  unfold timeLabel. rewrite E. reflexivity.
Qed.

Lemma record_calls_keeps_labels_distinct (cs : list Call) (log : list Decision) :
  labels_distinct log = true -> labels_distinct (record_calls cs log) = true.
Proof.
  revert log. induction cs as [|c cs IH]; intros log H; [exact H|].
  cbn [record_calls fold_left]. apply IH.
  apply addDecision_keeps_labels_distinct. exact H.
Qed.

(** ** The run *)

(** What one step of the driver does. *)
Lemma driverStep_cases (g : GrainProfile) (st : Component) :
  grainOf st = Some g ->
  (isRunning st = false /\ driverStep st = Returns st)
  \/ (isRunning st = true /\ optimal_cook_time g * 60 <= nextTime st
      /\ driverStep st = Returns (stopped g st))
  \/ (isRunning st = true /\ nextTime st < optimal_cook_time g * 60
      /\ driverStep st = Returns (advanced g st)).
Proof.
  intros Hg. unfold driverStep. destruct (isRunning st) eqn:R.
  - right.
    destruct (Qlt_le_dec (nextTime st) (optimal_cook_time g * 60)) as [Hlt|Hge].
    + right. split; [reflexivity|]. split; [assumption|].
      pose proof (tick_samples g st Hg Hlt) as Ht. cbn zeta in Ht.
      rewrite Ht. unfold advanced. cbn zeta. rewrite R. reflexivity.
    + left. split; [reflexivity|]. split; [assumption|].
      apply tick_stops; assumption.
  - left. split; reflexivity.
Qed.

Lemma grainOf_stopped (g : GrainProfile) (st : Component) :
  grainOf (stopped g st) = grainOf st.
Proof. reflexivity. Qed.

Lemma grainOf_advanced (g : GrainProfile) (st : Component) :
  grainOf (advanced g st) = grainOf st.
Proof. reflexivity. Qed.

Section DriverInvariant.
Variable g : GrainProfile.
Variable P : Component -> Prop.
Hypothesis P_stopped :
  forall st, P st -> grainOf st = Some g -> isRunning st = true ->
    optimal_cook_time g * 60 <= nextTime st -> P (stopped g st).
Hypothesis P_advanced :
  forall st, P st -> grainOf st = Some g -> isRunning st = true ->
    nextTime st < optimal_cook_time g * 60 -> P (advanced g st).

(** An invariant of the two outcomes of the callback holds after any number
    of ticks, and the ticks do not fail. *)
Lemma ticks_invariant (n : nat) (st : Component) :
  P st -> grainOf st = Some g ->
  exists st', ticks n st = Returns st' /\ P st' /\ grainOf st' = Some g.
Proof.
  revert st. induction n as [|n IH]; intros st HP Hg.
  - exists st. repeat split; assumption.
  - cbn [ticks].
    destruct (driverStep_cases g st Hg)
      as [[R E]|[(R & T & E)|(R & T & E)]]; rewrite E; cbn [bind].
    + apply IH; assumption.
    + apply IH; [apply P_stopped; assumption|].
      rewrite grainOf_stopped. exact Hg.
    + apply IH; [apply P_advanced; assumption|].
      rewrite grainOf_advanced. exact Hg.
Qed.

End DriverInvariant.

(** X8.  The rows of the decision log show pairwise different time labels:
    the empty log of a reset does, and every call of [addDecision], every
    batch of calls and every number of ticks keeps it so. *)
Theorem log_labels_stay_distinct (g : GrainProfile) (st : Component)
  (n : nat) (cs : list Call) :
  grainOf st = Some g ->
  labels_distinct (decisions st) = true ->
  labels_distinct (record_calls cs (decisions st)) = true
  /\ labels_distinct (decisions (handleReset st)) = true
  /\ exists st',
       ticks n st = Returns st' /\ labels_distinct (decisions st') = true.
Proof.
  intros Hg Hd.
  split; [apply record_calls_keeps_labels_distinct; exact Hd|].
  split; [reflexivity|].
  destruct (ticks_invariant g (fun s => labels_distinct (decisions s) = true))
    with (n := n) (st := st) as (st' & E & H & _).
  - intros s Hs _ _ _. exact Hs.
  - intros s Hs _ _ _. unfold advanced. cbn zeta. cbn [decisions].
    apply record_calls_keeps_labels_distinct. exact Hs.
  - exact Hd.
  - exact Hg.
  - exists st'. split; assumption.
Qed.

Lemma log_labels_witness :
  exists st',
    ticks 140 (toggleRunning initialComponent) = Returns st'
    /\ labels_distinct (decisions st') = true
    /\ length (decisions st') = 3%nat.
Proof.
  destruct (log_labels_stay_distinct basmati_rice
              (toggleRunning initialComponent) 140 []) as (_ & _ & st' & E & H).
  - reflexivity.
  - reflexivity.
  - exists st'. split; [exact E|]. split; [exact H|].
    assert (L : match ticks 140 (toggleRunning initialComponent) with
                | Returns s => length (decisions s) = 3%nat
                | Throws _ => False
                end) by (vm_compute; reflexivity).
    rewrite E in L. exact L.
Defined.

Lemma ticks_series_length (g : GrainProfile) (n : nat) (st : Component) :
  grainOf st = Some g ->
  exists st' added,
    ticks n st = Returns st'
    /\ data st' = data st ++ added /\ (length added <= n)%nat.
Proof.
  revert st. induction n as [|n IH]; intros st Hg.
  - exists st, []. split; [reflexivity|].
    split; [symmetry; apply app_nil_r|cbn; lia].
  - cbn [ticks].
    destruct (driverStep_cases g st Hg)
      as [[R E]|[(R & T & E)|(R & T & E)]]; rewrite E; cbn [bind].
    + destruct (IH st Hg) as (st' & a & Et & Ed & L).
      exists st', a. repeat split; try assumption. lia.
    + destruct (IH (stopped g st) Hg) as (st' & a & Et & Ed & L).
      exists st', a. repeat split; try assumption. lia.
    + destruct (IH (advanced g st) Hg) as (st' & a & Et & Ed & L).
      exists st', ([sample (simulateCooking g (Fin (nextTime st)) (refs st))] ++ a).
      split; [exact Et|]. split.
      * rewrite Ed. unfold advanced. cbn zeta. cbn [data].
        rewrite <- app_assoc. reflexivity.
      * rewrite length_app. cbn [length]. lia.
Qed.

(** X9.  With a non-negative speed and an elapsed time that is not past the
    cook time, any number of ticks leaves an elapsed time that is not
    smaller than before and not past the cook time, and appends at most one
    sample per tick to the series (none is removed or changed). *)
Theorem elapsed_time_within_cook_time (g : GrainProfile) (st : Component)
  (n : nat) :
  grainOf st = Some g ->
  0 <= speedMultiplier st ->
  simTime st <= cookSeconds g ->
  exists st' added,
    ticks n st = Returns st'
    /\ simTime st <= simTime st'
    /\ simTime st' <= cookSeconds g
    /\ data st' = data st ++ added
    /\ (length added <= n)%nat.
Proof.
  intros Hg Hs Ht.
  destruct (ticks_series_length g n st Hg) as (st1 & added & E1 & Ed & L).
  destruct (ticks_invariant g
              (fun s => 0 <= speedMultiplier s
                        /\ simTime st <= simTime s
                        /\ simTime s <= cookSeconds g))
    with (n := n) (st := st) as (st2 & E2 & (_ & Hlo & Hhi) & _).
  - intros s (S1 & S2 & S3) _ _ T. unfold stopped, cookSeconds in *.
    cbn [speedMultiplier simTime]. repeat split; lra.
  - intros s (S1 & S2 & S3) _ _ T. unfold advanced, cookSeconds in *.
    cbn zeta. cbn [speedMultiplier simTime].
    assert (0 <= UPDATE_INTERVAL / 1000 * speedMultiplier s).
    { apply Qmult_le_0_compat; [discriminate|exact S1]. }
    unfold nextTime in *. repeat split; lra.
  - repeat split; lra.
  - exact Hg.
  - rewrite E1 in E2. injection E2 as <-.
    exists st1, added. repeat split; assumption.
Qed.

Lemma elapsed_time_witness :
  exists st' added,
    ticks 7 (toggleRunning initialComponent) = Returns st'
    /\ 0 <= simTime st'
    /\ simTime st' <= 600
    /\ data st' = [] ++ added
    /\ (length added <= 7)%nat.
Proof.
  destruct (elapsed_time_within_cook_time basmati_rice
              (toggleRunning initialComponent) 7)
    as (st' & added & E & Lo & Hi & D & L).
  - reflexivity.
  - discriminate.
  - discriminate.
  - exists st', added. repeat split; assumption.
Defined.

Lemma ticks_paused (n : nat) (st : Component) :
  isRunning st = false -> ticks n st = Returns st.
Proof.
  intros R. induction n as [|n IH]; [reflexivity|].
  cbn [ticks]. unfold driverStep. rewrite R. cbn [bind]. exact IH.
Qed.




(** X11.  After a run has completed (stopped, elapsed time equal to the cook
    time), pressing Start changes nothing: the next tick stops the loop
    again without a sample or a log entry, and the component is as it was
    before the click; only a reset starts a new run. *)
Theorem start_after_completion_changes_nothing (g : GrainProfile)
  (st : Component) (n : nat) :
  grainOf st = Some g ->
  isRunning st = false ->
  simTime st = optimal_cook_time g * 60 ->
  0 <= speedMultiplier st ->
  ticks (S n) (toggleRunning st) = Returns st.
Proof.
  intros Hg R T Hs. cbn [ticks].
  assert (Hinc : 0 <= UPDATE_INTERVAL / 1000 * speedMultiplier st).
  { apply Qmult_le_0_compat; [discriminate|exact Hs]. }
  destruct (driverStep_cases g (toggleRunning st) Hg)
    as [[R' E]|[(_ & T' & E)|(_ & T' & E)]].
  - unfold toggleRunning in R'. cbn [isRunning] in R'. rewrite R in R'.
    discriminate R'.
  - rewrite E. cbn [bind].
    assert (Est : stopped g (toggleRunning st) = st).
    { destruct st. cbn in R, T. subst. reflexivity. }
    rewrite Est. apply ticks_paused. exact R.
  - exfalso. unfold nextTime, toggleRunning in T'.
    cbn [simTime speedMultiplier] in T'. rewrite T in T'. lra.
Qed.

Lemma start_after_completion_witness :
  ticks 3 (toggleRunning
             (mkComponent "quinoa" 100 5 false (12 * 60) [] DONE FullyCooked []
                initialLatches))
  = Returns (mkComponent "quinoa" 100 5 false (12 * 60) [] DONE FullyCooked []
               initialLatches).
Proof.
  apply (start_after_completion_changes_nothing quinoa
           (mkComponent "quinoa" 100 5 false (12 * 60) [] DONE FullyCooked []
              initialLatches) 2).
  - reflexivity.
  - reflexivity.
  - reflexivity.
  - discriminate.
Defined.

(** ** The scan is never logged by the driver *)






(** ** The time field of the samples *)

Lemma pow10_pos (f : nat) : 0 < pow10 f.
Proof.
  unfold pow10. change 0 with (inject_Z 0). rewrite <- Zlt_Qlt.
  apply Z.pow_pos_nonneg; lia.
Qed.

(** Rounding keeps the order of non-negative numbers. *)
Lemma parse_toFixed_monotone (f : nat) (a b : Q) :
  0 <= a -> a <= b ->
  exists q1 q2 : Q,
    parseFloat (toFixed f (Fin a)) = Fin q1
    /\ parseFloat (toFixed f (Fin b)) = Fin q2
    /\ q1 <= q2.
Proof.
  intros Ha Hab.
  pose proof (pow10_pos f) as HP.
  assert (Na : Qltb a 0 = false) by (apply Qltb_ge; exact Ha).
  assert (Nb : Qltb b 0 = false) by (apply Qltb_ge; lra).
  assert (Ea : Qabs a == a) by (apply Qabs_pos; exact Ha).
  assert (Eb : Qabs b == b) by (apply Qabs_pos; lra).
  unfold toFixed. rewrite Na, Nb.
  destruct (Qle_bool (pow10 21) (Qabs a)) eqn:Ca;
    destruct (Qle_bool (pow10 21) (Qabs b)) eqn:Cb; to_order.
  - eexists. eexists. split; [reflexivity|]. split; [reflexivity|].
    cbn [signed]. rewrite !Qred_correct. lra.
  - exfalso. lra.
  - eexists. eexists. split; [reflexivity|]. split; [reflexivity|].
    cbn [signed]. rewrite Qred_correct.
    pose proof (Qfloor_le (Qabs a * pow10 f + 0.5)) as Hfl.
    set (n := Qfloor (Qabs a * pow10 f + 0.5)) in *.
    assert (EN : pow10 21 * pow10 f
                 == inject_Z (10 ^ Z.of_nat 21 * 10 ^ Z.of_nat f)).
    { unfold pow10. rewrite inject_Z_mult. reflexivity. }
    assert (Hscaled : Qabs a * pow10 f < pow10 21 * pow10 f)
      by (apply Qmult_lt_compat_r; assumption).
    assert (Hn : inject_Z n
                 < inject_Z (10 ^ Z.of_nat 21 * 10 ^ Z.of_nat f + 1)).
    { rewrite inject_Z_plus. change (inject_Z 1) with 1. lra. }
    rewrite <- Zlt_Qlt in Hn.
    assert (Hn' : inject_Z n
                  <= inject_Z (10 ^ Z.of_nat 21 * 10 ^ Z.of_nat f))
      by (rewrite <- Zle_Qle; lia).
    assert (Hq : inject_Z n / pow10 f <= pow10 21 * pow10 f / pow10 f)
      by (apply div_monotone; [assumption|lra]).
    assert (Ecancel : pow10 21 * pow10 f / pow10 f == pow10 21)
      by (field; lra).
    lra.
  - eexists. eexists. split; [reflexivity|]. split; [reflexivity|].
    cbn [signed]. apply div_monotone; [assumption|].
    rewrite <- Zle_Qle. apply Qfloor_resp_le.
    assert (Qabs a * pow10 f <= Qabs b * pow10 f)
      by (apply Qmult_le_compat_r; lra).
    lra.
Qed.

Lemma minutesField_monotone (t1 t2 : Q) :
  0 <= t1 -> t1 <= t2 ->
  exists q1 q2 : Q,
    minutesField t1 = Fin q1 /\ minutesField t2 = Fin q2 /\ q1 <= q2.
Proof.
  intros H0 H12. unfold minutesField. rewrite !div_60.
  apply parse_toFixed_monotone.
  - apply div_nonneg; [reflexivity|exact H0].
  - apply div_monotone; [reflexivity|exact H12].
Qed.

Lemma sample_time (g : GrainProfile) (t : Q) (r : Latches) :
  time (sample (simulateCooking g (Fin t) r)) = minutesField t.
Proof. rewrite simulateCooking_blocks. reflexivity. Qed.

Lemma leb_Fin_trans (x : num) (q1 q2 : Q) :
  leb x (Fin q1) = true -> q1 <= q2 -> leb x (Fin q2) = true.
Proof.
  destruct x as [q| | |]; cbn [leb]; intros H Hle; try discriminate;
    try reflexivity.
  to_order. apply Qle_bool_iff. lra.
Qed.

Lemma StronglySorted_snoc {A : Type} (R : A -> A -> Prop) (l : list A) (x : A) :
  StronglySorted R l -> Forall (fun a => R a x) l ->
  StronglySorted R (l ++ [x]).
Proof.
  intros Hs. induction Hs as [|a l Hs IH Ha]; intros Hx.
  - cbn. constructor; constructor.
  - cbn [app]. inversion Hx as [|? ? Rax Hx']; subst.
    constructor; [apply IH; exact Hx'|].
    apply Forall_app. split; [exact Ha|]. constructor; [exact Rax|constructor].
Qed.

(** X15.  The series stays in time order.  If the samples of the series are
    in the order of their [time] fields and none is later than the elapsed
    time (as after a reset, when the series is empty), then with a
    non-negative speed and an elapsed time between 0 and the cook time this
    is still so after any number of ticks. *)
Theorem series_stays_in_time_order (g : GrainProfile) (st : Component)
  (n : nat) :
  grainOf st = Some g ->
  0 <= speedMultiplier st ->
  0 <= simTime st -> simTime st <= cookSeconds g ->
  series_in_order st ->
  series_in_order (handleReset st)
  /\ exists st', ticks n st = Returns st' /\ series_in_order st'.
Proof.
  intros Hg Hs H0 H1 Hord.
  split.
  { split; constructor. }
  destruct (ticks_invariant g
              (fun s => 0 <= speedMultiplier s
                        /\ 0 <= simTime s /\ simTime s <= cookSeconds g
                        /\ series_in_order s))
    with (n := n) (st := st) as (st' & E & (_ & _ & _ & H) & _).
  - intros s (S1 & S2 & S3 & [So Sb]) _ _ T.
    unfold stopped, series_in_order, cookSeconds in *.
    cbn [speedMultiplier simTime data].
    split; [exact S1|]. split; [lra|]. split; [lra|].
    split; [exact So|].
    destruct (minutesField_monotone (simTime s) (optimal_cook_time g * 60)
                S2 S3) as (q1 & q2 & E1 & E2 & Hq).
    rewrite E2. rewrite E1 in Sb.
    eapply Forall_impl; [exact Sb|].
    intros x Hx. cbn beta in Hx. apply (leb_Fin_trans _ q1); assumption.
  - intros s (S1 & S2 & S3 & [So Sb]) _ _ T.
    assert (Hinc : 0 <= UPDATE_INTERVAL / 1000 * speedMultiplier s).
    { apply Qmult_le_0_compat; [discriminate|exact S1]. }
    assert (Hnext : simTime s <= nextTime s) by (unfold nextTime; lra).
    unfold advanced, series_in_order, cookSeconds in *. cbn zeta.
    cbn [speedMultiplier simTime data].
    split; [exact S1|]. split; [lra|]. split; [lra|].
    destruct (minutesField_monotone (simTime s) (nextTime s) S2 Hnext)
      as (q1 & q2 & E1 & E2 & Hq).
    rewrite E1 in Sb.
    assert (Hall : Forall (fun x => leb (time x) (Fin q2) = true) (data s)).
    { eapply Forall_impl; [exact Sb|].
      intros x Hx. cbn beta in Hx. apply (leb_Fin_trans _ q1); assumption. }
    split.
    + apply StronglySorted_snoc; [exact So|].
      eapply Forall_impl; [exact Hall|].
      intros x Hx. unfold time_le. rewrite sample_time, E2. exact Hx.
    + rewrite E2. apply Forall_app. split; [exact Hall|].
      constructor; [|constructor].
      rewrite sample_time, E2. cbn [leb]. apply Qle_bool_iff. lra.
  - destruct Hord. repeat split; assumption.
  - exact Hg.
  - exists st'. split; assumption.
Qed.

Lemma series_order_witness :
  exists st',
    ticks 9 (toggleRunning initialComponent) = Returns st'
    /\ series_in_order st'.
Proof.
  destruct (series_stays_in_time_order basmati_rice
              (toggleRunning initialComponent) 9) as (_ & H).
  - reflexivity.
  - discriminate.
  - discriminate.
  - discriminate.
  - split; constructor.
  - exact H.
Defined.

(** ** A change of grain *)




(** ** Messages and phases *)

Lemma cooling_calls (g : GrainProfile) (c t : Q) (r : Latches) :
  0 < c ->
  Forall (fun cl => message_phase (c_message cl)
                    = if Qltb t (c * 0.95) then COOLING else DONE)
    (callsOf (coolingBlock g (Fin c) (Fin t) r)).
Proof.
  intros Hc.
  assert (Hd : ~ c * 0.15 == 0) by lra.
  unfold coolingBlock, callsOf. cbn [fst snd]. cbn zeta.
  rewrite !mul_Fin, !sub_Fin, (div_Fin _ _ Hd). cbn [ltb].
  apply Forall_app. split.
  - destruct (Qltb ((t + - (c * 0.85)) / (c * 0.15)) 0.3) eqn:P;
      cbn [andb]; [|constructor].
    destruct (floor_rem_is_zero t 30); [|constructor].
    constructor; [|constructor]. cbn [c_message message_phase].
    to_order.
    assert (E : t + - (c * 0.85)
                == (t + - (c * 0.85)) / (c * 0.15) * (c * 0.15))
      by (field; lra).
    assert (L : (t + - (c * 0.85)) / (c * 0.15) * (c * 0.15)
                < 0.3 * (c * 0.15))
      by (apply Qmult_lt_compat_r; lra).
    rewrite (proj2 (Qltb_lt t (c * 0.95))) by lra. reflexivity.
  - destruct (Qltb t (c * 0.95)); cbn [phase_eqb andb]; [constructor|].
    destruct (floor_rem_is_zero t 20); constructor; [reflexivity|constructor].
Qed.

(** X18.  With a positive cook time every message that an invocation sends
    to the log belongs to the phase of the sample it returns: scan,
    composition, onset and microwave status only with MICROWAVE, the
    transfer message only with TRANSFER, gelatinization-complete and the
    two pressure messages only with PRESSURE, depressurizing only with
    COOLING (never with DONE) and cooking-complete only with DONE. *)
Theorem messages_belong_to_the_phase (g : GrainProfile) (t : Q) (r : Latches) :
  0 < optimal_cook_time g ->
  Forall (fun cl => message_phase (c_message cl)
                    = phase (sample (simulateCooking g (Fin t) r)))
    (calls (simulateCooking g (Fin t) r)).
Proof.
  intros Hc. apply positive_cook_time in Hc.
  rewrite sample_phase. rewrite simulateCooking_blocks. cbn zeta. cbn [calls].
  unfold phaseAt. apply Forall_app. split.
  - unfold nirBlock. cbn [eqb].
    destruct (Qeq_bool t 0 && negb (nirScanLogged r)) eqn:E;
      cbn [fst]; [|constructor].
    apply andb_prop in E. destruct E as [E _]. apply Qeq_bool_iff in E.
    rewrite (proj2 (Qltb_lt t (cookSeconds g * 0.45))) by lra.
    repeat constructor.
  - destruct (phaseBlock_cases g t (snd (nirBlock g (Fin t) r)))
      as [[A1 E]|[(A1 & A2 & E)|[(A1 & A2 & A3 & E)|(A1 & A2 & A3 & E)]]];
      rewrite E; clear E.
    + rewrite (proj2 (Qltb_lt _ _) A1).
      unfold microwaveBlock, callsOf. cbn [fst snd]. cbn zeta.
      apply Forall_app. split; case_if; repeat constructor.
    + rewrite (proj2 (Qltb_ge _ _) A1), (proj2 (Qltb_lt _ _) A2).
      unfold transferBlock, callsOf. cbn [fst snd].
      case_if; repeat constructor.
    + rewrite (proj2 (Qltb_ge _ _) A1), (proj2 (Qltb_ge _ _) A2),
        (proj2 (Qltb_lt _ _) A3).
      unfold pressureBlock, callsOf. cbn [fst snd]. cbn zeta.
      apply Forall_app. split; repeat case_if; repeat constructor.
    + rewrite (proj2 (Qltb_ge _ _) A1), (proj2 (Qltb_ge _ _) A2),
        (proj2 (Qltb_ge _ _) A3).
      apply cooling_calls. exact Hc.
Qed.

Lemma messages_belong_witness :
  Forall (fun cl => message_phase (c_message cl)
                    = phase (sample (simulateCooking basmati_rice (Fin 480)
                                       initialLatches)))
    (calls (simulateCooking basmati_rice (Fin 480) initialLatches)).
Proof.
  apply (messages_belong_to_the_phase basmati_rice 480 initialLatches).
  reflexivity.
Defined.

(** ** Latches and samples *)

Lemma phaseBlock_reading_independent (g : GrainProfile) (t : num)
  (r1 r2 : Latches) :
  readingOf (phaseBlock g t r1) = readingOf (phaseBlock g t r2).
Proof.
  unfold phaseBlock, microwaveBlock, transferBlock, pressureBlock,
    coolingBlock, readingOf.
  cbn zeta. repeat case_if; reflexivity.
Qed.

(** X19.  The latches gate log entries only: the sample that an invocation
    returns, and the phase and transformation it displays, are the same
    whatever the four latches are. *)
Theorem sample_independent_of_latches (g : GrainProfile) (t : num)
  (r1 r2 : Latches) :
  sample (simulateCooking g t r1) = sample (simulateCooking g t r2)
  /\ shownPhase (simulateCooking g t r1) = shownPhase (simulateCooking g t r2)
  /\ shownTransformation (simulateCooking g t r1)
     = shownTransformation (simulateCooking g t r2).
Proof.
  rewrite !simulateCooking_blocks. cbn zeta.
  cbn [sample shownPhase shownTransformation].
  rewrite (phaseBlock_reading_independent g t (snd (nirBlock g t r1))
             (snd (nirBlock g t r2))).
  repeat split.
Qed.

Lemma phaseBlock_latches (g : GrainProfile) (t : num) (r : Latches) :
  let b := phaseBlock g t r in
  gelOnsetLogged (latchesOf b)
  = gelOnsetLogged r || (count_calls is_onset (callsOf b) =? 1)%nat
  /\ transferLogged (latchesOf b)
     = transferLogged r || (count_calls is_transfer (callsOf b) =? 1)%nat
  /\ gelCompleteLogged (latchesOf b)
     = gelCompleteLogged r || (count_calls is_complete (callsOf b) =? 1)%nat.
Proof.
  cbn zeta. destruct r as [n o c tr].
  unfold phaseBlock, microwaveBlock, transferBlock, pressureBlock,
    coolingBlock, callsOf, latchesOf.
  cbn [nirScanLogged gelOnsetLogged gelCompleteLogged transferLogged].
  destruct o, c, tr;
    cbn [negb]; rewrite ?andb_false_r, ?andb_true_r;
    repeat case_if;
    cbn [fst snd app count_calls c_message is_scan is_composition is_onset
         is_transfer is_complete set_nirScanLogged set_gelOnsetLogged
         set_gelCompleteLogged set_transferLogged nirScanLogged gelOnsetLogged
         gelCompleteLogged transferLogged];
    repeat split; reflexivity.
Qed.

Lemma nirBlock_latch (g : GrainProfile) (t : num) (r : Latches) :
  nirScanLogged (snd (nirBlock g t r))
  = nirScanLogged r || (count_calls is_scan (fst (nirBlock g t r)) =? 1)%nat.
Proof.
  unfold nirBlock. destruct r as [n o c tr]. cbn [nirScanLogged].
  destruct n; cbn [negb]; rewrite ?andb_false_r, ?andb_true_r;
    try case_if; reflexivity.
Qed.

(** X20.  A latch is set by an invocation exactly when the invocation emits
    the event of the latch: afterwards each latch is set if and only if it
    was set before or its event is among the calls of the invocation (once).
    No latch is set without its event, and no one-shot event is emitted
    without its latch being set. *)
Theorem latch_set_exactly_with_its_event (g : GrainProfile) (t : num)
  (r : Latches) :
  let inv := simulateCooking g t r in
  nirScanLogged (latches inv)
  = nirScanLogged r || (count_calls is_scan (calls inv) =? 1)%nat
  /\ count_calls is_composition (calls inv) = count_calls is_scan (calls inv)
  /\ gelOnsetLogged (latches inv)
     = gelOnsetLogged r || (count_calls is_onset (calls inv) =? 1)%nat
  /\ transferLogged (latches inv)
     = transferLogged r || (count_calls is_transfer (calls inv) =? 1)%nat
  /\ gelCompleteLogged (latches inv)
     = gelCompleteLogged r || (count_calls is_complete (calls inv) =? 1)%nat.
Proof.
  cbn zeta. rewrite simulateCooking_blocks. cbn zeta.
  cbn [calls latches]. rewrite !count_calls_app.
  pose proof (nirBlock_budget g t r) as Hn. cbn zeta in Hn.
  destruct Hn as (_ & _ & Hn3 & Hn4 & Hn5 & Hn6 & Hn7 & Hn8).
  pose proof (phaseBlock_budget g t (snd (nirBlock g t r))) as Hp.
  cbn zeta in Hp. destruct Hp as (Hp1 & Hp2 & Hp3 & _).
  pose proof (phaseBlock_latches g t (snd (nirBlock g t r))) as Hl.
  cbn zeta in Hl. destruct Hl as (Hl1 & Hl2 & Hl3).
  rewrite Hp1, Hp2, Hp3, Hn3, Hn4, Hn5, Hl1, Hl2, Hl3, Hn6, Hn7, Hn8.
  rewrite !Nat.add_0_r. cbn [Nat.add].
  split; [apply nirBlock_latch|]. split; [|repeat split].
  unfold nirBlock. case_if; reflexivity.
Qed.
